(** * Planificador de partidos (Etihad Stadium): validation and slot search

    A shallow embedding of the constraint set ([models/restricciones.py]),
    the validator ([services/validador.py]) and the scheduling engine
    ([services/planificador.py]), with the properties of the design
    document stated and proved over it.

    Conventions.
    - A naive Python [datetime] is a pair: the proleptic Gregorian ordinal
      of its date ([date.toordinal()]) and the microseconds elapsed since
      midnight.  [d.date()] is the first projection, the subtraction of two
      dates is the difference of the ordinals, and comparison is
      lexicographic.  The range check of Python (years 1..9999) is left out.
    - A Python [dict] is an association list in insertion order.
    - [datetime.now()] is an input: one reading for the operations that read
      the clock once, a sequence of readings for those that call it inside
      a loop or a comprehension (the horizon search, [eliminar_recurso]). *)

From Stdlib Require Import ZArith List Lia Bool Permutation.
From Stdlib Require Import Sorting.Sorted.
From Stdlib Require Import Strings.String Strings.Ascii Numbers.DecimalString.
Import ListNotations.

Open Scope string_scope.
Open Scope Z_scope.

(* ===================================================================== *)
(** ** Text formatting (Python's [str] and f-string fields)               *)
(* ===================================================================== *)

Definition str_nat (n : nat) : string := NilZero.string_of_uint (Nat.to_uint n).

Definition str_Z (z : Z) : string := NilZero.string_of_int (Z.to_int z).

(** [%d], [%m], [%H] and [%M] of [strftime]: two digits, zero padded. *)
Definition pad2 (z : Z) : string :=
  if z <? 10 then "0" ++ str_Z z else str_Z z.

(** [xs.append(x)] *)
Definition list_append {A : Type} (xs : list A) (x : A) : list A := (xs ++ [x])%list.

(** The text of one line feed, written with a backslash and [n] in Python. *)
Definition salto_de_linea : string := String (ascii_of_nat 10) "".

(** [sep.join(xs)] *)
Definition join (sep : string) (xs : list string) : string := String.concat sep xs.

(* ===================================================================== *)
(** ** datetime                                                           *)
(* ===================================================================== *)

Record DateTime := mkDateTime { ordinal : Z; micros : Z }.

Definition MICROS_POR_HORA : Z := 3600000000.
Definition MICROS_POR_DIA : Z := 24 * MICROS_POR_HORA.

(** [f.date()], as its ordinal: [(a.date() - b.date()).days] is
    [date a - date b]. *)
Definition date (f : DateTime) : Z := ordinal f.

Definition dt_ltb (a b : DateTime) : bool :=
  (ordinal a <? ordinal b) || ((ordinal a =? ordinal b) && (micros a <? micros b)).

Definition dt_leb (a b : DateTime) : bool :=
  (ordinal a <? ordinal b) || ((ordinal a =? ordinal b) && (micros a <=? micros b)).

Definition dt_gtb (a b : DateTime) : bool := dt_ltb b a.
Definition dt_geb (a b : DateTime) : bool := dt_leb b a.

(** [f + timedelta(days=d)] *)
Definition mas_dias (f : DateTime) (d : Z) : DateTime :=
  mkDateTime (ordinal f + d) (micros f).

(** [f + timedelta(hours=h)] *)
Definition mas_horas (f : DateTime) (h : Z) : DateTime :=
  let m := micros f + h * MICROS_POR_HORA in
  mkDateTime (ordinal f + m / MICROS_POR_DIA) (m mod MICROS_POR_DIA).

(** [f.replace(hour=h, minute=0, second=0, microsecond=0)] *)
Definition replace_hora (f : DateTime) (h : Z) : DateTime :=
  mkDateTime (ordinal f) (h * MICROS_POR_HORA).

(** Year, month and day of an ordinal, as the standard library computes
    them ([datetime._ord2ymd]). *)
Definition DAYS_IN_MONTH (m : Z) : Z :=
  match m with
  | 1 => 31 | 2 => 28 | 3 => 31 | 4 => 30 | 5 => 31 | 6 => 30
  | 7 => 31 | 8 => 31 | 9 => 30 | 10 => 31 | 11 => 30 | 12 => 31
  | _ => 0
  end.

Definition DAYS_BEFORE_MONTH (m : Z) : Z :=
  match m with
  | 1 => 0 | 2 => 31 | 3 => 59 | 4 => 90 | 5 => 120 | 6 => 151
  | 7 => 181 | 8 => 212 | 9 => 243 | 10 => 273 | 11 => 304 | 12 => 334
  | _ => 0
  end.

Definition ord2ymd (n0 : Z) : Z * Z * Z :=
  let n := n0 - 1 in
  let n400 := n / 146097 in
  let n := n mod 146097 in
  let year := n400 * 400 + 1 in
  let n100 := n / 36524 in
  let n := n mod 36524 in
  let n4 := n / 1461 in
  let n := n mod 1461 in
  let n1 := n / 365 in
  let n := n mod 365 in
  let year := year + n100 * 100 + n4 * 4 + n1 in
  if (n1 =? 4) || (n100 =? 4) then (year - 1, 12, 31)
  else
    let leapyear := (n1 =? 3) && (negb (n4 =? 24) || (n100 =? 3)) in
    let month := Z.shiftr (n + 50) 5 in
    let preceding :=
      DAYS_BEFORE_MONTH month + (if (2 <? month) && leapyear then 1 else 0) in
    if n <? preceding then
      let month := month - 1 in
      let preceding :=
        preceding
        - (DAYS_IN_MONTH month + (if (month =? 2) && leapyear then 1 else 0)) in
      (year, month, n - preceding + 1)
    else (year, month, n - preceding + 1).

(** [f.strftime('%d/%m/%Y')] *)
Definition strftime_fecha (f : DateTime) : string :=
  let '(y, m, d) := ord2ymd (ordinal f) in
  pad2 d ++ "/" ++ pad2 m ++ "/" ++ str_Z y.

(** [f.strftime('%d/%m/%Y %H:%M')] *)
Definition strftime_fecha_hora (f : DateTime) : string :=
  strftime_fecha f ++ " "
  ++ pad2 (micros f / MICROS_POR_HORA) ++ ":"
  ++ pad2 ((micros f mod MICROS_POR_HORA) / 60000000).

(* ===================================================================== *)
(** ** models/recurso.py                                                  *)
(* ===================================================================== *)

Inductive TipoArbitro := PRINCIPAL | LINEA | CUARTO.

Definition tipo_eqb (a b : TipoArbitro) : bool :=
  match a, b with
  | PRINCIPAL, PRINCIPAL | LINEA, LINEA | CUARTO, CUARTO => true
  | _, _ => false
  end.

(** [TipoArbitro.value] *)
Definition tipo_value (t : TipoArbitro) : string :=
  match t with
  | PRINCIPAL => "Árbitro Principal"
  | LINEA => "Árbitro de Línea"
  | CUARTO => "Cuarto Árbitro"
  end.

(** The fields that class [Arbitro] adds to [Recurso]. *)
Record DatosArbitro := mkDatosArbitro {
  tipo : TipoArbitro;
  nacionalidad : string;
  experiencia_anios : Z
}.

Module Recurso.
(** An object of class [Recurso]; [arbitro] is [Some] exactly for the
    instances of the subclass [Arbitro]. *)
Record t := mk {
  id : string;
  nombre : string;
  descripcion : string;
  arbitro : option DatosArbitro
}.
End Recurso.

(** [isinstance(recurso, Arbitro)] *)
Definition es_arbitro (r : Recurso.t) : bool :=
  match Recurso.arbitro r with Some _ => true | None => false end.

(** [Arbitro(nombre, tipo, nacionalidad, experiencia_anios)], with the
    generated identifier given. *)
Definition Arbitro (id nombre : string) (t : TipoArbitro)
    (nac : string) (exp : Z) : Recurso.t :=
  Recurso.mk id nombre (tipo_value t ++ " - " ++ nac)
             (Some (mkDatosArbitro t nac exp)).

(* ===================================================================== *)
(** ** models/evento.py                                                   *)
(* ===================================================================== *)

Module Evento.
(** An object of class [Evento]; [equipos] is [Some (local, visitante)]
    exactly for the instances of the subclass [Partido]. *)
Record t := mk {
  id : string;
  nombre : string;
  fecha_inicio : DateTime;
  fecha_fin : DateTime;
  recursos : list Recurso.t;
  equipos : option (string * string)
}.
End Evento.

(** [Partido(equipo_local, equipo_visitante, fecha_inicio, fecha_fin,
    recursos)], with the generated identifier given. *)
Definition Partido (id loc vis : string) (fi ff : DateTime)
    (rs : list Recurso.t) : Evento.t :=
  Evento.mk id (loc ++ " vs " ++ vis) fi ff rs (Some (loc, vis)).

(** [Evento.se_superpone_con] *)
Definition se_superpone_con (self : Evento.t)
    (otra_fecha_inicio otra_fecha_fin : DateTime) : bool :=
  negb (dt_leb (Evento.fecha_fin self) otra_fecha_inicio
        || dt_geb (Evento.fecha_inicio self) otra_fecha_fin).

(** [any(r.id == recurso_id for r in evento.recursos)] *)
Definition contiene_recurso (self : Evento.t) (recurso_id : string) : bool :=
  existsb (fun r => String.eqb (Recurso.id r) recurso_id) (Evento.recursos self).

(* ===================================================================== *)
(** ** models/restricciones.py: RestriccionCoRequisito                    *)
(* ===================================================================== *)

Definition ARBITROS_PRINCIPALES_REQUERIDOS : nat := 1.
Definition ARBITROS_LINEA_REQUERIDOS : nat := 2.
Definition CUARTOS_ARBITROS_REQUERIDOS : nat := 1.

(** The dictionary [conteo], keyed by the three members of the enum. *)
Definition Conteo := TipoArbitro -> nat.

Definition conteo_inicial : Conteo := fun _ => 0%nat.

(** [conteo[t] += 1] *)
Definition conteo_inc (c : Conteo) (t : TipoArbitro) : Conteo :=
  fun t' => if tipo_eqb t t' then S (c t') else c t'.

(** The counting loop.  [recurso.tipo in conteo] holds for every member of
    the enum, so the inner test never fails. *)
Fixpoint contar_arbitros (recursos : list Recurso.t) (conteo : Conteo) : Conteo :=
  match recursos with
  | [] => conteo
  | recurso :: resto =>
      match Recurso.arbitro recurso with
      | Some a => contar_arbitros resto (conteo_inc conteo (tipo a))
      | None => contar_arbitros resto conteo
      end
  end.

Definition msg_falta_principal (n : nat) : string :=
  "Se requiere " ++ str_nat ARBITROS_PRINCIPALES_REQUERIDOS
  ++ " árbitro principal (tiene " ++ str_nat n ++ ")".
Definition msg_sobra_principal (n : nat) : string :=
  "Solo se permite " ++ str_nat ARBITROS_PRINCIPALES_REQUERIDOS
  ++ " árbitro principal (tiene " ++ str_nat n ++ ")".
Definition msg_falta_linea (n : nat) : string :=
  "Se requieren " ++ str_nat ARBITROS_LINEA_REQUERIDOS
  ++ " árbitros de línea (tiene " ++ str_nat n ++ ")".
Definition msg_sobra_linea (n : nat) : string :=
  "Solo se permiten " ++ str_nat ARBITROS_LINEA_REQUERIDOS
  ++ " árbitros de línea (tiene " ++ str_nat n ++ ")".
Definition msg_falta_cuarto (n : nat) : string :=
  "Se requiere " ++ str_nat CUARTOS_ARBITROS_REQUERIDOS
  ++ " cuarto árbitro (tiene " ++ str_nat n ++ ")".
Definition msg_sobra_cuarto (n : nat) : string :=
  "Solo se permite " ++ str_nat CUARTOS_ARBITROS_REQUERIDOS
  ++ " cuarto árbitro (tiene " ++ str_nat n ++ ")".

(** The list [errores] at the end of [RestriccionCoRequisito.validar]. *)
Definition co_requisito_errores (recursos : list Recurso.t) : list string :=
  let conteo := contar_arbitros recursos conteo_inicial in
  let errores := [] in
  let errores :=
    if (conteo PRINCIPAL <? ARBITROS_PRINCIPALES_REQUERIDOS)%nat
    then list_append errores (msg_falta_principal (conteo PRINCIPAL))
    else if (ARBITROS_PRINCIPALES_REQUERIDOS <? conteo PRINCIPAL)%nat
    then list_append errores (msg_sobra_principal (conteo PRINCIPAL))
    else errores in
  let errores :=
    if (conteo LINEA <? ARBITROS_LINEA_REQUERIDOS)%nat
    then list_append errores (msg_falta_linea (conteo LINEA))
    else if (ARBITROS_LINEA_REQUERIDOS <? conteo LINEA)%nat
    then list_append errores (msg_sobra_linea (conteo LINEA))
    else errores in
  let errores :=
    if (conteo CUARTO <? CUARTOS_ARBITROS_REQUERIDOS)%nat
    then list_append errores (msg_falta_cuarto (conteo CUARTO))
    else if (CUARTOS_ARBITROS_REQUERIDOS <? conteo CUARTO)%nat
    then list_append errores (msg_sobra_cuarto (conteo CUARTO))
    else errores in
  errores.

(** [RestriccionCoRequisito.validar] *)
Definition co_requisito_validar (recursos : list Recurso.t)
    (fecha_inicio fecha_fin : DateTime) (eventos_existentes : list Evento.t)
    : bool * string :=
  match co_requisito_errores recursos with
  | [] => (true, "")
  | errores => (false, join "; " errores)
  end.

(* ===================================================================== *)
(** ** models/restricciones.py: RestriccionExclusionMutua                 *)
(* ===================================================================== *)

(** [RestriccionExclusionMutua._calcular_dias_diferencia] *)
Definition calcular_dias_diferencia (fecha1 fecha2 : DateTime) : Z :=
  Z.abs (date fecha1 - date fecha2).

Definition msg_sin_descanso (dias_descanso : Z) (recurso : Recurso.t)
    (evento : Evento.t) (dias_diferencia : Z) : string :=
  Recurso.nombre recurso ++ " no tiene suficiente descanso. "
  ++ "Tiene partido el " ++ strftime_fecha (Evento.fecha_inicio evento) ++ " "
  ++ "(" ++ str_Z dias_diferencia ++ " días de diferencia, "
  ++ "mínimo requerido: " ++ str_Z dias_descanso ++ " días)".

(** The inner loop of [RestriccionExclusionMutua.validar], over the existing
    events, for one referee of the candidate. *)
Fixpoint exclusion_bucle_eventos (dias_descanso : Z) (recurso : Recurso.t)
    (fecha_inicio : DateTime) (eventos_existentes : list Evento.t)
    (errores : list string) : list string :=
  match eventos_existentes with
  | [] => errores
  | evento :: resto =>
      let arbitro_en_evento := contiene_recurso evento (Recurso.id recurso) in
      let errores :=
        if arbitro_en_evento then
          let dias_diferencia :=
            calcular_dias_diferencia fecha_inicio (Evento.fecha_inicio evento) in
          if dias_diferencia <? dias_descanso
          then list_append errores
                 (msg_sin_descanso dias_descanso recurso evento dias_diferencia)
          else errores
        else errores in
      exclusion_bucle_eventos dias_descanso recurso fecha_inicio resto errores
  end.

(** The outer loop, over the resources of the candidate. *)
Fixpoint exclusion_bucle_recursos (dias_descanso : Z) (recursos : list Recurso.t)
    (fecha_inicio : DateTime) (eventos_existentes : list Evento.t)
    (errores : list string) : list string :=
  match recursos with
  | [] => errores
  | recurso :: resto =>
      let errores :=
        if es_arbitro recurso
        then exclusion_bucle_eventos dias_descanso recurso fecha_inicio
               eventos_existentes errores
        else errores in
      exclusion_bucle_recursos dias_descanso resto fecha_inicio
        eventos_existentes errores
  end.

Definition exclusion_mutua_errores (dias_descanso : Z)
    (recursos : list Recurso.t) (fecha_inicio : DateTime)
    (eventos_existentes : list Evento.t) : list string :=
  exclusion_bucle_recursos dias_descanso recursos fecha_inicio
    eventos_existentes [].

(** [RestriccionExclusionMutua.validar] *)
Definition exclusion_mutua_validar (dias_descanso : Z)
    (recursos : list Recurso.t) (fecha_inicio fecha_fin : DateTime)
    (eventos_existentes : list Evento.t) : bool * string :=
  match exclusion_mutua_errores dias_descanso recursos fecha_inicio
          eventos_existentes with
  | [] => (true, "")
  | errores => (false, join "; " errores)
  end.

(* ===================================================================== *)
(** ** models/restricciones.py: RestriccionDescansoEstadio                *)
(* ===================================================================== *)

Definition msg_conflicto_horario (evento : Evento.t) : string :=
  "Conflicto de horario: Ya existe el partido '" ++ Evento.nombre evento ++ "' "
  ++ "programado para " ++ strftime_fecha_hora (Evento.fecha_inicio evento).

Definition msg_descanso_estadio (dias_descanso : Z) (evento : Evento.t)
    (dias : Z) : string :=
  "El estadio necesita " ++ str_Z dias_descanso ++ " días de descanso. "
  ++ "Hay un partido el " ++ strftime_fecha (Evento.fecha_inicio evento) ++ " "
  ++ "(solo " ++ str_Z dias ++ " día(s) de diferencia)".

(** [RestriccionDescansoEstadio.validar] *)
Fixpoint descanso_estadio_validar (dias_descanso : Z)
    (recursos : list Recurso.t) (fecha_inicio fecha_fin : DateTime)
    (eventos_existentes : list Evento.t) : bool * string :=
  match eventos_existentes with
  | [] => (true, "")
  | evento :: resto =>
      if se_superpone_con evento fecha_inicio fecha_fin
      then (false, msg_conflicto_horario evento)
      else
        let dias_antes := date fecha_inicio - date (Evento.fecha_fin evento) in
        let dias_despues := date (Evento.fecha_inicio evento) - date fecha_fin in
        if (0 <=? dias_antes) && (dias_antes <? dias_descanso)
        then (false, msg_descanso_estadio dias_descanso evento dias_antes)
        else if (0 <=? dias_despues) && (dias_despues <? dias_descanso)
        then (false, msg_descanso_estadio dias_descanso evento dias_despues)
        else descanso_estadio_validar dias_descanso recursos
               fecha_inicio fecha_fin resto
  end.

(** The subclasses of [Restriccion] and the dispatch of [nombre] and
    [validar]. *)
Inductive Restriccion :=
  | RestriccionCoRequisito
  | RestriccionExclusionMutua (dias_descanso : Z)
  | RestriccionDescansoEstadio (dias_descanso : Z).

Definition restriccion_nombre (r : Restriccion) : string :=
  match r with
  | RestriccionCoRequisito => "Co-requisito de Árbitros"
  | RestriccionExclusionMutua _ => "Descanso de Árbitros"
  | RestriccionDescansoEstadio _ => "Descanso del Estadio"
  end.

Definition restriccion_validar (r : Restriccion) (recursos : list Recurso.t)
    (fecha_inicio fecha_fin : DateTime) (eventos_existentes : list Evento.t)
    : bool * string :=
  match r with
  | RestriccionCoRequisito =>
      co_requisito_validar recursos fecha_inicio fecha_fin eventos_existentes
  | RestriccionExclusionMutua d =>
      exclusion_mutua_validar d recursos fecha_inicio fecha_fin eventos_existentes
  | RestriccionDescansoEstadio d =>
      descanso_estadio_validar d recursos fecha_inicio fecha_fin eventos_existentes
  end.

(* ===================================================================== *)
(** ** services/validador.py                                              *)
(* ===================================================================== *)

Definition DIAS_DESCANSO_ESTADIO : Z := 2.
Definition DIAS_DESCANSO_ARBITROS : Z := 7.

Record Validador := mkValidador { restricciones : list Restriccion }.

(** [Validador.__init__] *)
Definition Validador_init : Validador :=
  mkValidador [ RestriccionCoRequisito;
                RestriccionExclusionMutua DIAS_DESCANSO_ARBITROS;
                RestriccionDescansoEstadio DIAS_DESCANSO_ESTADIO ].

Definition msg_conflicto_estadio (evento : Evento.t) : string :=
  "Conflicto de horario: Ya existe el partido "
  ++ "'" ++ Evento.nombre evento ++ "' programado del "
  ++ strftime_fecha_hora (Evento.fecha_inicio evento) ++ " al "
  ++ strftime_fecha_hora (Evento.fecha_fin evento).

Definition msg_estadio_descanso (evento : Evento.t) (dias : Z) : string :=
  "El estadio necesita " ++ str_Z DIAS_DESCANSO_ESTADIO ++ " días "
  ++ "de descanso entre partidos. Hay un partido el "
  ++ strftime_fecha (Evento.fecha_inicio evento) ++ " "
  ++ "(solo " ++ str_Z dias ++ " día(s) de diferencia)".

(** [Validador.validar_conflicto_estadio] *)
Fixpoint validar_conflicto_estadio (fecha_inicio fecha_fin : DateTime)
    (eventos_existentes : list Evento.t) : bool * string :=
  match eventos_existentes with
  | [] => (true, "")
  | evento :: resto =>
      if se_superpone_con evento fecha_inicio fecha_fin
      then (false, msg_conflicto_estadio evento)
      else
        let dias_antes := date fecha_inicio - date (Evento.fecha_fin evento) in
        let dias_despues := date (Evento.fecha_inicio evento) - date fecha_fin in
        if (0 <=? dias_antes) && (dias_antes <? DIAS_DESCANSO_ESTADIO)
        then (false, msg_estadio_descanso evento dias_antes)
        else if (0 <=? dias_despues) && (dias_despues <? DIAS_DESCANSO_ESTADIO)
        then (false, msg_estadio_descanso evento dias_despues)
        else validar_conflicto_estadio fecha_inicio fecha_fin resto
  end.

Definition msg_no_disponible (arbitro : Recurso.t) (evento : Evento.t)
    (dias_diferencia : Z) : string :=
  Recurso.nombre arbitro ++ " no está disponible. "
  ++ "Tiene partido el "
  ++ strftime_fecha (Evento.fecha_inicio evento) ++ " "
  ++ "y necesita " ++ str_Z DIAS_DESCANSO_ARBITROS ++ " días de descanso "
  ++ "(solo hay " ++ str_Z dias_diferencia ++ " día(s) de diferencia)".

(** [Validador.validar_disponibilidad_arbitro] *)
Fixpoint validar_disponibilidad_arbitro (arbitro : Recurso.t)
    (fecha_inicio fecha_fin : DateTime) (eventos_existentes : list Evento.t)
    : bool * string :=
  match eventos_existentes with
  | [] => (true, "")
  | evento :: resto =>
      let arbitro_en_evento := contiene_recurso evento (Recurso.id arbitro) in
      if arbitro_en_evento then
        let dias_diferencia :=
          Z.abs (date fecha_inicio - date (Evento.fecha_inicio evento)) in
        if dias_diferencia <? DIAS_DESCANSO_ARBITROS
        then (false, msg_no_disponible arbitro evento dias_diferencia)
        else validar_disponibilidad_arbitro arbitro fecha_inicio fecha_fin resto
      else validar_disponibilidad_arbitro arbitro fecha_inicio fecha_fin resto
  end.

(** [Validador.validar_restricciones]: the list [errores]. *)
Fixpoint validar_restricciones_bucle (rs : list Restriccion)
    (recursos : list Recurso.t) (fecha_inicio fecha_fin : DateTime)
    (eventos_existentes : list Evento.t) (errores : list string) : list string :=
  match rs with
  | [] => errores
  | restriccion :: resto =>
      let '(es_valido, mensaje) :=
        restriccion_validar restriccion recursos fecha_inicio fecha_fin
          eventos_existentes in
      let errores :=
        if negb es_valido
        then list_append errores
               ("[" ++ restriccion_nombre restriccion ++ "] " ++ mensaje)
        else errores in
      validar_restricciones_bucle resto recursos fecha_inicio fecha_fin
        eventos_existentes errores
  end.

(** [len(errores) == 0] *)
Definition lista_vacia {A : Type} (l : list A) : bool :=
  match l with [] => true | _ => false end.

(** [Validador.validar_restricciones] *)
Definition validar_restricciones (self : Validador) (recursos : list Recurso.t)
    (fecha_inicio fecha_fin : DateTime) (eventos_existentes : list Evento.t)
    : bool * list string :=
  let errores :=
    validar_restricciones_bucle (restricciones self) recursos
      fecha_inicio fecha_fin eventos_existentes [] in
  (lista_vacia errores, errores).

(** [mensaje in errores] *)
Definition en_lista (mensaje : string) (errores : list string) : bool :=
  existsb (String.eqb mensaje) errores.

(** Step 2 of [validar_evento_completo]: the availability of each referee
    of the candidate. *)
Fixpoint disponibilidad_bucle (recursos : list Recurso.t)
    (fecha_inicio fecha_fin : DateTime) (eventos_existentes : list Evento.t)
    (errores : list string) : list string :=
  match recursos with
  | [] => errores
  | recurso :: resto =>
      let errores :=
        if es_arbitro recurso then
          let '(valido, mensaje) :=
            validar_disponibilidad_arbitro recurso fecha_inicio fecha_fin
              eventos_existentes in
          if negb valido then list_append errores mensaje else errores
        else errores in
      disponibilidad_bucle resto fecha_inicio fecha_fin eventos_existentes errores
  end.

(** Step 3: the messages of the restrictions, added when not yet present. *)
Fixpoint agregar_sin_duplicados (mensajes errores : list string) : list string :=
  match mensajes with
  | [] => errores
  | mensaje :: resto =>
      let errores :=
        if negb (en_lista mensaje errores)
        then list_append errores mensaje
        else errores in
      agregar_sin_duplicados resto errores
  end.

(** [Validador.validar_evento_completo] *)
Definition validar_evento_completo (self : Validador) (evento : Evento.t)
    (eventos_existentes : list Evento.t) : bool * list string :=
  let errores := [] in
  let '(valido, mensaje) :=
    validar_conflicto_estadio (Evento.fecha_inicio evento)
      (Evento.fecha_fin evento) eventos_existentes in
  let errores := if negb valido then list_append errores mensaje else errores in
  let errores :=
    disponibilidad_bucle (Evento.recursos evento) (Evento.fecha_inicio evento)
      (Evento.fecha_fin evento) eventos_existentes errores in
  let '(valido, mensajes_restricciones) :=
    validar_restricciones self (Evento.recursos evento)
      (Evento.fecha_inicio evento) (Evento.fecha_fin evento)
      eventos_existentes in
  let errores := agregar_sin_duplicados mensajes_restricciones errores in
  (lista_vacia errores, errores).

(* ===================================================================== *)
(** ** Python dictionaries with string keys, in insertion order           *)
(* ===================================================================== *)

Definition Dict (V : Type) : Type := list (string * V).

(** [k in d] *)
Definition dict_contains {V : Type} (k : string) (d : Dict V) : bool :=
  existsb (fun kv => String.eqb (fst kv) k) d.

(** [d.get(k)] *)
Fixpoint dict_get {V : Type} (k : string) (d : Dict V) : option V :=
  match d with
  | [] => None
  | (k', v) :: resto => if String.eqb k' k then Some v else dict_get k resto
  end.

(** [d[k] = v]: a present key keeps its place, a new one goes last. *)
Fixpoint dict_set {V : Type} (k : string) (v : V) (d : Dict V) : Dict V :=
  match d with
  | [] => [(k, v)]
  | (k', v') :: resto =>
      if String.eqb k' k then (k', v) :: resto
      else (k', v') :: dict_set k v resto
  end.

(** [del d[k]] for a present key. *)
Fixpoint dict_del {V : Type} (k : string) (d : Dict V) : Dict V :=
  match d with
  | [] => []
  | (k', v') :: resto =>
      if String.eqb k' k then resto else (k', v') :: dict_del k resto
  end.

(** [d.values()] *)
Definition dict_values {V : Type} (d : Dict V) : list V := map snd d.

(* ===================================================================== *)
(** ** services/planificador.py                                           *)
(* ===================================================================== *)

Record PlanificadorEventos := mkPlanificador {
  eventos : Dict Evento.t;
  recursos : Dict Recurso.t;
  validador : Validador
}.

(** [PlanificadorEventos.__init__] *)
Definition Planificador_init : PlanificadorEventos :=
  mkPlanificador [] [] Validador_init.

(** [agregar_recurso]: the result and the state after the call. *)
Definition agregar_recurso (self : PlanificadorEventos) (recurso : Recurso.t)
    : bool * PlanificadorEventos :=
  if negb (dict_contains (Recurso.id recurso) (recursos self))
  then (true,
        mkPlanificador (eventos self)
          (dict_set (Recurso.id recurso) recurso (recursos self))
          (validador self))
  else (false, self).

(** [obtener_eventos] *)
Definition obtener_eventos (self : PlanificadorEventos) : list Evento.t :=
  dict_values (eventos self).

(** [sorted(l, key=lambda e: e.fecha_inicio)]: a stable sort. *)
Fixpoint insertar_por_fecha (e : Evento.t) (l : list Evento.t) : list Evento.t :=
  match l with
  | [] => [e]
  | x :: resto =>
      if dt_ltb (Evento.fecha_inicio e) (Evento.fecha_inicio x)
      then e :: x :: resto
      else x :: insertar_por_fecha e resto
  end.

Definition sorted_por_fecha (l : list Evento.t) : list Evento.t :=
  fold_left (fun acc e => insertar_por_fecha e acc) l [].

(** [obtener_eventos_recurso] *)
Definition obtener_eventos_recurso (self : PlanificadorEventos)
    (recurso_id : string) : list Evento.t :=
  sorted_por_fecha
    (filter (fun evento => contiene_recurso evento recurso_id)
            (dict_values (eventos self))).

(** The clock: [reloj n] is what the [n]-th call of [datetime.now()] made
    during one call of a method returns. *)
Definition Reloj := nat -> DateTime.

(** [[e for e in eventos_futuros if e.fecha_inicio > datetime.now()]]: the
    condition is evaluated for each element in turn and reads the clock each
    time.  [n] counts the readings made so far. *)
Fixpoint filtrar_futuros (reloj : Reloj) (n : nat) (l : list Evento.t)
    : list Evento.t :=
  match l with
  | [] => []
  | e :: resto =>
      if dt_gtb (Evento.fecha_inicio e) (reloj n)
      then e :: filtrar_futuros reloj (S n) resto
      else filtrar_futuros reloj (S n) resto
  end.

(** [eliminar_recurso]: the result and the state after the call.  The clock
    is read once for each event of the resource, in the order of the sorted
    list. *)
Definition eliminar_recurso (self : PlanificadorEventos) (recurso_id : string)
    (reloj : Reloj) : (bool * string) * PlanificadorEventos :=
  if negb (dict_contains recurso_id (recursos self))
  then ((false, "Recurso no encontrado"), self)
  else
    let eventos_futuros := obtener_eventos_recurso self recurso_id in
    let eventos_futuros := filtrar_futuros reloj 0 eventos_futuros in
    if negb (lista_vacia eventos_futuros)
    then ((false,
           "No se puede eliminar: el recurso está asignado a "
           ++ str_nat (List.length eventos_futuros) ++ " evento(s) futuro(s)"),
          self)
    else ((true, "Recurso eliminado exitosamente"),
          mkPlanificador (eventos self) (dict_del recurso_id (recursos self))
            (validador self)).

(** [obtener_recursos_por_tipo] *)
Definition obtener_recursos_por_tipo (self : PlanificadorEventos)
    (t : TipoArbitro) : list Recurso.t :=
  filter (fun r => match Recurso.arbitro r with
                   | Some a => tipo_eqb (tipo a) t
                   | None => false
                   end)
         (dict_values (recursos self)).

(** [verificar_disponibilidad_recurso] *)
Definition verificar_disponibilidad_recurso (self : PlanificadorEventos)
    (recurso : Recurso.t) (fecha_inicio fecha_fin : DateTime) : bool * string :=
  let eventos_existentes := obtener_eventos self in
  if es_arbitro recurso
  then validar_disponibilidad_arbitro recurso fecha_inicio fecha_fin
         eventos_existentes
  else (true, "").

(** The loop of [obtener_arbitros_disponibles]. *)
Fixpoint arbitros_disponibles_bucle (self : PlanificadorEventos)
    (arbitros_tipo : list Recurso.t) (fecha_inicio fecha_fin : DateTime)
    (excluir_ids : list string) (disponibles : list Recurso.t)
    : list Recurso.t :=
  match arbitros_tipo with
  | [] => disponibles
  | arbitro :: resto =>
      if existsb (String.eqb (Recurso.id arbitro)) excluir_ids
      then arbitros_disponibles_bucle self resto fecha_inicio fecha_fin
             excluir_ids disponibles
      else
        let '(disponible, _) :=
          verificar_disponibilidad_recurso self arbitro fecha_inicio fecha_fin in
        let disponibles :=
          if disponible then list_append disponibles arbitro else disponibles in
        arbitros_disponibles_bucle self resto fecha_inicio fecha_fin
          excluir_ids disponibles
  end.

(** [obtener_arbitros_disponibles] *)
Definition obtener_arbitros_disponibles (self : PlanificadorEventos)
    (t : TipoArbitro) (fecha_inicio fecha_fin : DateTime)
    (excluir_ids : list string) : list Recurso.t :=
  let arbitros_tipo := obtener_recursos_por_tipo self t in
  arbitros_disponibles_bucle self arbitros_tipo fecha_inicio fecha_fin
    excluir_ids [].

(** [planificar_evento]: the result and the state after the call. *)
Definition planificar_evento (self : PlanificadorEventos) (evento : Evento.t)
    : (bool * string) * PlanificadorEventos :=
  let eventos_existentes := obtener_eventos self in
  let '(es_valido, errores) :=
    validar_evento_completo (validador self) evento eventos_existentes in
  if negb es_valido
  then ((false, join salto_de_linea errores), self)
  else ((true, "Evento planificado exitosamente"),
        mkPlanificador (dict_set (Evento.id evento) evento (eventos self))
          (recursos self) (validador self)).

(** [eliminar_evento] *)
Definition eliminar_evento (self : PlanificadorEventos) (evento_id : string)
    : (bool * string) * PlanificadorEventos :=
  match dict_get evento_id (eventos self) with
  | None => ((false, "Evento no encontrado"), self)
  | Some evento =>
      ((true, "Evento '" ++ Evento.nombre evento ++ "' eliminado exitosamente"),
       mkPlanificador (dict_del evento_id (eventos self)) (recursos self)
         (validador self))
  end.

(** [a or b] and [a if a is not None else b] on an optional argument (a
    [datetime] is never falsy). *)
Definition o_bien {A : Type} (a : option A) (b : A) : A :=
  match a with Some x => x | None => b end.

(** [modificar_evento]; [id_temp] is the identifier generated for the
    temporary event. *)
Definition modificar_evento (self : PlanificadorEventos) (evento_id : string)
    (nueva_fecha_inicio nueva_fecha_fin : option DateTime)
    (nuevos_recursos : option (list Recurso.t)) (id_temp : string)
    : (bool * string) * PlanificadorEventos :=
  match dict_get evento_id (eventos self) with
  | None => ((false, "Evento no encontrado"), self)
  | Some evento_original =>
      let fecha_inicio :=
        o_bien nueva_fecha_inicio (Evento.fecha_inicio evento_original) in
      let fecha_fin :=
        o_bien nueva_fecha_fin (Evento.fecha_fin evento_original) in
      let recursos_ev :=
        o_bien nuevos_recursos (Evento.recursos evento_original) in
      let evento_temp :=
        match Evento.equipos evento_original with
        | Some (loc, vis) =>
            Partido id_temp loc vis fecha_inicio fecha_fin recursos_ev
        | None =>
            Evento.mk id_temp (Evento.nombre evento_original)
              fecha_inicio fecha_fin recursos_ev None
        end in
      let eventos_sin_original :=
        filter (fun e => negb (String.eqb (Evento.id e) evento_id))
               (dict_values (eventos self)) in
      let '(es_valido, errores) :=
        validar_evento_completo (validador self) evento_temp
          eventos_sin_original in
      if negb es_valido
      then ((false, join salto_de_linea errores), self)
      else
        let evento_mod :=
          Evento.mk (Evento.id evento_original) (Evento.nombre evento_original)
            fecha_inicio fecha_fin recursos_ev
            (Evento.equipos evento_original) in
        ((true, "Evento modificado exitosamente"),
         mkPlanificador (dict_set evento_id evento_mod (eventos self))
           (recursos self) (validador self))
  end.

(** The dictionary returned by [_obtener_arbitros_disponibles_todos_tipos],
    with its three keys. *)
Record ArbitrosDisponibles := mkDisponibles {
  arbitro_principal : list Recurso.t;
  arbitro_de_linea : list Recurso.t;
  cuarto_arbitro : list Recurso.t
}.

(** [_verificar_disponibilidad_estadio] *)
Definition verificar_disponibilidad_estadio (self : PlanificadorEventos)
    (fecha_inicio fecha_fin : DateTime) : bool :=
  let eventos_existentes := obtener_eventos self in
  let '(valido, _) :=
    validar_conflicto_estadio fecha_inicio fecha_fin eventos_existentes in
  valido.

(** [_obtener_arbitros_disponibles_todos_tipos] *)
Definition obtener_arbitros_disponibles_todos_tipos
    (self : PlanificadorEventos) (fecha_inicio fecha_fin : DateTime)
    : ArbitrosDisponibles :=
  mkDisponibles
    (obtener_arbitros_disponibles self PRINCIPAL fecha_inicio fecha_fin [])
    (obtener_arbitros_disponibles self LINEA fecha_inicio fecha_fin [])
    (obtener_arbitros_disponibles self CUARTO fecha_inicio fecha_fin []).

(** [_hay_equipo_arbitral_completo] *)
Definition hay_equipo_arbitral_completo (d : ArbitrosDisponibles) : bool :=
  (1 <=? List.length (arbitro_principal d))%nat
  && (2 <=? List.length (arbitro_de_linea d))%nat
  && (1 <=? List.length (cuarto_arbitro d))%nat.

Definition horarios_partido : list Z := [12; 15; 17; 20].

(** The [for hora in horarios_partido] loop of [buscar_proximo_horario] for
    one day.  [n] counts the readings of the clock made so far; the result
    is the slot found, if any, and the new count. *)
Fixpoint buscar_en_horas (self : PlanificadorEventos) (reloj : Reloj) (n : nat)
    (fecha_actual : DateTime) (duracion_horas : Z) (horas : list Z)
    : option (DateTime * ArbitrosDisponibles) * nat :=
  match horas with
  | [] => (None, n)
  | hora :: resto =>
      let fecha_inicio := replace_hora fecha_actual hora in
      let ahora := reloj n in
      if dt_ltb fecha_inicio ahora
      then buscar_en_horas self reloj (S n) fecha_actual duracion_horas resto
      else
        let fecha_fin := mas_horas fecha_inicio duracion_horas in
        let estadio_disponible :=
          verificar_disponibilidad_estadio self fecha_inicio fecha_fin in
        if negb estadio_disponible
        then buscar_en_horas self reloj (S n) fecha_actual duracion_horas resto
        else
          let arbitros_disponibles :=
            obtener_arbitros_disponibles_todos_tipos self fecha_inicio fecha_fin in
          if hay_equipo_arbitral_completo arbitros_disponibles
          then (Some (fecha_inicio, arbitros_disponibles), S n)
          else buscar_en_horas self reloj (S n) fecha_actual duracion_horas resto
  end.

(** The result of a loop run with a bound on its iterations. *)
Inductive Bucle (A : Type) :=
  | Termina (a : A)
  | SinCombustible.
Arguments Termina {A} a.
Arguments SinCombustible {A}.

(** The [while fecha_actual < fecha_limite] loop, for at most [combustible]
    iterations. *)
Fixpoint buscar_en_dias (combustible : nat) (self : PlanificadorEventos)
    (reloj : Reloj) (n : nat) (fecha_actual fecha_limite : DateTime)
    (duracion_horas : Z)
    : Bucle (option (DateTime * ArbitrosDisponibles)) :=
  if dt_ltb fecha_actual fecha_limite then
    match combustible with
    | O => SinCombustible
    | S combustible' =>
        match buscar_en_horas self reloj n fecha_actual duracion_horas
                horarios_partido with
        | (Some r, _) => Termina (Some r)
        | (None, n') =>
            buscar_en_dias combustible' self reloj n' (mas_dias fecha_actual 1)
              fecha_limite duracion_horas
        end
    end
  else Termina None.

(** [buscar_proximo_horario]: the loop runs [max_dias_busqueda] times at
    most, which is the bound given to it. *)
Definition buscar_proximo_horario (self : PlanificadorEventos) (reloj : Reloj)
    (fecha_desde : DateTime) (duracion_horas max_dias_busqueda : Z)
    : Bucle (option (DateTime * ArbitrosDisponibles)) :=
  let fecha_actual := fecha_desde in
  let fecha_limite := mas_dias fecha_desde max_dias_busqueda in
  buscar_en_dias (Z.to_nat max_dias_busqueda) self reloj 0%nat
    fecha_actual fecha_limite duracion_horas.

(* ===================================================================== *)
(** ** Notions of the design document                                     *)
(* ===================================================================== *)

(** Order on timestamps. *)
Definition dt_lt (a b : DateTime) : Prop := dt_ltb a b = true.
Definition dt_le (a b : DateTime) : Prop := dt_leb a b = true.

(** The number of referees of category [t] in a candidate set. *)
Definition es_de_tipo (t : TipoArbitro) (r : Recurso.t) : bool :=
  match Recurso.arbitro r with
  | Some a => tipo_eqb (tipo a) t
  | None => false
  end.

Definition cuenta_tipo (t : TipoArbitro) (rs : list Recurso.t) : nat :=
  List.length (filter (es_de_tipo t) rs).

(** The quota of each category. *)
Definition cuota (t : TipoArbitro) : nat :=
  match t with
  | PRINCIPAL => 1
  | LINEA => 2
  | CUARTO => 1
  end%nat.

(** A deviation from the quota: too few or too many of a category. *)
Inductive Desviacion :=
  | Faltan (t : TipoArbitro)
  | Sobran (t : TipoArbitro).

Definition desviacion (t : TipoArbitro) (n : nat) : option Desviacion :=
  if (n <? cuota t)%nat then Some (Faltan t)
  else if (cuota t <? n)%nat then Some (Sobran t)
  else None.

(** The reason reported for a deviation, given the number found. *)
Definition motivo (d : Desviacion) (n : nat) : string :=
  match d with
  | Faltan PRINCIPAL => msg_falta_principal n
  | Sobran PRINCIPAL => msg_sobra_principal n
  | Faltan LINEA => msg_falta_linea n
  | Sobran LINEA => msg_sobra_linea n
  | Faltan CUARTO => msg_falta_cuarto n
  | Sobran CUARTO => msg_sobra_cuarto n
  end.

Definition motivos (t : TipoArbitro) (n : nat) : list string :=
  match desviacion t n with
  | Some d => [motivo d n]
  | None => []
  end.

(** The number of categories whose count is not the quota. *)
Definition categorias_desviadas (rs : list Recurso.t) : nat :=
  List.length
    (filter (fun t => negb (cuenta_tipo t rs =? cuota t)%nat)
            [PRINCIPAL; LINEA; CUARTO]).

(** A referee of the candidate and an existing event that holds it, with
    start dates less than [dias] calendar days apart. *)
Definition en_conflicto (dias : Z) (fi : DateTime) (r : Recurso.t)
    (ev : Evento.t) : bool :=
  contiene_recurso ev (Recurso.id r)
  && (Z.abs (date fi - date (Evento.fecha_inicio ev)) <? dias).

(** All the conflicts of a candidate: each referee of the candidate, in
    order, with each conflicting event, in order. *)
Definition conflictos_descanso (dias : Z) (rs : list Recurso.t)
    (fi : DateTime) (evs : list Evento.t) : list (Recurso.t * Evento.t) :=
  flat_map
    (fun r => if es_arbitro r
              then map (pair r) (filter (en_conflicto dias fi r) evs)
              else [])
    rs.

Definition msg_conflicto_descanso (dias : Z) (fi : DateTime)
    (c : Recurso.t * Evento.t) : string :=
  msg_sin_descanso dias (fst c) (snd c)
    (Z.abs (date fi - date (Evento.fecha_inicio (snd c)))).

(** An event with another end. *)
Definition con_fecha_fin (ev : Evento.t) (ff : DateTime) : Evento.t :=
  Evento.mk (Evento.id ev) (Evento.nombre ev) (Evento.fecha_inicio ev) ff
    (Evento.recursos ev) (Evento.equipos ev).

(** The half-open interval [[s, e)] and the intersection of two of them. *)
Definition en_intervalo (t s e : DateTime) : Prop := dt_le s t /\ dt_lt t e.

Definition intervalos_intersecan (s1 e1 s2 e2 : DateTime) : Prop :=
  exists t, en_intervalo t s1 e1 /\ en_intervalo t s2 e2.

(** The two boundary gaps of a candidate against an existing event, in
    calendar days. *)
Definition dias_antes (fi : DateTime) (ev : Evento.t) : Z :=
  date fi - date (Evento.fecha_fin ev).

Definition dias_despues (ff : DateTime) (ev : Evento.t) : Z :=
  date (Evento.fecha_inicio ev) - date ff.

(** A gap that lies in [[0, dias)]. *)
Definition falta_descanso (dias gap : Z) : bool := (0 <=? gap) && (gap <? dias).

(** The candidate window against one existing event: no overlap, and no
    gap short of the threshold. *)
Definition estadio_libre (dias : Z) (fi ff : DateTime) (ev : Evento.t) : bool :=
  negb (se_superpone_con ev fi ff)
  && negb (falta_descanso dias (dias_antes fi ev))
  && negb (falta_descanso dias (dias_despues ff ev)).

(** [sub in s] on texts. *)
Definition contiene_texto (sub s : string) : bool :=
  match String.index 0 sub s with
  | Some _ => true
  | None => false
  end.

(** Sample data: Christmas 2024 at the Etihad.  25/12/2024 is day 739245. *)
Definition dia_25_dic : Z := 739245.

Definition a_las (dia hora : Z) : DateTime :=
  mkDateTime dia (hora * MICROS_POR_HORA).

Definition oliver : Recurso.t :=
  Arbitro "p1" "Michael Oliver" PRINCIPAL "Inglaterra" 15.
Definition beswick : Recurso.t :=
  Arbitro "l1" "Gary Beswick" LINEA "Inglaterra" 12.
Definition nunn : Recurso.t :=
  Arbitro "l2" "Adam Nunn" LINEA "Inglaterra" 9.
Definition madley : Recurso.t :=
  Arbitro "c1" "Andy Madley" CUARTO "Inglaterra" 8.

Definition equipo_arbitral : list Recurso.t := [oliver; beswick; nunn; madley].

(** Two stored matches two days apart, and a late kickoff on the day of
    the first that ends at midnight. *)
Definition partido_noche : Evento.t :=
  Partido "e1" "Manchester City" "Arsenal"
    (a_las dia_25_dic 21) (a_las dia_25_dic 23) equipo_arbitral.

Definition partido_27 : Evento.t :=
  Partido "e2" "Manchester City" "Chelsea"
    (a_las (dia_25_dic + 2) 12) (a_las (dia_25_dic + 2) 14) [].

Definition inicio_tardio : DateTime := a_las dia_25_dic 22.
Definition fin_tardio : DateTime := mas_horas inicio_tardio 2.

(** The messages that the three steps of the full validation produce. *)
Definition mensaje_estadio (evento : Evento.t) (evs : list Evento.t)
    : list string :=
  let r := validar_conflicto_estadio (Evento.fecha_inicio evento)
             (Evento.fecha_fin evento) evs in
  if fst r then [] else [snd r].

Definition mensajes_disponibilidad (evento : Evento.t) (evs : list Evento.t)
    : list string :=
  flat_map
    (fun a =>
       if es_arbitro a then
         let r := validar_disponibilidad_arbitro a (Evento.fecha_inicio evento)
                    (Evento.fecha_fin evento) evs in
         if fst r then [] else [snd r]
       else [])
    (Evento.recursos evento).

Definition mensaje_restriccion (c : Restriccion) (evento : Evento.t)
    (evs : list Evento.t) : string :=
  "[" ++ restriccion_nombre c ++ "] "
  ++ snd (restriccion_validar c (Evento.recursos evento)
            (Evento.fecha_inicio evento) (Evento.fecha_fin evento) evs).

Definition mensajes_restricciones (self : Validador) (evento : Evento.t)
    (evs : list Evento.t) : list string :=
  flat_map
    (fun c =>
       if fst (restriccion_validar c (Evento.recursos evento)
                 (Evento.fecha_inicio evento) (Evento.fecha_fin evento) evs)
       then []
       else [mensaje_restriccion c evento evs])
    (restricciones self).

(** No text occurs twice. *)
Fixpoint sin_duplicados (l : list string) : bool :=
  match l with
  | [] => true
  | x :: resto => negb (en_lista x resto) && sin_duplicados resto
  end.

(** Two Line referees of the same name, a match with them, and the return
    match three days later with the same team. *)
Definition smith_padre : Recurso.t :=
  Arbitro "l3" "John Smith" LINEA "Inglaterra" 20.
Definition smith_hijo : Recurso.t :=
  Arbitro "l4" "John Smith" LINEA "Inglaterra" 2.

Definition equipo_smith : list Recurso.t :=
  [oliver; smith_padre; smith_hijo; madley].

Definition partido_ida : Evento.t :=
  Partido "e3" "Manchester City" "Liverpool"
    (a_las dia_25_dic 15) (a_las dia_25_dic 17) equipo_smith.

Definition partido_vuelta : Evento.t :=
  Partido "e4" "Manchester City" "Liverpool"
    (a_las (dia_25_dic + 3) 15) (a_las (dia_25_dic + 3) 17) equipo_smith.

(** A dictionary holds each key once. *)
Definition claves_unicas {V : Type} (d : Dict V) : Prop := NoDup (map fst d).

(** The resource is one of the resources of the event. *)
Definition asignado_a (recurso_id : string) (ev : Evento.t) : Prop :=
  exists r, In r (Evento.recursos ev) /\ Recurso.id r = recurso_id.

(** Some stored event holds the resource and starts strictly after
    [ahora]. *)
Definition tiene_eventos_futuros (self : PlanificadorEventos)
    (recurso_id : string) (ahora : DateTime) : Prop :=
  exists ev,
    In ev (dict_values (eventos self))
    /\ asignado_a recurso_id ev
    /\ dt_lt ahora (Evento.fecha_inicio ev).

(** Some event of a list starts strictly after the moment at which it is
    examined, the [i]-th event being examined at the reading [i] of the
    clock. *)
Definition futuro_al_examinarlo (reloj : Reloj) (l : list Evento.t) : Prop :=
  exists i ev,
    nth_error l i = Some ev /\ dt_lt (reloj i) (Evento.fecha_inicio ev).

(** The first [n] readings of the clock lie between [desde] and [hasta]:
    a check that reads the clock [n] times takes place in that interval. *)
Definition lecturas_entre (reloj : Reloj) (n : nat) (desde hasta : DateTime)
    : Prop :=
  forall i, (i < n)%nat -> dt_le desde (reloj i) /\ dt_le (reloj i) hasta.

(** [eliminar_evento] called for each identifier of a list. *)
Definition eliminar_eventos (self : PlanificadorEventos) (ids : list string)
    : PlanificadorEventos :=
  fold_left (fun s k => snd (eliminar_evento s k)) ids self.

(** The invariant of the design document on the stored events. *)
Definition fin_posterior (ev : Evento.t) : Prop :=
  dt_lt (Evento.fecha_inicio ev) (Evento.fecha_fin ev).

Definition eventos_bien_formados (self : PlanificadorEventos) : Prop :=
  Forall fin_posterior (dict_values (eventos self)).

(** A match that ends two hours before it starts, with a complete team. *)
Definition partido_invertido : Evento.t :=
  Partido "e9" "Manchester City" "Everton"
    (a_las dia_25_dic 17) (a_las dia_25_dic 15) equipo_arbitral.

(** The candidate kickoffs of the horizon search, in the order in which
    they are tried: day by day from the day of [fecha_desde], and on each
    day at 12:00, 15:00, 17:00 and 20:00. *)
Definition candidatos_del_dia (f : DateTime) : list DateTime :=
  map (replace_hora f) horarios_partido.

Definition candidatos (fecha_desde : DateTime) (max_dias_busqueda : Z)
    : list DateTime :=
  flat_map (fun k => candidatos_del_dia (mas_dias fecha_desde (Z.of_nat k)))
           (seq 0 (Z.to_nat max_dias_busqueda)).

(** A candidate is taken when, at the reading [ahora] of the clock, it is
    not strictly in the past, the stadium is free and every category has
    its quota of available referees. *)
Definition aceptable (self : PlanificadorEventos) (duracion_horas : Z)
    (ahora c : DateTime) : bool :=
  negb (dt_ltb c ahora)
  && verificar_disponibilidad_estadio self c (mas_horas c duracion_horas)
  && hay_equipo_arbitral_completo
       (obtener_arbitros_disponibles_todos_tipos self c
          (mas_horas c duracion_horas)).

(** The first candidate of a list that is taken, the [i]-th candidate
    being tried at the reading [n + i] of the clock. *)
Fixpoint primero_aceptable (self : PlanificadorEventos) (reloj : Reloj)
    (duracion_horas : Z) (n : nat) (cs : list DateTime)
    : option (DateTime * ArbitrosDisponibles) :=
  match cs with
  | [] => None
  | c :: resto =>
      if aceptable self duracion_horas (reloj n) c
      then Some (c, obtener_arbitros_disponibles_todos_tipos self c
                      (mas_horas c duracion_horas))
      else primero_aceptable self reloj duracion_horas (S n) resto
  end.

(** A planner with one complete team and no match, and a clock that shows
    noon of the 25th. *)
Definition plantel : PlanificadorEventos :=
  mkPlanificador []
    [("p1", oliver); ("l1", beswick); ("l2", nunn); ("c1", madley)]
    Validador_init.

Definition reloj_mediodia : Reloj := fun _ => a_las dia_25_dic 12.

(** A match a month later, and the planner of the sample team with the
    night match of the 25th stored. *)
Definition partido_enero : Evento.t :=
  Partido "e5" "Manchester City" "Tottenham"
    (a_las (dia_25_dic + 30) 15) (a_las (dia_25_dic + 30) 17) equipo_arbitral.

Definition plantel_con_partido : PlanificadorEventos :=
  mkPlanificador [("e1", partido_noche)] (recursos plantel) Validador_init.

(** The same planner with the match of January stored as well, a clock
    that advances by a microsecond at each reading from noon of the 25th,
    and a clock that jumps to noon of a month later after its first
    reading. *)
Definition plantel_dos_partidos : PlanificadorEventos :=
  mkPlanificador [("e1", partido_noche); ("e5", partido_enero)]
    (recursos plantel) Validador_init.

Definition reloj_en_marcha : Reloj :=
  fun n => mkDateTime dia_25_dic (12 * MICROS_POR_HORA + Z.of_nat n).

Definition reloj_con_salto (primera : DateTime) : Reloj :=
  fun n => match n with
           | O => primera
           | S _ => a_las (dia_25_dic + 31) 12
           end.

(** A ball that is listed among the resources of a match. *)
Definition balon : Recurso.t := Recurso.mk "x1" "Balon oficial" "" None.

(* ===================================================================== *)
(** ** The rest of models/restricciones.py and services/validador.py      *)
(* ===================================================================== *)

Definition msg_partido_asignado (evento : Evento.t) (dias_diferencia : Z)
    : string :=
  "Partido asignado el " ++ strftime_fecha (Evento.fecha_inicio evento) ++ " "
  ++ "(" ++ str_Z dias_diferencia ++ " días de diferencia)".

(** [RestriccionExclusionMutua.verificar_disponibilidad_arbitro] *)
Fixpoint verificar_disponibilidad_arbitro (dias_descanso : Z)
    (arbitro : Recurso.t) (fecha_inicio : DateTime)
    (eventos_existentes : list Evento.t) : bool * string :=
  match eventos_existentes with
  | [] => (true, "")
  | evento :: resto =>
      let arbitro_en_evento := contiene_recurso evento (Recurso.id arbitro) in
      if arbitro_en_evento then
        let dias_diferencia :=
          calcular_dias_diferencia fecha_inicio (Evento.fecha_inicio evento) in
        if dias_diferencia <? dias_descanso
        then (false, msg_partido_asignado evento dias_diferencia)
        else verificar_disponibilidad_arbitro dias_descanso arbitro
               fecha_inicio resto
      else verificar_disponibilidad_arbitro dias_descanso arbitro
             fecha_inicio resto
  end.

(** The dictionary [conteo] of [verificar_equipo_arbitral_completo], with
    its three keys. *)
Record ConteoEquipo := mkConteoEquipo {
  conteo_principal : nat;
  conteo_linea : nat;
  conteo_cuarto : nat
}.

Fixpoint contar_equipo (recursos : list Recurso.t) (conteo : ConteoEquipo)
    : ConteoEquipo :=
  match recursos with
  | [] => conteo
  | recurso :: resto =>
      let conteo :=
        match Recurso.arbitro recurso with
        | Some a =>
            match tipo a with
            | PRINCIPAL =>
                mkConteoEquipo (S (conteo_principal conteo))
                  (conteo_linea conteo) (conteo_cuarto conteo)
            | LINEA =>
                mkConteoEquipo (conteo_principal conteo)
                  (S (conteo_linea conteo)) (conteo_cuarto conteo)
            | CUARTO =>
                mkConteoEquipo (conteo_principal conteo)
                  (conteo_linea conteo) (S (conteo_cuarto conteo))
            end
        | None => conteo
        end in
      contar_equipo resto conteo
  end.

(** [verificar_equipo_arbitral_completo] *)
Definition verificar_equipo_arbitral_completo (recursos : list Recurso.t)
    : bool * ConteoEquipo :=
  let conteo := contar_equipo recursos (mkConteoEquipo 0 0 0) in
  let equipo_completo :=
    (conteo_principal conteo =? ARBITROS_PRINCIPALES_REQUERIDOS)%nat
    && (conteo_linea conteo =? ARBITROS_LINEA_REQUERIDOS)%nat
    && (conteo_cuarto conteo =? CUARTOS_ARBITROS_REQUERIDOS)%nat in
  (equipo_completo, conteo).

(** [ValidadorRestricciones]: the list of its restrictions. *)
Record ValidadorRestricciones := mkValidadorRestricciones {
  vr_restricciones : list Restriccion
}.

(** [agregar_restriccion], of both validators. *)
Definition agregar_restriccion (rs : list Restriccion) (r : Restriccion)
    : list Restriccion :=
  list_append rs r.

(** [remover_restriccion], of both validators: the result and the list
    after the call. *)
Fixpoint remover_restriccion (rs : list Restriccion) (nombre : string)
    : bool * list Restriccion :=
  match rs with
  | [] => (false, [])
  | restriccion :: resto =>
      if String.eqb (restriccion_nombre restriccion) nombre
      then (true, resto)
      else
        let '(b, resto') := remover_restriccion resto nombre in
        (b, restriccion :: resto')
  end.

(** [ValidadorRestricciones.validar_todas] *)
Definition validar_todas (self : ValidadorRestricciones)
    (recursos : list Recurso.t) (fecha_inicio fecha_fin : DateTime)
    (eventos_existentes : list Evento.t) : bool * list string :=
  let errores :=
    validar_restricciones_bucle (vr_restricciones self) recursos
      fecha_inicio fecha_fin eventos_existentes [] in
  (lista_vacia errores, errores).

(** [crear_validador_estadio] *)
Definition crear_validador_estadio : ValidadorRestricciones :=
  let validador := mkValidadorRestricciones [] in
  let validador :=
    mkValidadorRestricciones
      (agregar_restriccion (vr_restricciones validador) RestriccionCoRequisito) in
  let validador :=
    mkValidadorRestricciones
      (agregar_restriccion (vr_restricciones validador)
         (RestriccionExclusionMutua 7)) in
  let validador :=
    mkValidadorRestricciones
      (agregar_restriccion (vr_restricciones validador)
         (RestriccionDescansoEstadio 2)) in
  validador.

(* ===================================================================== *)
(** ** The rest of models/evento.py                                       *)
(* ===================================================================== *)

(** [Evento.agregar_recurso]: the result and the event after the call. *)
Definition evento_agregar_recurso (self : Evento.t) (recurso : Recurso.t)
    : bool * Evento.t :=
  if negb (contiene_recurso self (Recurso.id recurso))
  then (true,
        Evento.mk (Evento.id self) (Evento.nombre self)
          (Evento.fecha_inicio self) (Evento.fecha_fin self)
          (list_append (Evento.recursos self) recurso) (Evento.equipos self))
  else (false, self).

(** The loop of [Evento.remover_recurso] over the list of resources. *)
Fixpoint remover_de_lista (recursos : list Recurso.t) (recurso_id : string)
    : bool * list Recurso.t :=
  match recursos with
  | [] => (false, [])
  | recurso :: resto =>
      if String.eqb (Recurso.id recurso) recurso_id
      then (true, resto)
      else
        let '(b, resto') := remover_de_lista resto recurso_id in
        (b, recurso :: resto')
  end.

(** [Evento.remover_recurso] *)
Definition evento_remover_recurso (self : Evento.t) (recurso_id : string)
    : bool * Evento.t :=
  let '(b, recursos') := remover_de_lista (Evento.recursos self) recurso_id in
  (b,
   Evento.mk (Evento.id self) (Evento.nombre self)
     (Evento.fecha_inicio self) (Evento.fecha_fin self)
     recursos' (Evento.equipos self)).

(** A [timedelta], normalised as Python keeps it: any number of days,
    seconds in [[0, 86400)], microseconds in [[0, 1000000)]. *)
Record TimeDelta := mkTimeDelta {
  td_days : Z;
  td_seconds : Z;
  td_microseconds : Z
}.

(** [a - b] on two [datetime]. *)
Definition dt_resta (a b : DateTime) : TimeDelta :=
  let total := (ordinal a - ordinal b) * MICROS_POR_DIA + (micros a - micros b) in
  let resto := total mod MICROS_POR_DIA in
  mkTimeDelta (total / MICROS_POR_DIA) (resto / 1000000) (resto mod 1000000).

(** [Evento._calcular_duracion] *)
Definition calcular_duracion (self : Evento.t) : string :=
  let diferencia := dt_resta (Evento.fecha_fin self) (Evento.fecha_inicio self) in
  let horas := td_seconds diferencia / 3600 in
  let minutos := (td_seconds diferencia mod 3600) / 60 in
  if (0 <? horas) && (0 <? minutos)
  then str_Z horas ++ " hora(s) " ++ str_Z minutos ++ " minuto(s)"
  else if 0 <? horas
  then str_Z horas ++ " hora(s)"
  else str_Z minutos ++ " minuto(s)".

(** A resource that is no referee, or a referee that no event of the list
    holds with a start date less than [dias] days from [fi]. *)
Definition descansado (dias : Z) (fi : DateTime) (evs : list Evento.t)
    (r : Recurso.t) : bool :=
  negb (es_arbitro r)
  || forallb (fun e => negb (en_conflicto dias fi r e)) evs.

(** The candidate set holds exactly the quota of each category. *)
Definition cuotas_exactas (rs : list Recurso.t) : bool :=
  (cuenta_tipo PRINCIPAL rs =? 1)%nat
  && (cuenta_tipo LINEA rs =? 2)%nat
  && (cuenta_tipo CUARTO rs =? 1)%nat.

(* ===================================================================== *)
(** ** The rest of services/planificador.py                               *)
(* ===================================================================== *)

(** [obtener_recurso] *)
Definition obtener_recurso (self : PlanificadorEventos) (recurso_id : string)
    : option Recurso.t :=
  dict_get recurso_id (recursos self).

(** [obtener_todos_recursos] *)
Definition obtener_todos_recursos (self : PlanificadorEventos)
    : list Recurso.t :=
  dict_values (recursos self).

(** [obtener_evento] *)
Definition obtener_evento (self : PlanificadorEventos) (evento_id : string)
    : option Evento.t :=
  dict_get evento_id (eventos self).

(** [sorted(l, key=lambda e: e.fecha_inicio, reverse=True)]: the stable
    sort in descending order. *)
Fixpoint insertar_por_fecha_desc (e : Evento.t) (l : list Evento.t)
    : list Evento.t :=
  match l with
  | [] => [e]
  | x :: resto =>
      if dt_ltb (Evento.fecha_inicio x) (Evento.fecha_inicio e)
      then e :: x :: resto
      else x :: insertar_por_fecha_desc e resto
  end.

Definition sorted_por_fecha_desc (l : list Evento.t) : list Evento.t :=
  fold_left (fun acc e => insertar_por_fecha_desc e acc) l [].

(** [obtener_eventos_futuros]; [ahora] is the reading of the clock. *)
Definition obtener_eventos_futuros (self : PlanificadorEventos)
    (ahora : DateTime) : list Evento.t :=
  let futuros :=
    filter (fun e => dt_gtb (Evento.fecha_inicio e) ahora)
           (dict_values (eventos self)) in
  sorted_por_fecha futuros.

(** [obtener_eventos_pasados] *)
Definition obtener_eventos_pasados (self : PlanificadorEventos)
    (ahora : DateTime) : list Evento.t :=
  let pasados :=
    filter (fun e => dt_leb (Evento.fecha_inicio e) ahora)
           (dict_values (eventos self)) in
  sorted_por_fecha_desc pasados.

(** [obtener_eventos_en_rango] *)
Definition obtener_eventos_en_rango (self : PlanificadorEventos)
    (fecha_inicio fecha_fin : DateTime) : list Evento.t :=
  sorted_por_fecha
    (filter (fun evento => se_superpone_con evento fecha_inicio fecha_fin)
            (dict_values (eventos self))).

(** The dictionary returned by [sugerir_arbitros], with its three keys. *)
Record Sugerencia := mkSugerencia {
  sug_principal : Recurso.t;
  sug_linea : list Recurso.t;
  sug_cuarto : Recurso.t
}.

(** [sugerir_arbitros].  The two [[0]] are reached only after the check of
    the complete team, which leaves each of the two lists with an element:
    the last branch stands for an [IndexError] that cannot occur. *)
Definition sugerir_arbitros (self : PlanificadorEventos)
    (fecha_inicio fecha_fin : DateTime) : option Sugerencia :=
  let arbitros_disponibles :=
    obtener_arbitros_disponibles_todos_tipos self fecha_inicio fecha_fin in
  if negb (hay_equipo_arbitral_completo arbitros_disponibles) then None
  else
    match arbitro_principal arbitros_disponibles,
          cuarto_arbitro arbitros_disponibles with
    | p :: _, c :: _ =>
        Some (mkSugerencia p (firstn 2 (arbitro_de_linea arbitros_disponibles)) c)
    | _, _ => None
    end.

(** The dictionaries returned by [obtener_estadisticas]. *)
Record ArbitrosPorTipo := mkArbitrosPorTipo {
  apt_principales : nat;
  apt_linea : nat;
  apt_cuartos : nat
}.

Record Estadisticas := mkEstadisticas {
  est_total_eventos : nat;
  est_eventos_futuros : nat;
  est_eventos_pasados : nat;
  est_total_recursos : nat;
  est_arbitros_por_tipo : ArbitrosPorTipo;
  est_proximo_partido : option Evento.t
}.

(** [l[0] if l else None] *)
Definition primero_o_none {A : Type} (l : list A) : option A :=
  match l with
  | [] => None
  | x :: _ => Some x
  end.

(** [obtener_estadisticas] *)
Definition obtener_estadisticas (self : PlanificadorEventos) (ahora : DateTime)
    : Estadisticas :=
  let evs := obtener_eventos self in
  let eventos_futuros :=
    filter (fun e => dt_gtb (Evento.fecha_inicio e) ahora) evs in
  let eventos_pasados :=
    filter (fun e => dt_leb (Evento.fecha_inicio e) ahora) evs in
  let arbitros_por_tipo :=
    mkArbitrosPorTipo
      (List.length (obtener_recursos_por_tipo self PRINCIPAL))
      (List.length (obtener_recursos_por_tipo self LINEA))
      (List.length (obtener_recursos_por_tipo self CUARTO)) in
  mkEstadisticas (List.length evs) (List.length eventos_futuros)
    (List.length eventos_pasados) (List.length (recursos self))
    arbitros_por_tipo (primero_o_none eventos_futuros).

(** The dictionary returned by [obtener_agenda_recurso] for a registered
    resource. *)
Record Agenda := mkAgenda {
  ag_recurso : Recurso.t;
  ag_total_eventos : nat;
  ag_eventos_futuros : list Evento.t;
  ag_eventos_pasados : list Evento.t;
  ag_proximo_evento : option Evento.t
}.

(** [obtener_agenda_recurso]: the agenda, or the text under the key
    [error]. *)
Definition obtener_agenda_recurso (self : PlanificadorEventos)
    (recurso_id : string) (ahora : DateTime) : Agenda + string :=
  match obtener_recurso self recurso_id with
  | None => inr "Recurso no encontrado"
  | Some recurso =>
      let evs := obtener_eventos_recurso self recurso_id in
      let eventos_futuros :=
        filter (fun e => dt_gtb (Evento.fecha_inicio e) ahora) evs in
      let eventos_pasados :=
        filter (fun e => dt_leb (Evento.fecha_inicio e) ahora) evs in
      inl (mkAgenda recurso (List.length evs) eventos_futuros eventos_pasados
             (primero_o_none eventos_futuros))
  end.

(** An event with the changes of a modification applied. *)
Definition evento_modificado (original : Evento.t)
    (nueva_fecha_inicio nueva_fecha_fin : option DateTime)
    (nuevos_recursos : option (list Recurso.t)) : Evento.t :=
  Evento.mk (Evento.id original) (Evento.nombre original)
    (o_bien nueva_fecha_inicio (Evento.fecha_inicio original))
    (o_bien nueva_fecha_fin (Evento.fecha_fin original))
    (o_bien nuevos_recursos (Evento.recursos original))
    (Evento.equipos original).

(** The stored events other than the one of a given identifier. *)
Definition otros_eventos (self : PlanificadorEventos) (evento_id : string)
    : list Evento.t :=
  filter (fun e => negb (String.eqb (Evento.id e) evento_id))
         (dict_values (eventos self)).

(** The team of a suggestion, as the front end lists it for a match. *)
Definition equipo_sugerido (s : Sugerencia) : list Recurso.t :=
  (sug_principal s :: sug_linea s ++ [sug_cuarto s])%list.

(** Lists of events in ascending and in descending order of start. *)
Definition antes_o_igual (a b : Evento.t) : Prop :=
  dt_le (Evento.fecha_inicio a) (Evento.fecha_inicio b).

Definition ascendente (l : list Evento.t) : Prop :=
  StronglySorted antes_o_igual l.

Definition descendente (l : list Evento.t) : Prop :=
  StronglySorted (fun a b => antes_o_igual b a) l.

(* ===================================================================== *)
(** ** models/recurso.py: dictionaries for JSON                           *)
(* ===================================================================== *)

(** The values held by the dictionary of a resource. *)
Inductive Valor :=
  | VStr (s : string)
  | VInt (z : Z).

(** What reading a field gives: the value, the [KeyError] of a missing
    key, or a value of another kind than the field has in the classes
    (Python would store it as it is; a typed record cannot, and such
    dictionaries are outside the model). *)
Inductive Lectura (A : Type) :=
  | Leido (a : A)
  | KeyError (clave : string)
  | OtroTipo (clave : string).
Arguments Leido {A} a.
Arguments KeyError {A} clave.
Arguments OtroTipo {A} clave.

Definition lectura_bind {A B : Type} (x : Lectura A) (f : A -> Lectura B)
    : Lectura B :=
  match x with
  | Leido a => f a
  | KeyError k => KeyError k
  | OtroTipo k => OtroTipo k
  end.

(** [data[clave]], for a text. *)
Definition leer_texto (data : Dict Valor) (clave : string) : Lectura string :=
  match dict_get clave data with
  | None => KeyError clave
  | Some (VStr s) => Leido s
  | Some (VInt _) => OtroTipo clave
  end.

(** [data.get(clave, defecto)], for a text. *)
Definition leer_texto_o (data : Dict Valor) (clave defecto : string)
    : Lectura string :=
  match dict_get clave data with
  | None => Leido defecto
  | Some (VStr s) => Leido s
  | Some (VInt _) => OtroTipo clave
  end.

(** [data.get(clave, defecto)], for a number. *)
Definition leer_entero_o (data : Dict Valor) (clave : string) (defecto : Z)
    : Lectura Z :=
  match dict_get clave data with
  | None => Leido defecto
  | Some (VInt z) => Leido z
  | Some (VStr _) => OtroTipo clave
  end.

(** [self.__class__.__name__] *)
Definition nombre_de_clase (r : Recurso.t) : string :=
  if es_arbitro r then "Arbitro" else "Recurso".

(** [Recurso.to_dict] *)
Definition Recurso_to_dict (self : Recurso.t) : Dict Valor :=
  [("id", VStr (Recurso.id self));
   ("tipo_clase", VStr (nombre_de_clase self));
   ("nombre", VStr (Recurso.nombre self));
   ("descripcion", VStr (Recurso.descripcion self))].

(** [to_dict] as the object dispatches it: [Arbitro.to_dict] for a referee,
    [Recurso.to_dict] otherwise. *)
Definition to_dict (self : Recurso.t) : Dict Valor :=
  match Recurso.arbitro self with
  | Some a =>
      let data := Recurso_to_dict self in
      let data := dict_set "tipo_arbitro" (VStr (tipo_value (tipo a))) data in
      let data := dict_set "nacionalidad" (VStr (nacionalidad a)) data in
      let data := dict_set "experiencia_anios" (VInt (experiencia_anios a)) data in
      data
  | None => Recurso_to_dict self
  end.

(** [Recurso.from_dict] *)
Definition Recurso_from_dict (data : Dict Valor) : Lectura Recurso.t :=
  lectura_bind (leer_texto data "nombre") (fun nombre =>
  lectura_bind (leer_texto_o data "descripcion" "") (fun descripcion =>
  lectura_bind (leer_texto data "id") (fun id =>
  Leido (Recurso.mk id nombre descripcion None)))).

(** [tipo_map.get(data.get('tipo_arbitro'), TipoArbitro.PRINCIPAL)] *)
Definition tipo_de_datos (data : Dict Valor) : TipoArbitro :=
  match dict_get "tipo_arbitro" data with
  | Some (VStr s) =>
      if String.eqb s (tipo_value PRINCIPAL) then PRINCIPAL
      else if String.eqb s (tipo_value LINEA) then LINEA
      else if String.eqb s (tipo_value CUARTO) then CUARTO
      else PRINCIPAL
  | _ => PRINCIPAL
  end.

(** [Arbitro.from_dict] *)
Definition Arbitro_from_dict (data : Dict Valor) : Lectura Recurso.t :=
  let tipo := tipo_de_datos data in
  lectura_bind (leer_texto data "nombre") (fun nombre =>
  lectura_bind (leer_texto_o data "nacionalidad" "Inglaterra") (fun nac =>
  lectura_bind (leer_entero_o data "experiencia_anios" 0) (fun exp =>
  lectura_bind (leer_texto data "id") (fun id =>
  Leido (Arbitro id nombre tipo nac exp))))).

(** The choice between the two that [cargar_desde_dict] makes for each
    entry of the list of resources. *)
Definition recurso_desde_dict (recurso_data : Dict Valor) : Lectura Recurso.t :=
  match dict_get "tipo_clase" recurso_data with
  | Some (VStr "Arbitro") => Arbitro_from_dict recurso_data
  | _ => Recurso_from_dict recurso_data
  end.

(* ===================================================================== *)
(** ** utils/fecha_utils.py                                               *)
(* ===================================================================== *)

Definition HORA_MINIMA_PARTIDO : Z := 10.
Definition HORA_MAXIMA_PARTIDO : Z := 22.

(** [f.weekday()]: 0 is Monday. *)
Definition weekday (f : DateTime) : Z := (ordinal f + 6) mod 7.

(** [f.hour] *)
Definition hour (f : DateTime) : Z := micros f / MICROS_POR_HORA.

(** [f.replace(hour=h, minute=m, second=s, microsecond=0)] *)
Definition replace_hms (f : DateTime) (h m s : Z) : DateTime :=
  mkDateTime (ordinal f) (((h * 60 + m) * 60 + s) * 1000000).

(** [f.replace(minute=0, second=0, microsecond=0)] *)
Definition replace_en_punto (f : DateTime) : DateTime :=
  mkDateTime (ordinal f) (hour f * MICROS_POR_HORA).

(** [obtener_rango_semana] *)
Definition obtener_rango_semana (fecha : DateTime) : DateTime * DateTime :=
  let dias_desde_lunes := weekday fecha in
  let inicio_semana := mas_dias fecha (- dias_desde_lunes) in
  let inicio_semana := replace_hms inicio_semana 0 0 0 in
  let fin_semana := mas_dias inicio_semana 6 in
  let fin_semana := replace_hms fin_semana 23 59 59 in
  (inicio_semana, fin_semana).

(** [fecha_en_rango] *)
Definition fecha_en_rango (fecha inicio fin : DateTime) : bool :=
  dt_leb inicio fecha && dt_leb fecha fin.

(** [es_fin_de_semana] *)
Definition es_fin_de_semana (fecha : DateTime) : bool := 5 <=? weekday fecha.

(** [obtener_proxima_hora_partido], for the base it works on (the argument,
    or the reading of the clock when there is none). *)
Definition obtener_proxima_hora_partido (fecha_base : DateTime) : DateTime :=
  let resto :=
    if HORA_MAXIMA_PARTIDO <=? hour fecha_base then
      let siguiente_dia := mas_dias fecha_base 1 in
      replace_hms siguiente_dia HORA_MINIMA_PARTIDO 0 0
    else replace_hms fecha_base HORA_MINIMA_PARTIDO 0 0 in
  if (HORA_MINIMA_PARTIDO <=? hour fecha_base)
     && (hour fecha_base <? HORA_MAXIMA_PARTIDO)
  then
    let proxima := replace_en_punto fecha_base in
    let proxima := mas_horas proxima 1 in
    if hour proxima <=? HORA_MAXIMA_PARTIDO then proxima else resto
  else resto.

(** A timestamp that a [datetime] can hold: its time of day is within the
    day. *)
Definition hora_valida (f : DateTime) : Prop :=
  0 <= micros f < MICROS_POR_DIA.

(* ===================================================================== *)
(** * Properties                                                          *)
(* ===================================================================== *)

(** ** Co-requisite *)

Lemma contar_arbitros_cuenta :
  forall rs c t, contar_arbitros rs c t = (c t + cuenta_tipo t rs)%nat.
Proof.
  induction rs as [|r rs IH]; intros c t; simpl.
  - unfold cuenta_tipo; simpl; lia.
  - unfold cuenta_tipo, es_de_tipo in *; simpl.
    destruct (Recurso.arbitro r) as [a|]; rewrite IH; auto.
    unfold conteo_inc.
    destruct (tipo a), t; simpl; lia.
Qed.

Lemma conteo_es_cuenta :
  forall rs t, contar_arbitros rs conteo_inicial t = cuenta_tipo t rs.
Proof. intros; rewrite contar_arbitros_cuenta; reflexivity. Qed.

Lemma co_requisito_errores_motivos :
  forall rs,
    co_requisito_errores rs
    = (motivos PRINCIPAL (cuenta_tipo PRINCIPAL rs)
       ++ motivos LINEA (cuenta_tipo LINEA rs)
       ++ motivos CUARTO (cuenta_tipo CUARTO rs))%list.
Proof.
  intros rs. unfold co_requisito_errores, motivos, desviacion.
  rewrite !conteo_es_cuenta.
  unfold ARBITROS_PRINCIPALES_REQUERIDOS, ARBITROS_LINEA_REQUERIDOS,
    CUARTOS_ARBITROS_REQUERIDOS, list_append.
  cbn [cuota motivo].
  destruct (cuenta_tipo PRINCIPAL rs <? 1)%nat, (1 <? cuenta_tipo PRINCIPAL rs)%nat,
    (cuenta_tipo LINEA rs <? 2)%nat, (2 <? cuenta_tipo LINEA rs)%nat,
    (cuenta_tipo CUARTO rs <? 1)%nat, (1 <? cuenta_tipo CUARTO rs)%nat;
    reflexivity.
Qed.

Lemma motivos_vacio :
  forall t n, motivos t n = [] <-> n = cuota t.
Proof.
  intros t n. unfold motivos, desviacion.
  destruct (Nat.ltb_spec n (cuota t)); [split; [discriminate | lia]|].
  destruct (Nat.ltb_spec (cuota t) n); [split; [discriminate | lia]|].
  split; [lia | reflexivity].
Qed.

Lemma motivos_length :
  forall t n,
    List.length (motivos t n) = if (n =? cuota t)%nat then 0%nat else 1%nat.
Proof.
  intros t n. unfold motivos, desviacion.
  destruct (Nat.eqb_spec n (cuota t)) as [->|Hne].
  - rewrite Nat.ltb_irrefl. reflexivity.
  - destruct (Nat.ltb_spec n (cuota t)); [reflexivity|].
    destruct (Nat.ltb_spec (cuota t) n); [reflexivity | lia].
Qed.

Lemma motivo_distinto :
  forall d d' n n', motivo d n = motivo d' n' -> d = d'.
Proof.
  intros [[]|[]] [[]|[]] n n' H; try reflexivity; exfalso; revert H;
    unfold motivo, msg_falta_principal, msg_sobra_principal, msg_falta_linea,
      msg_sobra_linea, msg_falta_cuarto, msg_sobra_cuarto;
    cbn; intros H; discriminate H.
Qed.

(** C1. The co-requisite check passes exactly when the candidate set holds
    1 Principal, 2 Line and 1 Fourth referee.  Its reasons are, in order,
    one per category whose count is not the quota (too few or too many),
    all of them present in the result (joined by a semicolon), and the
    reasons of different deviations are different texts. *)
Theorem C1_co_requisito_cuotas_exactas :
  forall (recursos : list Recurso.t) (fi ff : DateTime) (evs : list Evento.t),
    (fst (co_requisito_validar recursos fi ff evs) = true
     <-> (cuenta_tipo PRINCIPAL recursos = 1
          /\ cuenta_tipo LINEA recursos = 2
          /\ cuenta_tipo CUARTO recursos = 1)%nat)
    /\ co_requisito_errores recursos
       = (motivos PRINCIPAL (cuenta_tipo PRINCIPAL recursos)
          ++ motivos LINEA (cuenta_tipo LINEA recursos)
          ++ motivos CUARTO (cuenta_tipo CUARTO recursos))%list
    /\ snd (co_requisito_validar recursos fi ff evs)
       = join "; " (co_requisito_errores recursos)
    /\ List.length (co_requisito_errores recursos) = categorias_desviadas recursos
    /\ (forall d d' n n', motivo d n = motivo d' n' -> d = d').
Proof.
  intros rs fi ff evs.
  pose proof (co_requisito_errores_motivos rs) as E.
  split; [split | split; [| split; [| split]]].
  - unfold co_requisito_validar. intros H.
    destruct (co_requisito_errores rs) eqn:Hc; [|discriminate H].
    symmetry in E. apply app_eq_nil in E as [E1 E].
    apply app_eq_nil in E as [E2 E3].
    apply motivos_vacio in E1, E2, E3. auto.
  - unfold co_requisito_validar. intros (H1 & H2 & H3).
    rewrite E, H1, H2, H3. reflexivity.
  - exact E.
  - unfold co_requisito_validar.
    destruct (co_requisito_errores rs); reflexivity.
  - rewrite E, !length_app, !motivos_length. unfold categorias_desviadas.
    cbn [filter].
    destruct (cuenta_tipo PRINCIPAL rs =? cuota PRINCIPAL)%nat,
      (cuenta_tipo LINEA rs =? cuota LINEA)%nat,
      (cuenta_tipo CUARTO rs =? cuota CUARTO)%nat; reflexivity.
  - apply motivo_distinto.
Qed.

(** The example of the design document: one referee of each category fails,
    citing the missing Line referee only. *)
Example co_requisito_falta_un_linea :
  co_requisito_validar
    [Arbitro "p1" "Michael Oliver" PRINCIPAL "Inglaterra" 10;
     Arbitro "l1" "Gary Beswick" LINEA "Inglaterra" 8;
     Arbitro "c1" "Andy Madley" CUARTO "Inglaterra" 6]
    (mkDateTime 739245 0) (mkDateTime 739245 0) []
  = (false, "Se requieren 2 árbitros de línea (tiene 1)").
Proof. reflexivity. Qed.

Lemma cuenta_tipo_app :
  forall t l1 l2,
    cuenta_tipo t (l1 ++ l2) = (cuenta_tipo t l1 + cuenta_tipo t l2)%nat.
Proof. intros; unfold cuenta_tipo; rewrite filter_app, length_app; reflexivity. Qed.

Lemma cuenta_tipo_sin_no_arbitro :
  forall t l1 r l2,
    es_arbitro r = false ->
    cuenta_tipo t (l1 ++ r :: l2) = cuenta_tipo t (l1 ++ l2).
Proof.
  intros t l1 r l2 Hr. rewrite !cuenta_tipo_app. f_equal.
  unfold cuenta_tipo, es_de_tipo, es_arbitro in *. simpl.
  destruct (Recurso.arbitro r); [discriminate | reflexivity].
Qed.

Lemma co_requisito_validar_cuentas :
  forall rs rs' fi ff evs fi' ff' evs',
    (forall t, cuenta_tipo t rs = cuenta_tipo t rs') ->
    co_requisito_validar rs fi ff evs = co_requisito_validar rs' fi' ff' evs'.
Proof.
  intros rs rs' fi ff evs fi' ff' evs' H. unfold co_requisito_validar.
  rewrite !co_requisito_errores_motivos, !H. reflexivity.
Qed.

Lemma cuenta_tipo_filter_arbitros :
  forall t rs, cuenta_tipo t (filter es_arbitro rs) = cuenta_tipo t rs.
Proof.
  intros t rs. unfold cuenta_tipo. f_equal.
  induction rs as [|r rs IH]; simpl; [reflexivity|].
  unfold es_arbitro, es_de_tipo in *.
  destruct (Recurso.arbitro r) as [a|] eqn:Ha; simpl; rewrite ?Ha, IH; reflexivity.
Qed.

(** C10. Only the instances of [Arbitro] count toward the quotas: putting a
    resource that is not a referee anywhere in the candidate list, or taking
    it out, changes neither the outcome nor the message; the check sees the
    sublist of referees only; and a list with 1 Principal, 2 Line and
    1 Fourth referee passes whatever other resources it holds. *)
Theorem C10_co_requisito_ignora_no_arbitros :
  forall (fi ff : DateTime) (evs : list Evento.t),
    (forall (l1 l2 : list Recurso.t) (r : Recurso.t),
        es_arbitro r = false ->
        co_requisito_validar (l1 ++ r :: l2) fi ff evs
        = co_requisito_validar (l1 ++ l2) fi ff evs)
    /\ (forall rs,
          co_requisito_validar rs fi ff evs
          = co_requisito_validar (filter es_arbitro rs) fi ff evs)
    /\ (forall rs,
          (cuenta_tipo PRINCIPAL (filter es_arbitro rs) = 1
           /\ cuenta_tipo LINEA (filter es_arbitro rs) = 2
           /\ cuenta_tipo CUARTO (filter es_arbitro rs) = 1)%nat ->
          co_requisito_validar rs fi ff evs = (true, "")).
Proof.
  intros fi ff evs. split; [|split].
  - intros l1 l2 r Hr. apply co_requisito_validar_cuentas.
    intros t. apply cuenta_tipo_sin_no_arbitro, Hr.
  - intros rs. apply co_requisito_validar_cuentas.
    intros t. symmetry. apply cuenta_tipo_filter_arbitros.
  - intros rs (H1 & H2 & H3). rewrite !cuenta_tipo_filter_arbitros in *.
    unfold co_requisito_validar.
    rewrite co_requisito_errores_motivos, H1, H2, H3. reflexivity.
Qed.

(** A complete team among stewards and ball boys. *)
Example co_requisito_con_no_arbitros :
  co_requisito_validar
    [Recurso.mk "x1" "Balon oficial" "" None;
     Arbitro "p1" "Michael Oliver" PRINCIPAL "Inglaterra" 10;
     Arbitro "l1" "Gary Beswick" LINEA "Inglaterra" 8;
     Recurso.mk "x2" "Camilla" "" None;
     Arbitro "l2" "Adam Nunn" LINEA "Inglaterra" 7;
     Arbitro "c1" "Andy Madley" CUARTO "Inglaterra" 6;
     Recurso.mk "x3" "VAR" "" None]
    (mkDateTime 739245 0) (mkDateTime 739245 0) []
  = (true, "").
Proof. reflexivity. Qed.

(** ** Mutual exclusion (rest of the referees) *)

Lemma exclusion_bucle_eventos_spec :
  forall dias r fi evs errores,
    exclusion_bucle_eventos dias r fi evs errores
    = (errores
       ++ map (msg_conflicto_descanso dias fi)
              (map (pair r) (filter (en_conflicto dias fi r) evs)))%list.
Proof.
  intros dias r fi evs. induction evs as [|ev evs IH]; intros errores; simpl.
  - rewrite app_nil_r. reflexivity.
  - rewrite IH. unfold en_conflicto at 2, calcular_dias_diferencia, list_append.
    destruct (contiene_recurso ev (Recurso.id r)); simpl; [|reflexivity].
    destruct (Z.abs (date fi - date (Evento.fecha_inicio ev)) <? dias);
      simpl; [|reflexivity].
    rewrite <- app_assoc. reflexivity.
Qed.

Lemma exclusion_bucle_recursos_spec :
  forall dias rs fi evs errores,
    exclusion_bucle_recursos dias rs fi evs errores
    = (errores
       ++ map (msg_conflicto_descanso dias fi)
              (conflictos_descanso dias rs fi evs))%list.
Proof.
  intros dias rs fi evs. induction rs as [|r rs IH]; intros errores; simpl.
  - rewrite app_nil_r. reflexivity.
  - rewrite IH. unfold conflictos_descanso. simpl.
    destruct (es_arbitro r).
    + rewrite exclusion_bucle_eventos_spec, map_app, app_assoc. reflexivity.
    + reflexivity.
Qed.

Lemma exclusion_mutua_errores_spec :
  forall dias rs fi evs,
    exclusion_mutua_errores dias rs fi evs
    = map (msg_conflicto_descanso dias fi) (conflictos_descanso dias rs fi evs).
Proof. intros. unfold exclusion_mutua_errores. apply exclusion_bucle_recursos_spec. Qed.

Lemma en_conflictos_descanso :
  forall dias rs fi evs r ev,
    In (r, ev) (conflictos_descanso dias rs fi evs)
    <-> In r rs /\ es_arbitro r = true /\ In ev evs
        /\ contiene_recurso ev (Recurso.id r) = true
        /\ Z.abs (date fi - date (Evento.fecha_inicio ev)) < dias.
Proof.
  intros dias rs fi evs r ev. unfold conflictos_descanso.
  rewrite in_flat_map. split.
  - intros (r' & Hr' & Hin). destruct (es_arbitro r') eqn:Ha; [|destruct Hin].
    apply in_map_iff in Hin as (ev' & Heq & Hf). inversion Heq; subst.
    apply filter_In in Hf as (Hev & Hc). unfold en_conflicto in Hc.
    apply andb_true_iff in Hc as (Hc1 & Hc2). apply Z.ltb_lt in Hc2. auto.
  - intros (Hr & Ha & Hev & Hc1 & Hc2). exists r. split; [assumption|].
    rewrite Ha. apply in_map. apply filter_In. split; [assumption|].
    unfold en_conflicto. rewrite Hc1. apply Z.ltb_lt in Hc2. rewrite Hc2.
    reflexivity.
Qed.

Lemma exclusion_mutua_falla_sii :
  forall dias rs fi ff evs,
    fst (exclusion_mutua_validar dias rs fi ff evs) = false
    <-> exists r ev,
          In r rs /\ es_arbitro r = true /\ In ev evs
          /\ contiene_recurso ev (Recurso.id r) = true
          /\ Z.abs (date fi - date (Evento.fecha_inicio ev)) < dias.
Proof.
  intros dias rs fi ff evs. unfold exclusion_mutua_validar.
  rewrite exclusion_mutua_errores_spec.
  destruct (conflictos_descanso dias rs fi evs) as [|[r ev] cs] eqn:Hc; simpl.
  - split; [discriminate|]. intros (r & ev & H).
    apply en_conflictos_descanso in H. rewrite Hc in H. destruct H.
  - split; [intros _|reflexivity]. exists r, ev.
    apply en_conflictos_descanso. rewrite Hc. left. reflexivity.
Qed.

Lemma conflictos_de_uno_con_fecha_fin :
  forall dias fi r evs (g : Evento.t -> DateTime),
    map (msg_conflicto_descanso dias fi)
        (map (pair r)
             (filter (en_conflicto dias fi r)
                     (map (fun ev => con_fecha_fin ev (g ev)) evs)))
    = map (msg_conflicto_descanso dias fi)
          (map (pair r) (filter (en_conflicto dias fi r) evs)).
Proof.
  intros dias fi r evs g.
  induction evs as [|ev evs IHe]; [reflexivity|].
  cbn [map filter].
  change (en_conflicto dias fi r (con_fecha_fin ev (g ev)))
    with (en_conflicto dias fi r ev).
  destruct (en_conflicto dias fi r ev); cbn [map]; [f_equal|]; apply IHe.
Qed.

Lemma conflictos_descanso_con_fecha_fin :
  forall dias rs fi evs (g : Evento.t -> DateTime),
    map (msg_conflicto_descanso dias fi)
        (conflictos_descanso dias rs fi (map (fun ev => con_fecha_fin ev (g ev)) evs))
    = map (msg_conflicto_descanso dias fi) (conflictos_descanso dias rs fi evs).
Proof.
  intros dias rs fi evs g. unfold conflictos_descanso.
  induction rs as [|r rs IH]; simpl; [reflexivity|].
  rewrite !map_app, IH. f_equal.
  destruct (es_arbitro r); [|reflexivity].
  apply conflictos_de_uno_con_fecha_fin.
Qed.

(** C2. With the rest threshold of 7 days, the mutual-exclusion check fails
    exactly when some referee of the candidate is held by an existing event
    whose start date is less than 7 calendar days from the start date of
    the candidate: for one referee and one existing event that holds it,
    it fails iff the absolute difference of the two dates is below 7, and
    a difference of exactly 7 passes.  The difference is symmetric, sees
    the dates only (not the time of day) and no end timestamp.  The result
    holds one message per conflicting pair of referee and event, for every
    referee of the candidate and every event, in order. *)
Theorem C2_exclusion_mutua_siete_dias :
  forall (rs : list Recurso.t) (fi ff : DateTime) (evs : list Evento.t),
    (fst (exclusion_mutua_validar 7 rs fi ff evs) = false
     <-> exists r ev,
           In r rs /\ es_arbitro r = true /\ In ev evs
           /\ contiene_recurso ev (Recurso.id r) = true
           /\ Z.abs (date fi - date (Evento.fecha_inicio ev)) < 7)
    /\ (forall r ev,
          es_arbitro r = true ->
          contiene_recurso ev (Recurso.id r) = true ->
          (fst (exclusion_mutua_validar 7 [r] fi ff [ev]) = false
           <-> Z.abs (date fi - date (Evento.fecha_inicio ev)) < 7)
          /\ (Z.abs (date fi - date (Evento.fecha_inicio ev)) = 7 ->
              exclusion_mutua_validar 7 [r] fi ff [ev] = (true, "")))
    /\ (forall a b, calcular_dias_diferencia a b = calcular_dias_diferencia b a)
    /\ (forall d1 m1 d2 m2,
          calcular_dias_diferencia (mkDateTime d1 m1) (mkDateTime d2 m2)
          = Z.abs (d1 - d2))
    /\ (forall ff' (g : Evento.t -> DateTime),
          exclusion_mutua_validar 7 rs fi ff'
            (map (fun ev => con_fecha_fin ev (g ev)) evs)
          = exclusion_mutua_validar 7 rs fi ff evs)
    /\ exclusion_mutua_errores 7 rs fi evs
       = map (msg_conflicto_descanso 7 fi) (conflictos_descanso 7 rs fi evs)
    /\ snd (exclusion_mutua_validar 7 rs fi ff evs)
       = join "; " (exclusion_mutua_errores 7 rs fi evs).
Proof.
  intros rs fi ff evs.
  split; [apply exclusion_mutua_falla_sii|].
  split.
  { intros r ev Ha Hc. split.
    - rewrite exclusion_mutua_falla_sii. split.
      + intros (r' & ev' & Hr & _ & Hev & _ & Hd).
        destruct Hr as [<-|[]]. destruct Hev as [<-|[]]. exact Hd.
      + intros Hd. exists r, ev. simpl. auto.
    - intros Hd. unfold exclusion_mutua_validar, exclusion_mutua_errores.
      simpl. rewrite Ha, Hc. unfold calcular_dias_diferencia. rewrite Hd.
      reflexivity. }
  split.
  { intros a b. unfold calcular_dias_diferencia.
    rewrite <- Z.abs_opp. f_equal. lia. }
  split; [reflexivity|].
  split.
  { intros ff' g. unfold exclusion_mutua_validar.
    rewrite !exclusion_mutua_errores_spec, conflictos_descanso_con_fecha_fin.
    reflexivity. }
  split; [apply exclusion_mutua_errores_spec|].
  unfold exclusion_mutua_validar.
  destruct (exclusion_mutua_errores 7 rs fi evs); reflexivity.
Qed.

(** ** Order on timestamps *)

Lemma dt_ltb_iff :
  forall a b,
    dt_ltb a b = true
    <-> ordinal a < ordinal b \/ (ordinal a = ordinal b /\ micros a < micros b).
Proof.
  intros a b. unfold dt_ltb.
  rewrite orb_true_iff, andb_true_iff, !Z.ltb_lt, Z.eqb_eq. reflexivity.
Qed.

Lemma dt_leb_iff :
  forall a b,
    dt_leb a b = true
    <-> ordinal a < ordinal b \/ (ordinal a = ordinal b /\ micros a <= micros b).
Proof.
  intros a b. unfold dt_leb.
  rewrite orb_true_iff, andb_true_iff, Z.ltb_lt, Z.leb_le, Z.eqb_eq. reflexivity.
Qed.

Lemma dt_leb_negb_ltb : forall a b, dt_leb a b = negb (dt_ltb b a).
Proof.
  intros a b. destruct (dt_leb a b) eqn:Hl, (dt_ltb b a) eqn:Hg;
    try reflexivity; exfalso.
  - apply dt_leb_iff in Hl. apply dt_ltb_iff in Hg. lia.
  - assert (H : dt_leb a b = true) by (apply dt_leb_iff; 
      assert (Hn : ~ (ordinal b < ordinal a
                      \/ (ordinal b = ordinal a /\ micros b < micros a)))
        by (rewrite <- dt_ltb_iff, Hg; discriminate); lia).
    congruence.
Qed.

Lemma dt_ltb_false_iff : forall a b, dt_ltb a b = false <-> dt_leb b a = true.
Proof.
  intros a b. rewrite dt_leb_negb_ltb. destruct (dt_ltb a b); simpl;
    split; congruence.
Qed.

Lemma dt_eq_iff :
  forall a b, a = b <-> ordinal a = ordinal b /\ micros a = micros b.
Proof.
  intros [oa ma] [ob mb]; simpl. split.
  - intros H; inversion H; auto.
  - intros [-> ->]; reflexivity.
Qed.

Lemma dt_leb_false_iff : forall a b, dt_leb a b = false <-> dt_ltb b a = true.
Proof.
  intros a b. rewrite dt_leb_negb_ltb. destruct (dt_ltb b a); simpl;
    split; congruence.
Qed.

(** Turns the comparisons of timestamps in the context and in the goal into
    linear arithmetic on their components. *)
Ltac dt_arith :=
  unfold dt_lt, dt_le, dt_gtb, dt_geb, date in *;
  rewrite ?dt_ltb_false_iff, ?dt_leb_false_iff in *;
  rewrite ?dt_ltb_iff, ?dt_leb_iff in *;
  try lia.

Lemma dt_le_date : forall a b, dt_le a b -> date a <= date b.
Proof. intros a b H. dt_arith. Qed.

Lemma dt_lt_le : forall a b, dt_lt a b -> dt_le a b.
Proof. intros a b H. dt_arith. Qed.

(** ** Facility: overlap and rest of the stadium *)

Lemma se_superpone_con_iff :
  forall ev fi ff,
    se_superpone_con ev fi ff = true
    <-> dt_lt (Evento.fecha_inicio ev) ff /\ dt_lt fi (Evento.fecha_fin ev).
Proof.
  intros ev fi ff. unfold se_superpone_con, dt_geb, dt_lt.
  rewrite !dt_leb_negb_ltb, negb_true_iff, orb_false_iff, !negb_false_iff.
  tauto.
Qed.

Lemma se_superpone_con_interseccion :
  forall ev fi ff,
    dt_lt (Evento.fecha_inicio ev) (Evento.fecha_fin ev) ->
    dt_lt fi ff ->
    (se_superpone_con ev fi ff = true
     <-> intervalos_intersecan (Evento.fecha_inicio ev) (Evento.fecha_fin ev)
           fi ff).
Proof.
  intros ev fi ff Hev Hc. rewrite se_superpone_con_iff.
  unfold intervalos_intersecan, en_intervalo. split.
  - intros [H1 H2].
    destruct (dt_ltb (Evento.fecha_inicio ev) fi) eqn:Hm.
    + exists fi. dt_arith.
    + exists (Evento.fecha_inicio ev). dt_arith.
  - intros (t & [A1 A2] & [B1 B2]). dt_arith.
Qed.

Lemma validar_conflicto_estadio_libre :
  forall fi ff evs,
    fst (validar_conflicto_estadio fi ff evs)
    = forallb (estadio_libre DIAS_DESCANSO_ESTADIO fi ff) evs.
Proof.
  intros fi ff evs. induction evs as [|ev evs IH]; simpl; [reflexivity|].
  unfold estadio_libre, falta_descanso, dias_antes, dias_despues.
  destruct (se_superpone_con ev fi ff); simpl; [reflexivity|].
  destruct ((0 <=? date fi - date (Evento.fecha_fin ev))
            && (date fi - date (Evento.fecha_fin ev) <? DIAS_DESCANSO_ESTADIO));
    simpl; [reflexivity|].
  destruct ((0 <=? date (Evento.fecha_inicio ev) - date ff)
            && (date (Evento.fecha_inicio ev) - date ff <? DIAS_DESCANSO_ESTADIO));
    simpl; [reflexivity|].
  exact IH.
Qed.

Lemma descanso_estadio_validar_libre :
  forall dias rs fi ff evs,
    fst (descanso_estadio_validar dias rs fi ff evs)
    = forallb (estadio_libre dias fi ff) evs.
Proof.
  intros dias rs fi ff evs. induction evs as [|ev evs IH]; simpl; [reflexivity|].
  unfold estadio_libre, falta_descanso, dias_antes, dias_despues.
  destruct (se_superpone_con ev fi ff); simpl; [reflexivity|].
  destruct ((0 <=? date fi - date (Evento.fecha_fin ev))
            && (date fi - date (Evento.fecha_fin ev) <? dias));
    simpl; [reflexivity|].
  destruct ((0 <=? date (Evento.fecha_inicio ev) - date ff)
            && (date (Evento.fecha_inicio ev) - date ff <? dias));
    simpl; [reflexivity|].
  exact IH.
Qed.

Lemma falta_descanso_iff :
  forall dias gap, falta_descanso dias gap = true <-> 0 <= gap < dias.
Proof.
  intros. unfold falta_descanso. rewrite andb_true_iff, Z.leb_le, Z.ltb_lt.
  reflexivity.
Qed.

Lemma falta_descanso_false_iff :
  forall dias gap, falta_descanso dias gap = false <-> ~ (0 <= gap < dias).
Proof.
  intros. rewrite <- falta_descanso_iff.
  destruct (falta_descanso dias gap); split; congruence.
Qed.

Lemma estadio_libre_umbral :
  forall dias fi ff ev,
    dt_le (Evento.fecha_inicio ev) (Evento.fecha_fin ev) ->
    dt_le fi ff ->
    se_superpone_con ev fi ff = false ->
    dias_antes fi ev = dias \/ dias_despues ff ev = dias ->
    estadio_libre dias fi ff ev = true.
Proof.
  intros dias fi ff ev Hev Hc Hno Hgap.
  apply dt_le_date in Hev. apply dt_le_date in Hc.
  unfold estadio_libre. rewrite Hno, !andb_true_iff, !negb_true_iff.
  unfold dias_antes, dias_despues in *.
  split; [split|]; [reflexivity| |];
    apply falta_descanso_false_iff; lia.
Qed.

Lemma sin_superposicion_en_umbral :
  forall dias fi ff ev,
    0 < dias ->
    dias_antes fi ev = dias \/ dias_despues ff ev = dias ->
    se_superpone_con ev fi ff = false.
Proof.
  intros dias fi ff ev Hpos Hgap. unfold se_superpone_con.
  rewrite negb_false_iff, orb_true_iff.
  unfold dias_antes, dias_despues in Hgap.
  destruct Hgap; [left | right]; dt_arith.
Qed.

Lemma validar_conflicto_estadio_pasa :
  forall fi ff evs,
    fst (validar_conflicto_estadio fi ff evs) = true ->
    validar_conflicto_estadio fi ff evs = (true, "").
Proof.
  intros fi ff evs. induction evs as [|ev evs IH]; simpl; [reflexivity|].
  destruct (se_superpone_con ev fi ff); simpl; [discriminate|].
  destruct ((0 <=? date fi - date (Evento.fecha_fin ev))
            && (date fi - date (Evento.fecha_fin ev) <? DIAS_DESCANSO_ESTADIO));
    simpl; [discriminate|].
  destruct ((0 <=? date (Evento.fecha_inicio ev) - date ff)
            && (date (Evento.fecha_inicio ev) - date ff <? DIAS_DESCANSO_ESTADIO));
    simpl; [discriminate|].
  exact IH.
Qed.

Lemma descanso_estadio_validar_pasa :
  forall dias rs fi ff evs,
    fst (descanso_estadio_validar dias rs fi ff evs) = true ->
    descanso_estadio_validar dias rs fi ff evs = (true, "").
Proof.
  intros dias rs fi ff evs. induction evs as [|ev evs IH]; simpl; [reflexivity|].
  destruct (se_superpone_con ev fi ff); simpl; [discriminate|].
  destruct ((0 <=? date fi - date (Evento.fecha_fin ev))
            && (date fi - date (Evento.fecha_fin ev) <? dias));
    simpl; [discriminate|].
  destruct ((0 <=? date (Evento.fecha_inicio ev) - date ff)
            && (date (Evento.fecha_inicio ev) - date ff <? dias));
    simpl; [discriminate|].
  exact IH.
Qed.

Lemma estadio_libre_falta :
  forall dias fi ff ev,
    0 <= dias_antes fi ev < dias \/ 0 <= dias_despues ff ev < dias ->
    estadio_libre dias fi ff ev = false.
Proof.
  intros dias fi ff ev H. unfold estadio_libre.
  destruct H as [H|H]; apply falta_descanso_iff in H; rewrite H; simpl;
    rewrite ?andb_false_r; reflexivity.
Qed.

(** C3. An existing event overlaps the candidate window exactly when the
    two [[start, end)] intervals intersect as half-open intervals: each
    starts before the other ends, which for intervals that are not empty is
    to share an instant; an event that ends exactly when the other starts
    does not overlap.  Against a list of events, the facility check of the
    validator passes exactly when every event is free of overlap and of a
    short gap.  For a pair that does not overlap (each event ending no
    earlier than it starts), a boundary gap in calendar days (candidate
    start date minus existing end date, or existing start date minus
    candidate end date) equal to the threshold passes, and one in
    [[0, threshold)] fails, in the restriction and in the validator (whose
    threshold is 2). *)
Theorem C3_estadio_intervalos_y_umbral :
  forall (ev : Evento.t) (fi ff : DateTime) (rs : list Recurso.t) (dias : Z),
    (se_superpone_con ev fi ff = true
     <-> dt_lt (Evento.fecha_inicio ev) ff /\ dt_lt fi (Evento.fecha_fin ev))
    /\ (dt_lt (Evento.fecha_inicio ev) (Evento.fecha_fin ev) ->
        dt_lt fi ff ->
        (se_superpone_con ev fi ff = true
         <-> intervalos_intersecan
               (Evento.fecha_inicio ev) (Evento.fecha_fin ev) fi ff))
    /\ (Evento.fecha_fin ev = fi \/ ff = Evento.fecha_inicio ev ->
        se_superpone_con ev fi ff = false)
    /\ (forall evs,
          fst (validar_conflicto_estadio fi ff evs)
          = forallb (estadio_libre 2 fi ff) evs
          /\ fst (descanso_estadio_validar dias rs fi ff evs)
             = forallb (estadio_libre dias fi ff) evs)
    /\ (dt_le (Evento.fecha_inicio ev) (Evento.fecha_fin ev) ->
        dt_le fi ff ->
        se_superpone_con ev fi ff = false ->
        (dias_antes fi ev = dias \/ dias_despues ff ev = dias ->
         descanso_estadio_validar dias rs fi ff [ev] = (true, ""))
        /\ (dias_antes fi ev = 2 \/ dias_despues ff ev = 2 ->
            validar_conflicto_estadio fi ff [ev] = (true, ""))
        /\ (0 <= dias_antes fi ev < dias \/ 0 <= dias_despues ff ev < dias ->
            fst (descanso_estadio_validar dias rs fi ff [ev]) = false)
        /\ (0 <= dias_antes fi ev < 2 \/ 0 <= dias_despues ff ev < 2 ->
            fst (validar_conflicto_estadio fi ff [ev]) = false)).
Proof.
  intros ev fi ff rs dias.
  split; [apply se_superpone_con_iff|].
  split; [apply se_superpone_con_interseccion|].
  split.
  { intros [H|H]; unfold se_superpone_con;
      rewrite negb_false_iff, orb_true_iff; [left | right]; subst; dt_arith. }
  split.
  { intros evs. split.
    - apply validar_conflicto_estadio_libre.
    - apply descanso_estadio_validar_libre. }
  intros Hev Hc Hno. split; [|split; [|split]].
  - intros Hgap. apply descanso_estadio_validar_pasa.
    rewrite descanso_estadio_validar_libre. simpl.
    rewrite estadio_libre_umbral; auto.
  - intros Hgap. apply validar_conflicto_estadio_pasa.
    rewrite validar_conflicto_estadio_libre. simpl.
    rewrite estadio_libre_umbral; auto.
  - intros Hgap. rewrite descanso_estadio_validar_libre. simpl.
    rewrite estadio_libre_falta; auto.
  - intros Hgap. rewrite validar_conflicto_estadio_libre. simpl.
    rewrite estadio_libre_falta; auto.
Qed.

(** ** Facility: the first failing event decides *)

Lemma validar_conflicto_estadio_primero :
  forall fi ff pre ev post,
    forallb (estadio_libre 2 fi ff) pre = true ->
    estadio_libre 2 fi ff ev = false ->
    validar_conflicto_estadio fi ff (pre ++ ev :: post)
    = validar_conflicto_estadio fi ff [ev].
Proof.
  intros fi ff pre ev post Hpre Hev.
  induction pre as [|p pre IH].
  - clear Hpre. revert Hev. simpl.
    unfold estadio_libre, falta_descanso, dias_antes, dias_despues,
      DIAS_DESCANSO_ESTADIO.
    destruct (se_superpone_con ev fi ff); simpl; [reflexivity|].
    destruct ((0 <=? date fi - date (Evento.fecha_fin ev))
              && (date fi - date (Evento.fecha_fin ev) <? 2));
      simpl; [reflexivity|].
    destruct ((0 <=? date (Evento.fecha_inicio ev) - date ff)
              && (date (Evento.fecha_inicio ev) - date ff <? 2));
      simpl; [reflexivity | discriminate].
  - simpl in Hpre. apply andb_true_iff in Hpre as [Hp Hpre].
    specialize (IH Hpre). rewrite <- IH. clear IH. revert Hp.
    cbn [app validar_conflicto_estadio].
    unfold estadio_libre, falta_descanso, dias_antes, dias_despues,
      DIAS_DESCANSO_ESTADIO.
    destruct (se_superpone_con p fi ff); simpl; [discriminate|].
    destruct ((0 <=? date fi - date (Evento.fecha_fin p))
              && (date fi - date (Evento.fecha_fin p) <? 2));
      simpl; [discriminate|].
    destruct ((0 <=? date (Evento.fecha_inicio p) - date ff)
              && (date (Evento.fecha_inicio p) - date ff <? 2));
      simpl; [discriminate | reflexivity].
Qed.

Lemma descanso_estadio_validar_primero :
  forall dias rs fi ff pre ev post,
    forallb (estadio_libre dias fi ff) pre = true ->
    estadio_libre dias fi ff ev = false ->
    descanso_estadio_validar dias rs fi ff (pre ++ ev :: post)
    = descanso_estadio_validar dias rs fi ff [ev].
Proof.
  intros dias rs fi ff pre ev post Hpre Hev.
  induction pre as [|p pre IH].
  - clear Hpre. revert Hev. simpl.
    unfold estadio_libre, falta_descanso, dias_antes, dias_despues.
    destruct (se_superpone_con ev fi ff); simpl; [reflexivity|].
    destruct ((0 <=? date fi - date (Evento.fecha_fin ev))
              && (date fi - date (Evento.fecha_fin ev) <? dias));
      simpl; [reflexivity|].
    destruct ((0 <=? date (Evento.fecha_inicio ev) - date ff)
              && (date (Evento.fecha_inicio ev) - date ff <? dias));
      simpl; [reflexivity | discriminate].
  - simpl in Hpre. apply andb_true_iff in Hpre as [Hp Hpre].
    specialize (IH Hpre). rewrite <- IH. clear IH. revert Hp.
    cbn [app descanso_estadio_validar].
    unfold estadio_libre, falta_descanso, dias_antes, dias_despues.
    destruct (se_superpone_con p fi ff); simpl; [discriminate|].
    destruct ((0 <=? date fi - date (Evento.fecha_fin p))
              && (date fi - date (Evento.fecha_fin p) <? dias));
      simpl; [discriminate|].
    destruct ((0 <=? date (Evento.fecha_inicio p) - date ff)
              && (date (Evento.fecha_inicio p) - date ff <? dias));
      simpl; [discriminate | reflexivity].
Qed.

Lemma msg_conflicto_no_es_descanso :
  forall ev ev' dias d,
    msg_conflicto_estadio ev <> msg_estadio_descanso ev' d
    /\ msg_conflicto_horario ev <> msg_descanso_estadio dias ev' d.
Proof.
  intros ev ev' dias d. split; intros H; discriminate H.
Qed.

(** C4, as the code has it.  A direct overlap is reported with a "conflict"
    message, which is never the text of a "days of rest" message.  The
    check returns at the first existing event, in the order of the list,
    that overlaps the candidate or leaves a short gap, with the one message
    of that event: what comes after it in the list has no effect on the
    result. *)
Theorem C4_estadio_primer_fallo :
  forall (fi ff : DateTime) (pre post : list Evento.t) (ev : Evento.t)
         (rs : list Recurso.t) (dias : Z),
    forallb (estadio_libre 2 fi ff) pre = true ->
    forallb (estadio_libre dias fi ff) pre = true ->
    se_superpone_con ev fi ff = true ->
    validar_conflicto_estadio fi ff (pre ++ ev :: post)
    = (false, msg_conflicto_estadio ev)
    /\ descanso_estadio_validar dias rs fi ff (pre ++ ev :: post)
       = (false, msg_conflicto_horario ev)
    /\ (forall ev' d,
          msg_conflicto_estadio ev <> msg_estadio_descanso ev' d
          /\ msg_conflicto_horario ev <> msg_descanso_estadio dias ev' d)
    /\ (forall ev0 post0,
          estadio_libre 2 fi ff ev0 = false ->
          validar_conflicto_estadio fi ff (pre ++ ev0 :: post0)
          = validar_conflicto_estadio fi ff [ev0]
          /\ fst (validar_conflicto_estadio fi ff [ev0]) = false)
    /\ (forall ev0 post0,
          estadio_libre dias fi ff ev0 = false ->
          descanso_estadio_validar dias rs fi ff (pre ++ ev0 :: post0)
          = descanso_estadio_validar dias rs fi ff [ev0]
          /\ fst (descanso_estadio_validar dias rs fi ff [ev0]) = false).
Proof.
  intros fi ff pre post ev rs dias Hpre2 Hpre Hov.
  assert (Hev : forall d, estadio_libre d fi ff ev = false)
    by (intros d; unfold estadio_libre; rewrite Hov; reflexivity).
  split; [|split; [|split; [|split]]].
  - rewrite validar_conflicto_estadio_primero by auto.
    simpl. rewrite Hov. reflexivity.
  - rewrite descanso_estadio_validar_primero by auto.
    simpl. rewrite Hov. reflexivity.
  - intros ev' d. apply msg_conflicto_no_es_descanso.
  - intros ev0 post0 H0. split.
    + apply validar_conflicto_estadio_primero; assumption.
    + rewrite validar_conflicto_estadio_libre. simpl.
      change DIAS_DESCANSO_ESTADIO with 2. rewrite H0. reflexivity.
  - intros ev0 post0 H0. split.
    + apply descanso_estadio_validar_primero; assumption.
    + rewrite descanso_estadio_validar_libre. simpl. rewrite H0. reflexivity.
Qed.

(** C4 as stated fails: the late kickoff overlaps the match of the 25th and
    leaves one day to the match of the 27th, and the check reports the
    overlap alone; the rest message it gives for the match of the 27th
    alone is no part of the result. *)
Lemma C4_contraejemplo_un_solo_motivo :
  se_superpone_con partido_noche inicio_tardio fin_tardio = true
  /\ se_superpone_con partido_27 inicio_tardio fin_tardio = false
  /\ validar_conflicto_estadio inicio_tardio fin_tardio [partido_27]
     = (false, msg_estadio_descanso partido_27 1)
  /\ validar_conflicto_estadio inicio_tardio fin_tardio
       [partido_noche; partido_27]
     = (false, msg_conflicto_estadio partido_noche)
  /\ contiene_texto (msg_estadio_descanso partido_27 1)
       (snd (validar_conflicto_estadio inicio_tardio fin_tardio
               [partido_noche; partido_27])) = false
  /\ descanso_estadio_validar 2 [] inicio_tardio fin_tardio [partido_27]
     = (false, msg_descanso_estadio 2 partido_27 1)
  /\ descanso_estadio_validar 2 [] inicio_tardio fin_tardio
       [partido_noche; partido_27]
     = (false, msg_conflicto_horario partido_noche)
  /\ contiene_texto (msg_descanso_estadio 2 partido_27 1)
       (snd (descanso_estadio_validar 2 [] inicio_tardio fin_tardio
               [partido_noche; partido_27])) = false.
Proof. vm_compute. repeat split. Qed.

(** ** Full validation *)

Lemma en_lista_iff : forall m l, en_lista m l = true <-> In m l.
Proof.
  intros m l. unfold en_lista. rewrite existsb_exists. split.
  - intros (x & Hx & He). apply String.eqb_eq in He. subst. assumption.
  - intros H. exists m. split; [assumption | apply String.eqb_refl].
Qed.

Lemma en_lista_false_iff : forall m l, en_lista m l = false <-> ~ In m l.
Proof.
  intros m l. rewrite <- en_lista_iff. destruct (en_lista m l);
    split; congruence.
Qed.

Lemma sin_duplicados_iff : forall l, sin_duplicados l = true <-> NoDup l.
Proof.
  induction l as [|x l IH]; simpl.
  - split; [constructor | reflexivity].
  - rewrite andb_true_iff, negb_true_iff, en_lista_false_iff, IH.
    split.
    + intros [H1 H2]. constructor; assumption.
    + intros H. inversion H; subst. auto.
Qed.

Lemma lista_vacia_iff : forall (A : Type) (l : list A), lista_vacia l = true <-> l = [].
Proof. intros A [|x l]; simpl; split; congruence. Qed.

Lemma disponibilidad_bucle_spec :
  forall rs fi ff evs errores,
    disponibilidad_bucle rs fi ff evs errores
    = (errores
       ++ flat_map
            (fun a =>
               if es_arbitro a then
                 let r := validar_disponibilidad_arbitro a fi ff evs in
                 if fst r then [] else [snd r]
               else [])
            rs)%list.
Proof.
  induction rs as [|r rs IH]; intros fi ff evs errores; simpl.
  - rewrite app_nil_r. reflexivity.
  - rewrite IH. destruct (es_arbitro r); [|reflexivity].
    destruct (validar_disponibilidad_arbitro r fi ff evs) as [[|] m]; simpl;
      [reflexivity|].
    unfold list_append. rewrite <- app_assoc. reflexivity.
Qed.

Lemma validar_restricciones_bucle_spec :
  forall cs rs fi ff evs errores,
    validar_restricciones_bucle cs rs fi ff evs errores
    = (errores
       ++ flat_map
            (fun c =>
               if fst (restriccion_validar c rs fi ff evs) then []
               else [("[" ++ restriccion_nombre c ++ "] "
                      ++ snd (restriccion_validar c rs fi ff evs))%string])
            cs)%list.
Proof.
  induction cs as [|c cs IH]; intros rs fi ff evs errores; simpl.
  - rewrite app_nil_r. reflexivity.
  - destruct (restriccion_validar c rs fi ff evs) as [[|] m]; simpl;
      rewrite IH; [reflexivity|].
    unfold list_append. rewrite <- app_assoc. reflexivity.
Qed.

Lemma agregar_sin_duplicados_spec :
  forall ms es,
    exists nuevos,
      agregar_sin_duplicados ms es = (es ++ nuevos)%list
      /\ NoDup nuevos
      /\ (forall m, In m nuevos -> In m ms /\ ~ In m es)
      /\ (forall m, In m ms -> In m es \/ In m nuevos).
Proof.
  induction ms as [|m ms IH]; intros es; simpl.
  - exists []. rewrite app_nil_r.
    split; [reflexivity|]. split; [constructor|].
    split; intros m H; destruct H.
  - destruct (en_lista m es) eqn:Hm; simpl.
    + destruct (IH es) as (nuevos & E & Hnd & Hin & Hall).
      exists nuevos. split; [assumption|]. split; [assumption|]. split.
      * intros x Hx. destruct (Hin x Hx). auto.
      * intros x [<-|Hx]; [left; apply en_lista_iff; assumption | auto].
    + apply en_lista_false_iff in Hm.
      destruct (IH (list_append es m)) as (nuevos & E & Hnd & Hin & Hall).
      unfold list_append in *.
      exists (m :: nuevos). split; [rewrite E, <- app_assoc; reflexivity|].
      split.
      { constructor; [|assumption]. intros Hx. destruct (Hin m Hx) as [_ Hn].
        apply Hn. apply in_or_app. right. left. reflexivity. }
      split.
      * intros x [<-|Hx]; [auto|]. destruct (Hin x Hx) as [H1 H2].
        split; [right; assumption|]. intros Hes. apply H2.
        apply in_or_app. left. assumption.
      * intros x [<-|Hx]; [right; left; reflexivity|].
        destruct (Hall x Hx) as [H|H]; [|right; right; assumption].
        apply in_app_or in H as [H|[<-|[]]]; [left; assumption|].
        right. left. reflexivity.
Qed.

Lemma agregar_sin_duplicados_NoDup :
  forall ms es, NoDup es -> NoDup (agregar_sin_duplicados ms es).
Proof.
  intros ms es Hes.
  destruct (agregar_sin_duplicados_spec ms es) as (nuevos & E & Hnd & Hin & _).
  rewrite E. clear E.
  induction es as [|e es IH]; simpl; [assumption|].
  inversion Hes as [|? ? Hne Hes']; subst. constructor.
  - intros H. apply in_app_or in H as [H|H]; [contradiction|].
    destruct (Hin e H) as [_ Hn]. apply Hn. left. reflexivity.
  - apply IH; [assumption|]. intros m Hm. destruct (Hin m Hm) as [Ha Hb].
    split; [assumption|]. intros H. apply Hb. right. assumption.
Qed.

Lemma validar_evento_completo_spec :
  forall self evento evs,
    validar_evento_completo self evento evs
    = (let errores :=
         agregar_sin_duplicados (mensajes_restricciones self evento evs)
           (mensaje_estadio evento evs ++ mensajes_disponibilidad evento evs)%list
       in (lista_vacia errores, errores)).
Proof.
  intros self evento evs.
  unfold validar_evento_completo, validar_restricciones, mensaje_estadio,
    mensajes_disponibilidad, mensajes_restricciones, mensaje_restriccion.
  rewrite validar_restricciones_bucle_spec.
  destruct (validar_conflicto_estadio (Evento.fecha_inicio evento)
              (Evento.fecha_fin evento) evs) as [[|] m]; simpl;
    rewrite disponibilidad_bucle_spec; reflexivity.
Qed.

(** C5, as the code has it.  The full validation runs the facility check,
    the availability check of every referee of the candidate and every
    registered restriction, whatever the earlier ones gave: the message of
    each check that fails is in the returned list, and the flag is true
    exactly when the list is empty.  The messages of the restrictions are
    added only when the same text is not yet in the list; the messages of
    the facility and availability checks are added as they come.  The
    returned list is therefore free of repeated texts whenever those
    earlier messages are. *)
Theorem C5_validacion_completa_acumula :
  forall (self : Validador) (evento : Evento.t) (evs : list Evento.t),
    let fi := Evento.fecha_inicio evento in
    let ff := Evento.fecha_fin evento in
    let r := validar_evento_completo self evento evs in
    let previos :=
      (mensaje_estadio evento evs ++ mensajes_disponibilidad evento evs)%list in
    (fst r = true <-> snd r = [])
    /\ (fst (validar_conflicto_estadio fi ff evs) = false ->
        In (snd (validar_conflicto_estadio fi ff evs)) (snd r))
    /\ (forall a,
          In a (Evento.recursos evento) -> es_arbitro a = true ->
          fst (validar_disponibilidad_arbitro a fi ff evs) = false ->
          In (snd (validar_disponibilidad_arbitro a fi ff evs)) (snd r))
    /\ (forall c,
          In c (restricciones self) ->
          fst (restriccion_validar c (Evento.recursos evento) fi ff evs) = false ->
          In (mensaje_restriccion c evento evs) (snd r))
    /\ (exists nuevos,
          snd r = (previos ++ nuevos)%list
          /\ NoDup nuevos
          /\ (forall m, In m nuevos ->
                In m (mensajes_restricciones self evento evs)
                /\ ~ In m previos))
    /\ (NoDup previos -> NoDup (snd r)).
Proof.
  intros self evento evs fi ff r previos.
  subst r. rewrite validar_evento_completo_spec. cbn [fst snd].
  fold previos.
  destruct (agregar_sin_duplicados_spec
              (mensajes_restricciones self evento evs) previos)
    as (nuevos & E & Hnd & Hin & Hall).
  split; [apply lista_vacia_iff|].
  split.
  { intros Hf. rewrite E. apply in_or_app. left. subst previos.
    apply in_or_app. left. unfold mensaje_estadio. fold fi ff.
    rewrite Hf. left. reflexivity. }
  split.
  { intros a Ha Harb Hf. rewrite E. apply in_or_app. left. subst previos.
    apply in_or_app. right. unfold mensajes_disponibilidad.
    apply in_flat_map. exists a. split; [assumption|].
    fold fi ff. rewrite Harb, Hf. left. reflexivity. }
  split.
  { intros c Hc Hf. rewrite E. apply in_or_app. apply Hall.
    unfold mensajes_restricciones. apply in_flat_map. exists c.
    split; [assumption|]. fold fi ff. rewrite Hf. left. reflexivity. }
  split.
  { exists nuevos. auto. }
  apply agregar_sin_duplicados_NoDup.
Qed.

(** C5 as stated fails: the return match is three days after the first
    leg, with the same team; the two Line referees called John Smith get
    the same availability message, and the list holds it twice. *)
Lemma C5_contraejemplo_texto_repetido :
  ~ NoDup (snd (validar_evento_completo Validador_init partido_vuelta
                  [partido_ida])).
Proof.
  intros H. apply sin_duplicados_iff in H. vm_compute in H. discriminate H.
Qed.

(** ** Dictionaries *)

Section Diccionarios.
Context {V : Type}.
Implicit Types (d : Dict V) (k : string) (v : V).

Lemma dict_contains_get :
  forall k d, dict_contains k d = true <-> exists v, dict_get k d = Some v.
Proof.
  intros k d. induction d as [|[k' v'] d IH]; simpl.
  - split; [discriminate | intros [v H]; discriminate H].
  - destruct (String.eqb k' k); simpl; [|exact IH].
    split; [intros _; exists v'; reflexivity | reflexivity].
Qed.

Lemma dict_get_set_same :
  forall k v d, dict_get k (dict_set k v d) = Some v.
Proof.
  intros k v d. induction d as [|[k' v'] d IH]; simpl.
  - rewrite String.eqb_refl. reflexivity.
  - destruct (String.eqb k' k) eqn:E; simpl; rewrite E; auto.
Qed.

Lemma dict_get_set_other :
  forall k k' v d, k' <> k -> dict_get k' (dict_set k v d) = dict_get k' d.
Proof.
  intros k k' v d Hne. induction d as [|[k0 v0] d IH]; simpl.
  - destruct (String.eqb_spec k k'); [congruence | reflexivity].
  - destruct (String.eqb_spec k0 k) as [->|Hk]; simpl.
    + destruct (String.eqb_spec k k'); [congruence | reflexivity].
    + rewrite IH. reflexivity.
Qed.

Lemma in_values_set :
  forall k v d x,
    In x (dict_values (dict_set k v d)) -> x = v \/ In x (dict_values d).
Proof.
  intros k v d x. unfold dict_values.
  induction d as [|[k0 v0] d IH]; simpl.
  - intros [<-|[]]. left. reflexivity.
  - destruct (String.eqb k0 k); simpl.
    + intros [<-|H]; auto.
    + intros [<-|H]; [auto|]. destruct (IH H); auto.
Qed.

Lemma in_del :
  forall k d k' v, In (k', v) (dict_del k d) -> In (k', v) d.
Proof.
  intros k d k' v. induction d as [|[k0 v0] d IH]; simpl; [auto|].
  destruct (String.eqb k0 k); simpl; [auto|].
  intros [H|H]; auto.
Qed.

Lemma in_del_otra_clave :
  forall k d k' v,
    claves_unicas d -> In (k', v) (dict_del k d) -> k' <> k.
Proof.
  intros k d k' v. unfold claves_unicas.
  induction d as [|[k0 v0] d IH]; simpl; [intros _ []|].
  intros Hnd. inversion Hnd as [|? ? Hni Hnd']; subst.
  destruct (String.eqb_spec k0 k) as [->|Hk]; simpl.
  - intros Hin Heq. subst. apply Hni.
    apply (in_map fst) in Hin. exact Hin.
  - intros [H|H]; [inversion H; subst; assumption | auto].
Qed.

Lemma in_values_del :
  forall k d x, In x (dict_values (dict_del k d)) -> In x (dict_values d).
Proof.
  intros k d x. unfold dict_values. rewrite !in_map_iff.
  intros ([k' v] & <- & H). exists (k', v). split; [reflexivity|].
  eapply in_del; eassumption.
Qed.

Lemma claves_unicas_del :
  forall k d, claves_unicas d -> claves_unicas (dict_del k d).
Proof.
  intros k d. unfold claves_unicas.
  induction d as [|[k0 v0] d IH]; simpl; [auto|].
  intros Hnd. inversion Hnd as [|? ? Hni Hnd']; subst.
  destruct (String.eqb k0 k); simpl; [assumption|].
  constructor; [|auto]. intros H. apply Hni.
  apply in_map_iff in H as ([k1 v1] & <- & H). apply in_del in H.
  apply (in_map fst) in H. exact H.
Qed.

Lemma in_claves_set :
  forall k v d x,
    In x (map fst (dict_set k v d)) -> x = k \/ In x (map fst d).
Proof.
  intros k v d. induction d as [|[k0 v0] d IH]; simpl.
  - intros x [<-|[]]. auto.
  - destruct (String.eqb k0 k); simpl; intros x [<-|H]; auto.
    destruct (IH x H); auto.
Qed.

Lemma claves_unicas_set :
  forall k v d, claves_unicas d -> claves_unicas (dict_set k v d).
Proof.
  intros k v d. unfold claves_unicas.
  induction d as [|[k0 v0] d IH]; simpl.
  - intros _. constructor; [intros [] | constructor].
  - intros Hnd. inversion Hnd as [|? ? Hni Hnd']; subst.
    destruct (String.eqb_spec k0 k) as [->|Hne]; simpl.
    + constructor; assumption.
    + constructor; [|apply IH; assumption].
      intros H. destruct (in_claves_set _ _ _ _ H);
        [congruence | contradiction].
Qed.

Lemma dict_contains_del :
  forall k d, claves_unicas d -> dict_contains k (dict_del k d) = false.
Proof.
  intros k d Hnd. destruct (dict_contains k (dict_del k d)) eqn:E;
    [|reflexivity].
  unfold dict_contains in E. apply existsb_exists in E as ([k' v] & Hin & He).
  simpl in He. apply String.eqb_eq in He. subst.
  exfalso. eapply in_del_otra_clave; eauto.
Qed.

Lemma dict_get_in :
  forall k d v, dict_get k d = Some v -> In (k, v) d.
Proof.
  intros k d v. induction d as [|[k0 v0] d IH]; simpl; [discriminate|].
  destruct (String.eqb_spec k0 k) as [->|Hne].
  - intros H. inversion H. auto.
  - auto.
Qed.

Lemma in_del_conserva :
  forall k d k' v, k' <> k -> In (k', v) d -> In (k', v) (dict_del k d).
Proof.
  intros k d k' v Hne. induction d as [|[k0 v0] d IH]; simpl; [auto|].
  destruct (String.eqb_spec k0 k) as [->|Hk]; simpl.
  - intros [H|H]; [inversion H; congruence | assumption].
  - intros [H|H]; auto.
Qed.
End Diccionarios.

(** ** Create *)

(** C7. Create is all or nothing.  When the full validation of the
    candidate against all the stored events fails, the call returns failure
    with the reasons, one per line, and the planner is the same as before:
    same events, same resources.  When it succeeds, the call reports
    success, the candidate is stored under its identifier, the other
    entries of the event map are as they were, and the resource map is
    unchanged. *)
Theorem C7_planificar_todo_o_nada :
  forall (self : PlanificadorEventos) (evento : Evento.t),
    let r := validar_evento_completo (validador self) evento
               (dict_values (eventos self)) in
    let despues := snd (planificar_evento self evento) in
    (fst r = false ->
     planificar_evento self evento
     = ((false, join salto_de_linea (snd r)), self))
    /\ (fst r = true ->
        fst (planificar_evento self evento)
        = (true, "Evento planificado exitosamente")
        /\ eventos despues = dict_set (Evento.id evento) evento (eventos self)
        /\ dict_get (Evento.id evento) (eventos despues) = Some evento
        /\ (forall k, k <> Evento.id evento ->
                      dict_get k (eventos despues) = dict_get k (eventos self))
        /\ recursos despues = recursos self
        /\ validador despues = validador self).
Proof.
  intros self evento r despues. subst r despues.
  unfold planificar_evento, obtener_eventos.
  destruct (validar_evento_completo (validador self) evento
              (dict_values (eventos self))) as [[|] errores]; simpl.
  - split; [discriminate|]. intros _.
    split; [reflexivity|]. split; [reflexivity|].
    split; [apply dict_get_set_same|].
    split; [|split; reflexivity].
    intros k Hk. apply dict_get_set_other. assumption.
  - split; [reflexivity | discriminate].
Qed.

(** ** Deletion of a resource *)

Lemma in_insertar_por_fecha :
  forall e l x, In x (insertar_por_fecha e l) <-> x = e \/ In x l.
Proof.
  intros e l x. induction l as [|y l IH]; simpl.
  - intuition congruence.
  - destruct (dt_ltb (Evento.fecha_inicio e) (Evento.fecha_inicio y)); simpl.
    + intuition congruence.
    + rewrite IH. intuition congruence.
Qed.

Lemma in_sorted_por_fecha :
  forall l x, In x (sorted_por_fecha l) <-> In x l.
Proof.
  intros l x. unfold sorted_por_fecha.
  assert (H : forall acc,
             In x (fold_left (fun acc e => insertar_por_fecha e acc) l acc)
             <-> In x acc \/ In x l).
  { induction l as [|e l IH]; intros acc; simpl.
    - tauto.
    - rewrite IH, in_insertar_por_fecha. intuition congruence. }
  rewrite H. simpl. tauto.
Qed.

Lemma sorted_por_fecha_permutacion :
  forall l, Permutation (sorted_por_fecha l) l.
Proof.
  intros l. unfold sorted_por_fecha.
  assert (Hins : forall e acc, Permutation (insertar_por_fecha e acc) (e :: acc)).
  { intros e acc. induction acc as [|y acc IH]; simpl; [reflexivity|].
    destruct (dt_ltb (Evento.fecha_inicio e) (Evento.fecha_inicio y));
      [reflexivity|].
    rewrite IH. apply perm_swap. }
  assert (H : forall acc,
             Permutation
               (fold_left (fun acc e => insertar_por_fecha e acc) l acc)
               (acc ++ l)).
  { induction l as [|e l IH]; intros acc; simpl.
    - rewrite app_nil_r. reflexivity.
    - rewrite IH, Hins. simpl. apply Permutation_middle. }
  apply (H []).
Qed.

Lemma dict_del_ausente :
  forall (V : Type) k (d : Dict V), dict_get k d = None -> dict_del k d = d.
Proof.
  intros V k d. induction d as [|[k0 v0] d IH]; simpl; [reflexivity|].
  destruct (String.eqb k0 k); [discriminate|].
  intros H. rewrite IH; auto.
Qed.

Lemma eliminar_evento_estado :
  forall self k,
    snd (eliminar_evento self k)
    = mkPlanificador (dict_del k (eventos self)) (recursos self)
        (validador self).
Proof.
  intros self k. unfold eliminar_evento.
  destruct (dict_get k (eventos self)) eqn:E; simpl; [reflexivity|].
  rewrite dict_del_ausente by assumption. destruct self; reflexivity.
Qed.

Lemma eliminar_eventos_estado :
  forall ids self,
    recursos (eliminar_eventos self ids) = recursos self
    /\ (forall k ev,
          In (k, ev) (eventos (eliminar_eventos self ids)) ->
          In (k, ev) (eventos self)
          /\ (claves_unicas (eventos self) -> ~ In k ids)).
Proof.
  unfold eliminar_eventos.
  induction ids as [|k0 ids IH]; intros self; simpl.
  - split; [reflexivity|]. intros k ev H. auto.
  - destruct (IH (snd (eliminar_evento self k0))) as [Hr He].
    rewrite eliminar_evento_estado in *. simpl in *.
    split; [assumption|].
    intros k ev H. destruct (He k ev H) as [Hin Hni].
    split; [eapply in_del; eassumption|].
    intros Hnd [<-|Hk].
    + eapply in_del_otra_clave; eauto.
    + apply Hni; [apply claves_unicas_del|]; assumption.
Qed.

Lemma dt_le_refl : forall a, dt_le a a.
Proof. intros a. dt_arith. Qed.

Lemma dt_le_trans : forall a b c, dt_le a b -> dt_le b c -> dt_le a c.
Proof. intros a b c H1 H2. dt_arith. Qed.

Lemma insertar_por_fecha_ascendente :
  forall e l, ascendente l -> ascendente (insertar_por_fecha e l).
Proof.
  intros e l Hl. unfold ascendente in *.
  induction Hl as [|x l Hl IH Hx]; simpl.
  - constructor; constructor.
  - destruct (dt_ltb (Evento.fecha_inicio e) (Evento.fecha_inicio x)) eqn:E.
    + constructor; [constructor; assumption|].
      assert (Hex : antes_o_igual e x) by (unfold antes_o_igual; dt_arith).
      constructor; [exact Hex|].
      rewrite Forall_forall in *. intros y Hy.
      unfold antes_o_igual in *. eapply dt_le_trans; [exact Hex | auto].
    + constructor; [exact IH|].
      rewrite Forall_forall in *. intros y Hy.
      apply in_insertar_por_fecha in Hy as [->|Hy]; [|auto].
      unfold antes_o_igual. dt_arith.
Qed.

Lemma sorted_por_fecha_ascendente : forall l, ascendente (sorted_por_fecha l).
Proof.
  intros l. unfold sorted_por_fecha.
  assert (H : forall acc, ascendente acc ->
                ascendente (fold_left (fun acc e => insertar_por_fecha e acc) l acc)).
  { induction l as [|e l IH]; intros acc Hacc; simpl; [exact Hacc|].
    apply IH. apply insertar_por_fecha_ascendente. exact Hacc. }
  apply H. constructor.
Qed.

(** ** The guard of [eliminar_recurso] *)

Lemma contiene_recurso_asignado :
  forall ev rid, contiene_recurso ev rid = true <-> asignado_a rid ev.
Proof.
  intros ev rid. unfold contiene_recurso, asignado_a. rewrite existsb_exists.
  split; intros (r & Hin & H); exists r; (split; [exact Hin|]);
    apply String.eqb_eq; exact H.
Qed.

Lemma in_obtener_eventos_recurso :
  forall self rid ev,
    In ev (obtener_eventos_recurso self rid)
    <-> In ev (dict_values (eventos self)) /\ asignado_a rid ev.
Proof.
  intros self rid ev. unfold obtener_eventos_recurso.
  rewrite in_sorted_por_fecha, filter_In, contiene_recurso_asignado. tauto.
Qed.

Lemma filtrar_futuros_vacia :
  forall reloj l n,
    lista_vacia (filtrar_futuros reloj n l) = false
    <-> exists i ev,
          nth_error l i = Some ev
          /\ dt_lt (reloj (n + i)%nat) (Evento.fecha_inicio ev).
Proof.
  intros reloj l. induction l as [|e l IH]; intros n; simpl.
  - split; [discriminate|]. intros ([|i] & ev & H & _); discriminate H.
  - destruct (dt_gtb (Evento.fecha_inicio e) (reloj n)) eqn:E.
    + simpl. split; [|reflexivity]. intros _. exists 0%nat, e.
      rewrite Nat.add_0_r. split; [reflexivity | exact E].
    + rewrite IH. split.
      * intros (i & ev & H & Hlt). exists (S i), ev.
        rewrite Nat.add_succ_r. split; assumption.
      * intros ([|i] & ev & H & Hlt).
        -- simpl in H. injection H as <-. rewrite Nat.add_0_r in Hlt.
           unfold dt_lt, dt_gtb in *. congruence.
        -- exists i, ev. rewrite Nat.add_succ_r in Hlt. split; assumption.
Qed.

Lemma filtrar_futuros_desde_cero :
  forall reloj l,
    lista_vacia (filtrar_futuros reloj 0 l) = false
    <-> futuro_al_examinarlo reloj l.
Proof.
  intros reloj l. rewrite filtrar_futuros_vacia. unfold futuro_al_examinarlo.
  simpl. reflexivity.
Qed.

Lemma filtrar_futuros_reloj_fijo :
  forall ahora l n,
    filtrar_futuros (fun _ => ahora) n l
    = filter (fun e => dt_gtb (Evento.fecha_inicio e) ahora) l.
Proof.
  intros ahora l. induction l as [|e l IH]; intros n; simpl; [reflexivity|].
  rewrite IH. reflexivity.
Qed.

Lemma eliminar_recurso_falla :
  forall self rid reloj,
    dict_contains rid (recursos self) = true ->
    futuro_al_examinarlo reloj (obtener_eventos_recurso self rid) ->
    fst (fst (eliminar_recurso self rid reloj)) = false
    /\ snd (eliminar_recurso self rid reloj) = self.
Proof.
  intros self rid reloj Hc Hf.
  apply filtrar_futuros_desde_cero in Hf.
  unfold eliminar_recurso. rewrite Hc, Hf. simpl. auto.
Qed.

Lemma eliminar_recurso_exito :
  forall self rid reloj,
    dict_contains rid (recursos self) = true ->
    ~ futuro_al_examinarlo reloj (obtener_eventos_recurso self rid) ->
    eliminar_recurso self rid reloj
    = ((true, "Recurso eliminado exitosamente"),
       mkPlanificador (eventos self) (dict_del rid (recursos self))
         (validador self)).
Proof.
  intros self rid reloj Hc Hf.
  rewrite <- filtrar_futuros_desde_cero in Hf.
  unfold eliminar_recurso. rewrite Hc. simpl.
  destruct (lista_vacia _); [reflexivity | congruence].
Qed.

Lemma eliminar_recurso_guardia :
  forall self rid reloj,
    dict_contains rid (recursos self) = true ->
    fst (fst (eliminar_recurso self rid reloj)) = false
    <-> futuro_al_examinarlo reloj (obtener_eventos_recurso self rid).
Proof.
  intros self rid reloj Hc.
  rewrite <- filtrar_futuros_desde_cero.
  unfold eliminar_recurso. rewrite Hc. simpl.
  destruct (lista_vacia _); simpl; split; congruence.
Qed.

Lemma examinado_con_lectura :
  forall self rid ev,
    In ev (dict_values (eventos self)) -> asignado_a rid ev ->
    exists i,
      (i < List.length (obtener_eventos_recurso self rid))%nat
      /\ nth_error (obtener_eventos_recurso self rid) i = Some ev.
Proof.
  intros self rid ev Hin Has.
  assert (H : In ev (obtener_eventos_recurso self rid))
    by (apply in_obtener_eventos_recurso; auto).
  apply In_nth_error in H as [i Hi]. exists i. split; [|exact Hi].
  apply nth_error_Some. congruence.
Qed.

Lemma lectura_de_examinado :
  forall self rid i ev,
    nth_error (obtener_eventos_recurso self rid) i = Some ev ->
    (i < List.length (obtener_eventos_recurso self rid))%nat
    /\ In ev (dict_values (eventos self)) /\ asignado_a rid ev.
Proof.
  intros self rid i ev H. split.
  - apply nth_error_Some. congruence.
  - apply in_obtener_eventos_recurso. eapply nth_error_In. exact H.
Qed.

Lemma eliminar_recurso_futuro :
  forall self rid reloj hasta,
    dict_contains rid (recursos self) = true ->
    (forall i, (i < List.length (obtener_eventos_recurso self rid))%nat ->
               dt_le (reloj i) hasta) ->
    tiene_eventos_futuros self rid hasta ->
    fst (fst (eliminar_recurso self rid reloj)) = false
    /\ snd (eliminar_recurso self rid reloj) = self.
Proof.
  intros self rid reloj hasta Hc Hr (ev & Hin & Has & Hlt).
  apply eliminar_recurso_falla; [exact Hc|].
  destruct (examinado_con_lectura self rid ev Hin Has) as (i & Hi & Hn).
  exists i, ev. split; [exact Hn|]. specialize (Hr i Hi). dt_arith.
Qed.

Lemma eliminar_recurso_pasados :
  forall self rid reloj desde,
    dict_contains rid (recursos self) = true ->
    (forall i, (i < List.length (obtener_eventos_recurso self rid))%nat ->
               dt_le desde (reloj i)) ->
    (forall ev,
        In ev (dict_values (eventos self)) -> asignado_a rid ev ->
        dt_le (Evento.fecha_inicio ev) desde) ->
    fst (fst (eliminar_recurso self rid reloj)) = true.
Proof.
  intros self rid reloj desde Hc Hr Hev.
  rewrite eliminar_recurso_exito; [reflexivity | exact Hc |].
  intros (i & ev & Hn & Hlt).
  destruct (lectura_de_examinado self rid i ev Hn) as (Hi & Hin & Has).
  specialize (Hr i Hi). specialize (Hev ev Hin Has). dt_arith.
Qed.

Lemma length_sorted_por_fecha :
  forall l, List.length (sorted_por_fecha l) = List.length l.
Proof. intros l. apply Permutation_length, sorted_por_fecha_permutacion. Qed.

Lemma length_filter_values_del :
  forall (f : Evento.t -> bool) k (d : Dict Evento.t),
    (List.length (filter f (dict_values (dict_del k d)))
     <= List.length (filter f (dict_values d)))%nat.
Proof.
  intros f k d. unfold dict_values.
  induction d as [|[k0 v0] d IH]; simpl; [lia|].
  destruct (String.eqb k0 k); simpl; destruct (f v0); simpl; lia.
Qed.

Lemma lecturas_tras_eliminar :
  forall ids self rid,
    (List.length (obtener_eventos_recurso (eliminar_eventos self ids) rid)
     <= List.length (obtener_eventos_recurso self rid))%nat.
Proof.
  unfold eliminar_eventos.
  induction ids as [|k ids IH]; intros self rid; simpl; [lia|].
  etransitivity; [apply IH|].
  unfold obtener_eventos_recurso. rewrite !length_sorted_por_fecha.
  rewrite eliminar_evento_estado. simpl. apply length_filter_values_del.
Qed.

(** C8.  [eliminar_recurso] examines the stored events that hold the
    resource in ascending order of start and reads the clock once for each
    of them.  For a registered resource the deletion is refused exactly
    when one of these events starts strictly after the moment at which it is
    examined; the call then fails and the planner is unchanged; otherwise
    the resource is removed and the events stay as they are.  When the
    readings of the check lie between [desde] and [hasta]: a stored event
    that holds the resource and starts strictly after [hasta] blocks the
    deletion; if every stored event that holds the resource starts at or
    before [desde], the deletion succeeds; it succeeds as well after the
    deletion of every stored event that holds the resource and starts
    strictly after [desde], and at a later call whose readings are at or
    after a moment by which every such event has started.  With a clock
    that stands still at [ahora] the deletion is refused exactly when a
    stored event holds the resource and starts strictly after [ahora]. *)
Theorem C8_eliminar_recurso_guardia :
  forall (self : PlanificadorEventos) (rid : string) (reloj : Reloj),
    dict_contains rid (recursos self) = true ->
    (forall ev,
        In ev (obtener_eventos_recurso self rid)
        <-> In ev (dict_values (eventos self)) /\ asignado_a rid ev)
    /\ ascendente (obtener_eventos_recurso self rid)
    /\ (fst (fst (eliminar_recurso self rid reloj)) = false
        <-> futuro_al_examinarlo reloj (obtener_eventos_recurso self rid))
    /\ (fst (fst (eliminar_recurso self rid reloj)) = false ->
        snd (eliminar_recurso self rid reloj) = self)
    /\ (fst (fst (eliminar_recurso self rid reloj)) = true ->
        eliminar_recurso self rid reloj
        = ((true, "Recurso eliminado exitosamente"),
           mkPlanificador (eventos self) (dict_del rid (recursos self))
             (validador self))
        /\ (claves_unicas (recursos self) ->
            dict_contains rid
              (recursos (snd (eliminar_recurso self rid reloj))) = false))
    /\ (forall desde hasta,
          lecturas_entre reloj
            (List.length (obtener_eventos_recurso self rid)) desde hasta ->
          (tiene_eventos_futuros self rid hasta ->
           fst (fst (eliminar_recurso self rid reloj)) = false
           /\ snd (eliminar_recurso self rid reloj) = self)
          /\ ((forall ev,
                 In ev (dict_values (eventos self)) ->
                 asignado_a rid ev ->
                 dt_le (Evento.fecha_inicio ev) desde) ->
              fst (fst (eliminar_recurso self rid reloj)) = true)
          /\ (forall ids,
                claves_unicas (eventos self) ->
                (forall k ev,
                    In (k, ev) (eventos self) ->
                    asignado_a rid ev ->
                    dt_lt desde (Evento.fecha_inicio ev) ->
                    In k ids) ->
                fst (fst (eliminar_recurso (eliminar_eventos self ids) rid
                            reloj)) = true))
    /\ (forall (despues : Reloj) (luego : DateTime),
          (forall i,
              (i < List.length (obtener_eventos_recurso self rid))%nat ->
              dt_le luego (despues i)) ->
          (forall ev,
              In ev (dict_values (eventos self)) ->
              asignado_a rid ev ->
              dt_le (Evento.fecha_inicio ev) luego) ->
          fst (fst (eliminar_recurso self rid despues)) = true)
    /\ (forall ahora,
          fst (fst (eliminar_recurso self rid (fun _ => ahora))) = false
          <-> tiene_eventos_futuros self rid ahora).
Proof.
  intros self rid reloj Hc.
  split; [apply in_obtener_eventos_recurso|].
  split; [apply sorted_por_fecha_ascendente|].
  split; [apply eliminar_recurso_guardia; exact Hc|].
  split.
  { intros Hf. apply eliminar_recurso_guardia in Hf; [|exact Hc].
    apply eliminar_recurso_falla; assumption. }
  split.
  { intros Ht.
    assert (Hf : ~ futuro_al_examinarlo reloj
                     (obtener_eventos_recurso self rid)).
    { intros Hf. apply eliminar_recurso_guardia in Hf; [|exact Hc].
      congruence. }
    rewrite eliminar_recurso_exito by assumption.
    split; [reflexivity|]. simpl. apply dict_contains_del. }
  split.
  { intros desde hasta Hl. split.
    { apply eliminar_recurso_futuro; [exact Hc|].
      intros i Hi. apply (Hl i Hi). }
    split.
    { apply eliminar_recurso_pasados; [exact Hc|].
      intros i Hi. apply (Hl i Hi). }
    intros ids Hnd Hids.
    destruct (eliminar_eventos_estado ids self) as [Hr He].
    apply (eliminar_recurso_pasados _ _ _ desde).
    - rewrite Hr. exact Hc.
    - intros i Hi. apply (Hl i).
      pose proof (lecturas_tras_eliminar ids self rid). lia.
    - intros ev Hin Has.
      unfold dict_values in Hin.
      apply in_map_iff in Hin as ([k ev'] & Heq & Hin).
      simpl in Heq. subst ev'.
      destruct (He k ev Hin) as [Hin0 Hni].
      destruct (dt_ltb desde (Evento.fecha_inicio ev)) eqn:E.
      + exfalso. apply (Hni Hnd). eapply Hids; eauto.
      + dt_arith. }
  split.
  { intros despues luego Hl Hev.
    apply (eliminar_recurso_pasados _ _ _ luego); assumption. }
  intros ahora. rewrite eliminar_recurso_guardia by exact Hc. split.
  - intros (i & ev & Hn & Hlt).
    destruct (lectura_de_examinado self rid i ev Hn) as (_ & Hin & Has).
    exists ev. auto.
  - intros (ev & Hin & Has & Hlt).
    destruct (examinado_con_lectura self rid ev Hin Has) as (i & _ & Hn).
    exists i, ev. auto.
Qed.

(** The readings matter one by one.  With the matches of the 25th at 21:00
    and of a month later stored, a check whose first reading is the 25th at
    22:00 and whose second reading is a month later removes the referee,
    although the second match is in the future at the first reading; and a
    check whose first reading is the 25th at noon refuses, although no match
    is in the future at its last reading. *)
Lemma eliminar_recurso_lectura_por_evento :
  fst (fst (eliminar_recurso plantel_dos_partidos "p1"
              (reloj_con_salto (a_las dia_25_dic 22)))) = true
  /\ fst (fst (eliminar_recurso plantel_dos_partidos "p1"
                 (fun _ => a_las dia_25_dic 22))) = false
  /\ fst (fst (eliminar_recurso plantel_dos_partidos "p1"
                 (reloj_con_salto (a_las dia_25_dic 12)))) = false
  /\ fst (fst (eliminar_recurso plantel_dos_partidos "p1"
                 (fun _ => a_las (dia_25_dic + 31) 12))) = true.
Proof. vm_compute. repeat split. Qed.

(** ** The invariant [end > start] *)

Lemma mas_horas_posterior :
  forall c h,
    0 <= micros c < MICROS_POR_DIA -> 0 < h -> dt_lt c (mas_horas c h).
Proof.
  intros [o m] h Hm Hh. unfold dt_lt. apply dt_ltb_iff.
  unfold mas_horas. cbn [ordinal micros] in *.
  change MICROS_POR_DIA with 86400000000 in *.
  change MICROS_POR_HORA with 3600000000.
  set (t := m + h * 3600000000).
  assert (Ht : m < t) by (subst t; lia).
  pose proof (Z.div_mod t 86400000000 ltac:(lia)) as Hdm.
  pose proof (Z.mod_pos_bound t 86400000000 ltac:(lia)) as Hb.
  assert (Hq : 0 <= t / 86400000000) by (apply Z.div_pos; lia).
  destruct (Z.eq_dec (t / 86400000000) 0) as [E|E].
  - right. rewrite E in *. lia.
  - left. lia.
Qed.

Lemma eventos_bien_formados_set :
  forall self k ev,
    eventos_bien_formados self -> fin_posterior ev ->
    Forall fin_posterior (dict_values (dict_set k ev (eventos self))).
Proof.
  intros self k ev Hinv Hev. apply Forall_forall. intros x Hx.
  apply in_values_set in Hx as [->|Hx]; [assumption|].
  unfold eventos_bien_formados in Hinv.
  rewrite Forall_forall in Hinv. auto.
Qed.

(** C9, as the code has it.  Neither the construction of an event nor the
    full validation looks at the order of its two timestamps; the planner
    stores what it is given.  What holds is a preservation: when every
    stored event has its end after its start, this is still so after
    [planificar_evento] of an event that has its end after its start, after
    [eliminar_evento], and after [modificar_evento] when the start and end
    that result from the modification are in that order.  The empty planner
    has the invariant, and a window that ends a positive number of hours
    after its start has its end after its start. *)
Theorem C9_fin_posterior_se_conserva :
  forall (self : PlanificadorEventos),
    eventos_bien_formados self ->
    (forall evento,
        fin_posterior evento ->
        eventos_bien_formados (snd (planificar_evento self evento)))
    /\ (forall k, eventos_bien_formados (snd (eliminar_evento self k)))
    /\ (forall k nfi nff nrs idt,
          (forall original,
              dict_get k (eventos self) = Some original ->
              dt_lt (o_bien nfi (Evento.fecha_inicio original))
                    (o_bien nff (Evento.fecha_fin original))) ->
          eventos_bien_formados (snd (modificar_evento self k nfi nff nrs idt)))
    /\ eventos_bien_formados Planificador_init
    /\ (forall c h,
          0 <= micros c < MICROS_POR_DIA -> 0 < h ->
          dt_lt c (mas_horas c h)).
Proof.
  intros self Hinv.
  split.
  { intros evento Hev. unfold planificar_evento.
    destruct (validar_evento_completo _ _ _) as [[|] errores]; simpl;
      [|assumption].
    apply eventos_bien_formados_set; assumption. }
  split.
  { intros k. rewrite eliminar_evento_estado.
    unfold eventos_bien_formados in *. simpl.
    rewrite Forall_forall in *. intros x Hx. apply Hinv.
    eapply in_values_del; eassumption. }
  split.
  { intros k nfi nff nrs idt Hmod. unfold modificar_evento.
    destruct (dict_get k (eventos self)) as [original|] eqn:Hg; simpl;
      [|assumption].
    specialize (Hmod original eq_refl).
    destruct (validar_evento_completo _ _ _) as [[|] errores]; simpl;
      [|assumption].
    apply eventos_bien_formados_set; assumption. }
  split; [constructor|].
  apply mas_horas_posterior.
Qed.

(** C9 as stated fails: a match that ends before it starts, with a
    complete team and an empty calendar, is accepted and stored. *)
Lemma C9_contraejemplo_fin_anterior_aceptado :
  dt_ltb (Evento.fecha_fin partido_invertido)
         (Evento.fecha_inicio partido_invertido) = true
  /\ validar_evento_completo Validador_init partido_invertido [] = (true, [])
  /\ fst (planificar_evento Planificador_init partido_invertido)
     = (true, "Evento planificado exitosamente")
  /\ dict_get "e9"
       (eventos (snd (planificar_evento Planificador_init partido_invertido)))
     = Some partido_invertido.
Proof. vm_compute. repeat split. Qed.

(** ** Horizon search *)

Section Busqueda.
Variable self : PlanificadorEventos.
Variable reloj : Reloj.
Variable duracion_horas : Z.

Lemma buscar_en_horas_spec :
  forall horas n f,
    fst (buscar_en_horas self reloj n f duracion_horas horas)
    = primero_aceptable self reloj duracion_horas n (map (replace_hora f) horas)
    /\ (fst (buscar_en_horas self reloj n f duracion_horas horas) = None ->
        snd (buscar_en_horas self reloj n f duracion_horas horas)
        = (n + List.length horas)%nat).
Proof.
  induction horas as [|h horas IH]; intros n f; simpl.
  - split; [reflexivity | intros _; lia].
  - unfold aceptable.
    destruct (dt_ltb (replace_hora f h) (reloj n)); simpl.
    { destruct (IH (S n) f) as [E1 E2]. split; [exact E1|].
      intros H. rewrite E2 by exact H. lia. }
    destruct (verificar_disponibilidad_estadio self (replace_hora f h)
                (mas_horas (replace_hora f h) duracion_horas)); simpl.
    2:{ destruct (IH (S n) f) as [E1 E2]. split; [exact E1|].
        intros H. rewrite E2 by exact H. lia. }
    destruct (hay_equipo_arbitral_completo _); simpl.
    { split; [reflexivity | discriminate]. }
    destruct (IH (S n) f) as [E1 E2]. split; [exact E1|].
    intros H. rewrite E2 by exact H. lia.
Qed.

Lemma primero_aceptable_app :
  forall l1 l2 n,
    primero_aceptable self reloj duracion_horas n (l1 ++ l2)
    = match primero_aceptable self reloj duracion_horas n l1 with
      | Some r => Some r
      | None =>
          primero_aceptable self reloj duracion_horas
            (n + List.length l1) l2
      end.
Proof.
  induction l1 as [|c l1 IH]; intros l2 n; simpl.
  - rewrite Nat.add_0_r. reflexivity.
  - destruct (aceptable self duracion_horas (reloj n) c); [reflexivity|].
    rewrite IH. replace (S n + List.length l1)%nat
      with (n + S (List.length l1))%nat by lia. reflexivity.
Qed.

Lemma mas_dias_mas_dias :
  forall f a b, mas_dias (mas_dias f a) b = mas_dias f (a + b).
Proof. intros f a b. unfold mas_dias. simpl. f_equal. lia. Qed.

Lemma dt_ltb_mas_dias :
  forall f a b, dt_ltb (mas_dias f a) (mas_dias f b) = (a <? b).
Proof.
  intros f a b. unfold dt_ltb, mas_dias. simpl.
  rewrite Z.ltb_irrefl, andb_false_r, orb_false_r.
  destruct (Z.ltb_spec a b), (Z.ltb_spec (ordinal f + a) (ordinal f + b));
    try reflexivity; lia.
Qed.

Lemma buscar_en_dias_spec :
  forall combustible k n fecha_desde max_dias,
    Z.of_nat combustible = Z.max 0 (max_dias - Z.of_nat k) ->
    buscar_en_dias combustible self reloj n
      (mas_dias fecha_desde (Z.of_nat k)) (mas_dias fecha_desde max_dias)
      duracion_horas
    = Termina
        (primero_aceptable self reloj duracion_horas n
           (flat_map
              (fun j => candidatos_del_dia (mas_dias fecha_desde (Z.of_nat j)))
              (seq k combustible))).
Proof.
  induction combustible as [|c IH]; intros k n fecha_desde max_dias Hc.
  - simpl. rewrite dt_ltb_mas_dias.
    destruct (Z.ltb_spec (Z.of_nat k) max_dias); [lia | reflexivity].
  - cbn [buscar_en_dias]. rewrite dt_ltb_mas_dias.
    destruct (Z.ltb_spec (Z.of_nat k) max_dias); [|lia].
    cbn [seq flat_map]. rewrite primero_aceptable_app.
    destruct (buscar_en_horas_spec horarios_partido n
                (mas_dias fecha_desde (Z.of_nat k))) as [E1 E2].
    unfold candidatos_del_dia at 1. rewrite <- E1.
    destruct (buscar_en_horas self reloj n
                (mas_dias fecha_desde (Z.of_nat k)) duracion_horas
                horarios_partido) as [[r|] n'] eqn:Eb;
      cbn [fst snd] in E1, E2 |- *.
    + reflexivity.
    + rewrite (E2 eq_refl), mas_dias_mas_dias.
      replace (Z.of_nat k + 1) with (Z.of_nat (S k)) by lia.
      rewrite IH by lia. unfold candidatos_del_dia at 2.
      rewrite length_map. reflexivity.
Qed.

Lemma buscar_proximo_horario_spec :
  forall fecha_desde max_dias,
    buscar_proximo_horario self reloj fecha_desde duracion_horas max_dias
    = Termina
        (primero_aceptable self reloj duracion_horas 0
           (candidatos fecha_desde max_dias)).
Proof.
  intros fecha_desde max_dias. unfold buscar_proximo_horario, candidatos.
  replace fecha_desde with (mas_dias fecha_desde (Z.of_nat 0)) at 1
    by (destruct fecha_desde; unfold mas_dias; simpl; f_equal; lia).
  apply buscar_en_dias_spec. lia.
Qed.

Lemma primero_aceptable_some :
  forall cs n c d,
    primero_aceptable self reloj duracion_horas n cs = Some (c, d) ->
    exists i,
      nth_error cs i = Some c
      /\ aceptable self duracion_horas (reloj (n + i)%nat) c = true
      /\ d = obtener_arbitros_disponibles_todos_tipos self c
               (mas_horas c duracion_horas)
      /\ (forall j cj,
            (j < i)%nat -> nth_error cs j = Some cj ->
            aceptable self duracion_horas (reloj (n + j)%nat) cj = false).
Proof.
  induction cs as [|c0 cs IH]; intros n c d; simpl; [discriminate|].
  destruct (aceptable self duracion_horas (reloj n) c0) eqn:Ea.
  - intros H. inversion H; subst. exists 0%nat.
    rewrite Nat.add_0_r. repeat split; auto. intros j cj Hj. lia.
  - intros H. destruct (IH _ _ _ H) as (i & Hn & Hacc & Hd & Hprev).
    exists (S i). replace (n + S i)%nat with (S n + i)%nat by lia.
    repeat split; auto.
    intros [|j] cj Hj Hnth; simpl in Hnth.
    + inversion Hnth; subst. rewrite Nat.add_0_r. assumption.
    + replace (n + S j)%nat with (S n + j)%nat by lia.
      eapply Hprev; [lia | eassumption].
Qed.

Lemma primero_aceptable_none :
  forall cs n,
    primero_aceptable self reloj duracion_horas n cs = None
    <-> (forall i c,
           nth_error cs i = Some c ->
           aceptable self duracion_horas (reloj (n + i)%nat) c = false).
Proof.
  induction cs as [|c0 cs IH]; intros n; simpl.
  - split; [|reflexivity]. intros _ [|i] c H; discriminate H.
  - destruct (aceptable self duracion_horas (reloj n) c0) eqn:Ea.
    + split; [discriminate|]. intros H.
      specialize (H 0%nat c0 eq_refl). rewrite Nat.add_0_r in H. congruence.
    + rewrite IH. split.
      * intros H [|i] c Hn; simpl in Hn.
        -- inversion Hn; subst. rewrite Nat.add_0_r. assumption.
        -- replace (n + S i)%nat with (S n + i)%nat by lia. auto.
      * intros H i c Hn. replace (S n + i)%nat with (n + S i)%nat by lia.
        apply H. exact Hn.
Qed.
End Busqueda.

Lemma en_candidatos :
  forall fecha_desde max_dias c,
    In c (candidatos fecha_desde max_dias)
    <-> exists k h,
          0 <= k < max_dias /\ In h horarios_partido
          /\ c = mkDateTime (ordinal fecha_desde + k) (h * MICROS_POR_HORA).
Proof.
  intros fecha_desde max_dias c. unfold candidatos, candidatos_del_dia.
  rewrite in_flat_map. split.
  - intros (k & Hk & Hc). apply in_seq in Hk.
    apply in_map_iff in Hc as (h & <- & Hh).
    exists (Z.of_nat k), h. split; [lia|]. split; [assumption | reflexivity].
  - intros (k & h & Hk & Hh & ->). exists (Z.to_nat k). split.
    + apply in_seq. lia.
    + apply in_map_iff. exists h. split; [|assumption].
      unfold replace_hora, mas_dias. simpl. f_equal. lia.
Qed.

Lemma length_candidatos :
  forall fecha_desde max_dias,
    List.length (candidatos fecha_desde max_dias)
    = (Z.to_nat max_dias * 4)%nat.
Proof.
  intros fecha_desde max_dias. unfold candidatos.
  rewrite flat_map_constant_length with (c := 4%nat).
  - rewrite length_seq. reflexivity.
  - intros k _. reflexivity.
Qed.

Lemma arbitros_disponibles_bucle_spec :
  forall self arbitros fi ff excluir disponibles,
    arbitros_disponibles_bucle self arbitros fi ff excluir disponibles
    = (disponibles
       ++ filter
            (fun a =>
               negb (existsb (String.eqb (Recurso.id a)) excluir)
               && fst (verificar_disponibilidad_recurso self a fi ff))
            arbitros)%list.
Proof.
  intros self arbitros fi ff excluir.
  induction arbitros as [|a arbitros IH]; intros disponibles; simpl.
  - rewrite app_nil_r. reflexivity.
  - destruct (existsb (String.eqb (Recurso.id a)) excluir); simpl.
    + apply IH.
    + destruct (verificar_disponibilidad_recurso self a fi ff) as [[|] m];
        simpl; rewrite IH; [|reflexivity].
      unfold list_append. rewrite <- app_assoc. reflexivity.
Qed.

Lemma aceptable_iff :
  forall self dur ahora c,
    aceptable self dur ahora c = true
    <-> dt_le ahora c
        /\ fst (validar_conflicto_estadio c (mas_horas c dur)
                  (obtener_eventos self)) = true
        /\ (1 <= List.length
                   (obtener_arbitros_disponibles self PRINCIPAL c
                      (mas_horas c dur) []))%nat
        /\ (2 <= List.length
                   (obtener_arbitros_disponibles self LINEA c
                      (mas_horas c dur) []))%nat
        /\ (1 <= List.length
                   (obtener_arbitros_disponibles self CUARTO c
                      (mas_horas c dur) []))%nat.
Proof.
  intros self dur ahora c.
  unfold aceptable, hay_equipo_arbitral_completo,
    obtener_arbitros_disponibles_todos_tipos,
    verificar_disponibilidad_estadio.
  cbn [arbitro_principal arbitro_de_linea cuarto_arbitro].
  destruct (validar_conflicto_estadio c (mas_horas c dur) (obtener_eventos self))
    as [v m]. cbn [fst].
  rewrite !andb_true_iff, negb_true_iff, dt_ltb_false_iff, !Nat.leb_le.
  unfold dt_le. tauto.
Qed.

(** C6, as the code has it.  The horizon search tries the candidate
    kickoffs in order: one day at a time from the day of the search start,
    for [max_dias_busqueda] days (60 by default), and on each day at 12:00,
    15:00, 17:00 and 20:00.  It reads the clock once per candidate and
    skips the candidate when it is strictly earlier than that reading; a
    candidate equal to the reading is kept.  A candidate whose window the
    facility check rejects is dropped whatever the referees; otherwise the
    available referees of each category are computed, and the candidate is
    taken when there are at least 1 Principal, 2 Line and 1 Fourth.  The
    search always returns: the first candidate that is taken, with the
    lists of available referees per category, or [None] when no candidate
    of the horizon is taken. *)
Theorem C6_busqueda_primer_horario :
  forall (self : PlanificadorEventos) (reloj : Reloj) (fecha_desde : DateTime)
         (dur max_dias : Z),
    let cs := candidatos fecha_desde max_dias in
    let resultado :=
      buscar_proximo_horario self reloj fecha_desde dur max_dias in
    resultado = Termina (primero_aceptable self reloj dur 0%nat cs)
    /\ (forall c,
          In c cs
          <-> exists k h,
                0 <= k < max_dias /\ In h [12; 15; 17; 20]
                /\ c = mkDateTime (ordinal fecha_desde + k)
                         (h * MICROS_POR_HORA))
    /\ List.length cs = (Z.to_nat max_dias * 4)%nat
    /\ (forall ahora c,
          aceptable self dur ahora c = true
          <-> dt_le ahora c
              /\ fst (validar_conflicto_estadio c (mas_horas c dur)
                        (obtener_eventos self)) = true
              /\ (1 <= List.length
                         (obtener_arbitros_disponibles self PRINCIPAL c
                            (mas_horas c dur) []))%nat
              /\ (2 <= List.length
                         (obtener_arbitros_disponibles self LINEA c
                            (mas_horas c dur) []))%nat
              /\ (1 <= List.length
                         (obtener_arbitros_disponibles self CUARTO c
                            (mas_horas c dur) []))%nat)
    /\ (forall c d,
          resultado = Termina (Some (c, d)) ->
          exists i,
            nth_error cs i = Some c
            /\ aceptable self dur (reloj i) c = true
            /\ d = obtener_arbitros_disponibles_todos_tipos self c
                     (mas_horas c dur)
            /\ (forall j cj,
                  (j < i)%nat -> nth_error cs j = Some cj ->
                  aceptable self dur (reloj j) cj = false))
    /\ (resultado = Termina None
        <-> forall i c,
              nth_error cs i = Some c ->
              aceptable self dur (reloj i) c = false)
    /\ (forall t fi ff,
          obtener_arbitros_disponibles self t fi ff []
          = filter (fun a => fst (verificar_disponibilidad_recurso self a fi ff))
                   (obtener_recursos_por_tipo self t)).
Proof.
  intros self reloj fecha_desde dur max_dias cs resultado.
  assert (E : resultado = Termina (primero_aceptable self reloj dur 0%nat cs))
    by apply buscar_proximo_horario_spec.
  split; [exact E|].
  split; [apply en_candidatos|].
  split; [apply length_candidatos|].
  split; [apply aceptable_iff|].
  split.
  { intros c d H. rewrite E in H. inversion H as [H'].
    apply primero_aceptable_some in H'. exact H'. }
  split.
  { rewrite E. split.
    - intros H. inversion H as [H'].
      apply (proj1 (primero_aceptable_none self reloj dur cs 0)). exact H'.
    - intros H. f_equal.
      apply (proj2 (primero_aceptable_none self reloj dur cs 0)). exact H. }
  intros t fi ff. unfold obtener_arbitros_disponibles.
  rewrite arbitros_disponibles_bucle_spec. reflexivity.
Qed.

(** C6 as stated fails: the clock shows noon of the 25th, the search starts
    on the 25th, and the slot returned is noon of the 25th, which is not
    strictly in the future. *)
Lemma C6_contraejemplo_instante_actual :
  buscar_proximo_horario plantel reloj_mediodia (a_las dia_25_dic 0) 2 60
  = Termina (Some (a_las dia_25_dic 12,
                   mkDisponibles [oliver] [beswick; nunn] [madley]))
  /\ dt_gtb (a_las dia_25_dic 12) (reloj_mediodia 0%nat) = false.
Proof. vm_compute. split; reflexivity. Qed.

(** ** The theorems at the sample data *)

Lemma C4_estadio_primer_fallo_ejemplo :
  validar_conflicto_estadio inicio_tardio fin_tardio
    ([partido_enero] ++ partido_noche :: [partido_27])
  = (false, msg_conflicto_estadio partido_noche)
  /\ descanso_estadio_validar 2 [] inicio_tardio fin_tardio
       ([partido_enero] ++ partido_noche :: [partido_27])
     = (false, msg_conflicto_horario partido_noche).
Proof.
  pose proof (C4_estadio_primer_fallo inicio_tardio fin_tardio
                [partido_enero] [partido_27] partido_noche [] 2
                eq_refl eq_refl eq_refl) as (H1 & H2 & _).
  split; [exact H1 | exact H2].
Defined.

Lemma C8_eliminar_recurso_guardia_ejemplo :
  dict_contains "p1" (recursos plantel_dos_partidos) = true
  /\ fst (fst (eliminar_recurso plantel_dos_partidos "p1" reloj_en_marcha))
     = false
  /\ snd (eliminar_recurso plantel_dos_partidos "p1" reloj_en_marcha)
     = plantel_dos_partidos
  /\ fst (fst (eliminar_recurso
                 (eliminar_eventos plantel_dos_partidos ["e1"; "e5"]) "p1"
                 reloj_en_marcha)) = true
  /\ fst (fst (eliminar_recurso plantel_dos_partidos "p1"
                 (fun n => mas_dias (reloj_en_marcha n) 31))) = true.
Proof.
  pose proof (C8_eliminar_recurso_guardia plantel_dos_partidos "p1"
                reloj_en_marcha eq_refl) as (_ & _ & _ & _ & _ & H6 & H7 & _).
  split; [reflexivity|].
  assert (Hl : lecturas_entre reloj_en_marcha
                 (List.length
                    (obtener_eventos_recurso plantel_dos_partidos "p1"))
                 (a_las dia_25_dic 12) (a_las dia_25_dic 13)).
  { intros i Hi. change (i < 2)%nat in Hi.
    destruct i as [|[|i]]; [split; reflexivity | split; reflexivity | lia]. }
  destruct (H6 _ _ Hl) as (Ha & _ & Hb).
  assert (Hf : tiene_eventos_futuros plantel_dos_partidos "p1"
                 (a_las dia_25_dic 13)).
  { exists partido_noche. split; [left; reflexivity|].
    split; [|reflexivity]. exists oliver. split; [left|]; reflexivity. }
  destruct (Ha Hf) as [Ha1 Ha2].
  split; [exact Ha1|]. split; [exact Ha2|]. split.
  - apply Hb.
    + constructor; [intros [E|[]]; discriminate E|].
      constructor; [intros [] | constructor].
    + intros k ev [Hin|[Hin|[]]] _ _; inversion Hin;
        [left | right; left]; reflexivity.
  - apply (H7 _ (a_las (dia_25_dic + 31) 12)).
    + intros i Hi. change (i < 2)%nat in Hi.
      destruct i as [|[|i]]; [reflexivity | reflexivity | lia].
    + intros ev [<-|[<-|[]]] _; reflexivity.
Defined.

Lemma C9_fin_posterior_se_conserva_ejemplo :
  eventos_bien_formados plantel_con_partido
  /\ fin_posterior partido_enero
  /\ eventos_bien_formados
       (snd (planificar_evento plantel_con_partido partido_enero)).
Proof.
  assert (Hinv : eventos_bien_formados plantel_con_partido).
  { constructor; [reflexivity | constructor]. }
  assert (Hev : fin_posterior partido_enero) by reflexivity.
  split; [exact Hinv|]. split; [exact Hev|].
  exact (proj1 (C9_fin_posterior_se_conserva plantel_con_partido Hinv)
           partido_enero Hev).
Defined.

Lemma C3_estadio_intervalos_y_umbral_ejemplo :
  validar_conflicto_estadio (a_las (dia_25_dic + 2) 15)
    (a_las (dia_25_dic + 2) 17) [partido_ida] = (true, "")
  /\ fst (validar_conflicto_estadio (a_las (dia_25_dic + 1) 15)
            (a_las (dia_25_dic + 1) 17) [partido_ida]) = false
  /\ intervalos_intersecan
       (Evento.fecha_inicio partido_ida) (Evento.fecha_fin partido_ida)
       (a_las dia_25_dic 16) (a_las dia_25_dic 18)
  /\ se_superpone_con partido_ida (a_las dia_25_dic 17) (a_las dia_25_dic 19)
     = false.
Proof.
  pose proof (C3_estadio_intervalos_y_umbral partido_ida
                (a_las (dia_25_dic + 2) 15) (a_las (dia_25_dic + 2) 17) [] 2)
    as (_ & _ & _ & _ & Hdos).
  pose proof (C3_estadio_intervalos_y_umbral partido_ida
                (a_las (dia_25_dic + 1) 15) (a_las (dia_25_dic + 1) 17) [] 2)
    as (_ & _ & _ & _ & Huno).
  pose proof (C3_estadio_intervalos_y_umbral partido_ida
                (a_las dia_25_dic 16) (a_las dia_25_dic 18) [] 2)
    as (_ & Hsolapa & _).
  pose proof (C3_estadio_intervalos_y_umbral partido_ida
                (a_las dia_25_dic 17) (a_las dia_25_dic 19) [] 2)
    as (_ & _ & Htoca & _).
  destruct (Hdos eq_refl eq_refl eq_refl) as (_ & Hpasa & _).
  destruct (Huno eq_refl eq_refl eq_refl) as (_ & _ & _ & Hfalla).
  split; [apply Hpasa; left; reflexivity|].
  split; [apply Hfalla; left; change (0 <= 1 < 2); lia|].
  split; [apply (Hsolapa eq_refl eq_refl); reflexivity|].
  apply Htoca. left. reflexivity.
Defined.

Lemma C1_co_requisito_cuotas_exactas_ejemplo :
  co_requisito_errores [oliver; beswick; madley]
  = ["Se requieren 2 árbitros de línea (tiene 1)"]
  /\ fst (co_requisito_validar equipo_arbitral
            (a_las dia_25_dic 15) (a_las dia_25_dic 17) []) = true
  /\ Faltan LINEA <> Sobran LINEA.
Proof.
  destruct (C1_co_requisito_cuotas_exactas [oliver; beswick; madley]
              (a_las dia_25_dic 15) (a_las dia_25_dic 17) [])
    as (_ & E & _ & _ & Hdist).
  destruct (C1_co_requisito_cuotas_exactas equipo_arbitral
              (a_las dia_25_dic 15) (a_las dia_25_dic 17) [])
    as (Hiff & _).
  split; [rewrite E; reflexivity|].
  split; [apply Hiff; repeat split; reflexivity|].
  intros H. discriminate H.
Defined.

Lemma C2_exclusion_mutua_siete_dias_ejemplo :
  fst (exclusion_mutua_validar 7 [oliver] (a_las (dia_25_dic + 6) 15)
         (a_las (dia_25_dic + 6) 17) [partido_ida]) = false
  /\ exclusion_mutua_validar 7 [oliver] (a_las (dia_25_dic + 7) 12)
       (a_las (dia_25_dic + 7) 14) [partido_ida] = (true, "")
  /\ fst (exclusion_mutua_validar 7 [oliver] (a_las (dia_25_dic - 6) 20)
            (a_las (dia_25_dic - 6) 22) [partido_ida]) = false.
Proof.
  destruct (C2_exclusion_mutua_siete_dias [oliver] (a_las (dia_25_dic + 6) 15)
              (a_las (dia_25_dic + 6) 17) [partido_ida])
    as (_ & Hseis & _).
  destruct (C2_exclusion_mutua_siete_dias [oliver] (a_las (dia_25_dic + 7) 12)
              (a_las (dia_25_dic + 7) 14) [partido_ida])
    as (_ & Hsiete & _).
  destruct (C2_exclusion_mutua_siete_dias [oliver] (a_las (dia_25_dic - 6) 20)
              (a_las (dia_25_dic - 6) 22) [partido_ida])
    as (_ & Hantes & _).
  split; [apply (Hseis oliver partido_ida eq_refl eq_refl); reflexivity|].
  split; [apply (Hsiete oliver partido_ida eq_refl eq_refl); reflexivity|].
  apply (Hantes oliver partido_ida eq_refl eq_refl). reflexivity.
Defined.

Lemma C5_validacion_completa_acumula_ejemplo :
  In (msg_no_disponible oliver partido_ida 3)
     (snd (validar_evento_completo Validador_init partido_vuelta [partido_ida]))
  /\ In (mensaje_restriccion (RestriccionExclusionMutua 7) partido_vuelta
           [partido_ida])
        (snd (validar_evento_completo Validador_init partido_vuelta
                [partido_ida]))
  /\ NoDup (snd (validar_evento_completo Validador_init
                   (Partido "e6" "Manchester City" "Fulham"
                      (a_las (dia_25_dic + 1) 15) (a_las (dia_25_dic + 1) 17)
                      [oliver; beswick])
                   [partido_noche])).
Proof.
  destruct (C5_validacion_completa_acumula Validador_init partido_vuelta
              [partido_ida]) as (_ & _ & Hdisp & Hrest & _).
  destruct (C5_validacion_completa_acumula Validador_init
              (Partido "e6" "Manchester City" "Fulham"
                 (a_las (dia_25_dic + 1) 15) (a_las (dia_25_dic + 1) 17)
                 [oliver; beswick])
              [partido_noche]) as (_ & _ & _ & _ & _ & Hnd).
  split.
  - apply (Hdisp oliver); [left; reflexivity | reflexivity | reflexivity].
  - split.
    + apply (Hrest (RestriccionExclusionMutua 7));
        [right; left; reflexivity | reflexivity].
    + apply Hnd. apply sin_duplicados_iff. reflexivity.
Defined.

Lemma C6_busqueda_primer_horario_ejemplo :
  exists i,
    nth_error (candidatos (a_las dia_25_dic 0) 60) i
    = Some (a_las dia_25_dic 15)
    /\ aceptable plantel 2 (a_las dia_25_dic 13) (a_las dia_25_dic 15) = true
    /\ (forall j cj,
          (j < i)%nat ->
          nth_error (candidatos (a_las dia_25_dic 0) 60) j = Some cj ->
          aceptable plantel 2 (a_las dia_25_dic 13) cj = false).
Proof.
  destruct (C6_busqueda_primer_horario plantel
              (fun _ => a_las dia_25_dic 13) (a_las dia_25_dic 0) 2 60)
    as (_ & _ & _ & _ & Hsome & _).
  destruct (Hsome (a_las dia_25_dic 15)
              (mkDisponibles [oliver] [beswick; nunn] [madley]))
    as (i & Hn & Ha & _ & Hprev).
  - vm_compute. reflexivity.
  - exists i. split; [exact Hn|]. split; [exact Ha | exact Hprev].
Defined.

Lemma C7_planificar_todo_o_nada_ejemplo :
  planificar_evento plantel_con_partido partido_vuelta
  = ((false,
      join salto_de_linea
        (snd (validar_evento_completo Validador_init partido_vuelta
                [partido_noche]))),
     plantel_con_partido)
  /\ dict_get "e5"
       (eventos (snd (planificar_evento plantel_con_partido partido_enero)))
     = Some partido_enero
  /\ recursos (snd (planificar_evento plantel_con_partido partido_enero))
     = recursos plantel_con_partido.
Proof.
  destruct (C7_planificar_todo_o_nada plantel_con_partido partido_vuelta)
    as (Hfalla & _).
  destruct (C7_planificar_todo_o_nada plantel_con_partido partido_enero)
    as (_ & Hexito).
  split; [apply Hfalla; reflexivity|].
  destruct (Hexito eq_refl) as (_ & _ & Hget & _ & Hrec & _).
  split; [exact Hget | exact Hrec].
Defined.

Lemma C10_co_requisito_ignora_no_arbitros_ejemplo :
  co_requisito_validar ([oliver; beswick] ++ balon :: [nunn; madley])
    (a_las dia_25_dic 15) (a_las dia_25_dic 17) []
  = co_requisito_validar ([oliver; beswick] ++ [nunn; madley])
      (a_las dia_25_dic 15) (a_las dia_25_dic 17) []
  /\ co_requisito_validar [balon; oliver; balon; beswick; nunn; madley; balon]
       (a_las dia_25_dic 15) (a_las dia_25_dic 17) []
     = (true, "").
Proof.
  destruct (C10_co_requisito_ignora_no_arbitros
              (a_las dia_25_dic 15) (a_las dia_25_dic 17) [])
    as (Hquita & _ & Hpasa).
  split.
  - apply Hquita. reflexivity.
  - apply Hpasa. repeat split; reflexivity.
Defined.

(* ===================================================================== *)
(** * Further properties of the code                                      *)
(* ===================================================================== *)

(** ** The helpers of the constraint set *)

Lemma contar_equipo_cuenta :
  forall rs c,
    contar_equipo rs c
    = mkConteoEquipo (conteo_principal c + cuenta_tipo PRINCIPAL rs)
        (conteo_linea c + cuenta_tipo LINEA rs)
        (conteo_cuarto c + cuenta_tipo CUARTO rs).
Proof.
  induction rs as [|r rs IH]; intros [p l q]; simpl.
  - unfold cuenta_tipo. simpl. f_equal; lia.
  - rewrite IH. unfold cuenta_tipo, es_de_tipo. simpl.
    destruct (Recurso.arbitro r) as [a|]; [|reflexivity].
    destruct (tipo a); simpl; f_equal; lia.
Qed.

Lemma co_requisito_validar_cuotas :
  forall rs fi ff evs,
    fst (co_requisito_validar rs fi ff evs) = cuotas_exactas rs.
Proof.
  intros rs fi ff evs. unfold co_requisito_validar, cuotas_exactas.
  rewrite co_requisito_errores_motivos.
  pose proof (motivos_length PRINCIPAL (cuenta_tipo PRINCIPAL rs)) as H1.
  pose proof (motivos_length LINEA (cuenta_tipo LINEA rs)) as H2.
  pose proof (motivos_length CUARTO (cuenta_tipo CUARTO rs)) as H3.
  cbn [cuota] in H1, H2, H3.
  destruct (cuenta_tipo PRINCIPAL rs =? 1)%nat,
    (cuenta_tipo LINEA rs =? 2)%nat, (cuenta_tipo CUARTO rs =? 1)%nat,
    (motivos PRINCIPAL (cuenta_tipo PRINCIPAL rs)),
    (motivos LINEA (cuenta_tipo LINEA rs)),
    (motivos CUARTO (cuenta_tipo CUARTO rs));
    simpl in *; try reflexivity; discriminate.
Qed.

(** X1. [verificar_equipo_arbitral_completo] counts the referees of each
    category and answers exactly as the co-requisite check does. *)
Theorem X1_equipo_completo_es_co_requisito :
  forall (rs : list Recurso.t) (fi ff : DateTime) (evs : list Evento.t),
    fst (verificar_equipo_arbitral_completo rs)
    = fst (co_requisito_validar rs fi ff evs)
    /\ snd (verificar_equipo_arbitral_completo rs)
       = mkConteoEquipo (cuenta_tipo PRINCIPAL rs) (cuenta_tipo LINEA rs)
           (cuenta_tipo CUARTO rs).
Proof.
  intros rs fi ff evs. rewrite co_requisito_validar_cuotas.
  unfold verificar_equipo_arbitral_completo. rewrite contar_equipo_cuenta.
  split; reflexivity.
Qed.

Lemma validar_disponibilidad_arbitro_libre :
  forall a fi ff evs,
    fst (validar_disponibilidad_arbitro a fi ff evs)
    = forallb (fun e => negb (en_conflicto 7 fi a e)) evs.
Proof.
  intros a fi ff evs. induction evs as [|ev evs IH]; simpl; [reflexivity|].
  unfold en_conflicto at 1.
  destruct (contiene_recurso ev (Recurso.id a)); simpl; [|exact IH].
  change DIAS_DESCANSO_ARBITROS with 7.
  destruct (Z.abs (date fi - date (Evento.fecha_inicio ev)) <? 7); simpl;
    [reflexivity | exact IH].
Qed.

Lemma verificar_disponibilidad_arbitro_libre :
  forall dias a fi evs,
    fst (verificar_disponibilidad_arbitro dias a fi evs)
    = forallb (fun e => negb (en_conflicto dias fi a e)) evs.
Proof.
  intros dias a fi evs. induction evs as [|ev evs IH]; simpl; [reflexivity|].
  unfold en_conflicto at 1, calcular_dias_diferencia.
  destruct (contiene_recurso ev (Recurso.id a)); simpl; [|exact IH].
  destruct (Z.abs (date fi - date (Evento.fecha_inicio ev)) <? dias); simpl;
    [reflexivity | exact IH].
Qed.

Lemma validar_disponibilidad_arbitro_primero :
  forall a fi ff pre ev post,
    forallb (fun e => negb (en_conflicto 7 fi a e)) pre = true ->
    en_conflicto 7 fi a ev = true ->
    validar_disponibilidad_arbitro a fi ff (pre ++ ev :: post)
    = (false,
       msg_no_disponible a ev
         (Z.abs (date fi - date (Evento.fecha_inicio ev)))).
Proof.
  intros a fi ff pre ev post Hpre Hev. induction pre as [|p pre IH]; simpl.
  - unfold en_conflicto in Hev. apply andb_true_iff in Hev as [H1 H2].
    rewrite H1. change DIAS_DESCANSO_ARBITROS with 7. rewrite H2. reflexivity.
  - simpl in Hpre. apply andb_true_iff in Hpre as [Hp Hpre].
    apply negb_true_iff in Hp. unfold en_conflicto in Hp.
    change DIAS_DESCANSO_ARBITROS with 7.
    destruct (contiene_recurso p (Recurso.id a)); simpl in Hp.
    + rewrite Hp. auto.
    + auto.
Qed.

(** X2. A referee is available for a start date exactly when no event of
    the list that holds it (by identifier) starts less than 7 calendar days
    from that date; when it is not, the message names the first such event
    of the list.  The check of the validator and the one of the
    mutual-exclusion restriction (at 7 days) give the same answer. *)
Theorem X2_disponibilidad_arbitro :
  forall (a : Recurso.t) (fi ff : DateTime) (evs : list Evento.t),
    (fst (validar_disponibilidad_arbitro a fi ff evs) = true
     <-> forall ev,
           In ev evs -> contiene_recurso ev (Recurso.id a) = true ->
           7 <= Z.abs (date fi - date (Evento.fecha_inicio ev)))
    /\ fst (verificar_disponibilidad_arbitro 7 a fi evs)
       = fst (validar_disponibilidad_arbitro a fi ff evs)
    /\ (forall pre ev post,
          evs = (pre ++ ev :: post)%list ->
          forallb (fun e => negb (en_conflicto 7 fi a e)) pre = true ->
          en_conflicto 7 fi a ev = true ->
          validar_disponibilidad_arbitro a fi ff evs
          = (false,
             msg_no_disponible a ev
               (Z.abs (date fi - date (Evento.fecha_inicio ev))))).
Proof.
  intros a fi ff evs. split; [|split].
  - rewrite validar_disponibilidad_arbitro_libre, forallb_forall. split.
    + intros H ev Hin Hc. specialize (H ev Hin).
      apply negb_true_iff in H. unfold en_conflicto in H. rewrite Hc in H.
      simpl in H. apply Z.ltb_ge in H. exact H.
    + intros H ev Hin. apply negb_true_iff. unfold en_conflicto.
      destruct (contiene_recurso ev (Recurso.id a)) eqn:Hc; [|reflexivity].
      simpl. apply Z.ltb_ge. auto.
  - rewrite validar_disponibilidad_arbitro_libre,
      verificar_disponibilidad_arbitro_libre. reflexivity.
  - intros pre ev post -> Hpre Hev.
    apply validar_disponibilidad_arbitro_primero; assumption.
Qed.

Lemma conflictos_de_uno_vacio :
  forall dias fi r evs (resto : list (Recurso.t * Evento.t)),
    lista_vacia (map (pair r) (filter (en_conflicto dias fi r) evs) ++ resto)%list
    = forallb (fun e => negb (en_conflicto dias fi r e)) evs
      && lista_vacia resto.
Proof.
  intros dias fi r evs resto.
  induction evs as [|ev evs IHe]; simpl; [reflexivity|].
  destruct (en_conflicto dias fi r ev); simpl; [reflexivity | exact IHe].
Qed.

Lemma conflictos_descanso_vacio :
  forall dias rs fi evs,
    lista_vacia (conflictos_descanso dias rs fi evs)
    = forallb (descansado dias fi evs) rs.
Proof.
  intros dias rs fi evs. unfold conflictos_descanso.
  induction rs as [|r rs IH]; simpl; [reflexivity|].
  rewrite <- IH. unfold descansado at 1.
  destruct (es_arbitro r); simpl; [|reflexivity].
  apply conflictos_de_uno_vacio.
Qed.

Lemma exclusion_mutua_validar_descansados :
  forall dias rs fi ff evs,
    fst (exclusion_mutua_validar dias rs fi ff evs)
    = forallb (descansado dias fi evs) rs.
Proof.
  intros dias rs fi ff evs. rewrite <- conflictos_descanso_vacio.
  unfold exclusion_mutua_validar. rewrite exclusion_mutua_errores_spec.
  destruct (conflictos_descanso dias rs fi evs); reflexivity.
Qed.

(** X3. The mutual-exclusion restriction passes exactly when every referee
    of the candidate passes the availability check on its own: the second
    and third steps of the full validation judge the rest of the referees
    alike. *)
Theorem X3_exclusion_mutua_por_arbitro :
  forall (dias : Z) (rs : list Recurso.t) (fi ff : DateTime)
         (evs : list Evento.t),
    fst (exclusion_mutua_validar dias rs fi ff evs)
    = forallb
        (fun r =>
           negb (es_arbitro r)
           || fst (verificar_disponibilidad_arbitro dias r fi evs))
        rs
    /\ fst (exclusion_mutua_validar 7 rs fi ff evs)
       = forallb
           (fun r =>
              negb (es_arbitro r)
              || fst (validar_disponibilidad_arbitro r fi ff evs))
           rs.
Proof.
  intros dias rs fi ff evs. rewrite !exclusion_mutua_validar_descansados.
  split; induction rs as [|r rs IH]; simpl; try reflexivity;
    rewrite IH; unfold descansado;
    [rewrite verificar_disponibilidad_arbitro_libre
    | rewrite validar_disponibilidad_arbitro_libre]; reflexivity.
Qed.

(** ** The full validation with the predefined restrictions *)

Lemma lista_vacia_app :
  forall (A : Type) (l1 l2 : list A),
    lista_vacia (l1 ++ l2) = lista_vacia l1 && lista_vacia l2.
Proof. intros A [|x l1] l2; reflexivity. Qed.

Lemma agregar_sin_duplicados_vacia :
  forall ms es,
    lista_vacia (agregar_sin_duplicados ms es)
    = lista_vacia es && lista_vacia ms.
Proof.
  intros ms es.
  destruct (agregar_sin_duplicados_spec ms es) as (nuevos & E & _ & Hin & Hall).
  rewrite E, lista_vacia_app.
  destruct es as [|e es]; simpl; [|reflexivity].
  destruct ms as [|m ms], nuevos as [|n nuevos]; simpl; try reflexivity.
  - destruct (Hin n (or_introl eq_refl)) as [[] _].
  - destruct (Hall m (or_introl eq_refl)) as [[]|[]].
Qed.

Lemma restricciones_bucle_vacia :
  forall cs rs fi ff evs,
    lista_vacia (validar_restricciones_bucle cs rs fi ff evs [])
    = forallb (fun c => fst (restriccion_validar c rs fi ff evs)) cs.
Proof.
  intros cs rs fi ff evs. rewrite validar_restricciones_bucle_spec. simpl.
  induction cs as [|c cs IH]; simpl; [reflexivity|].
  destruct (fst (restriccion_validar c rs fi ff evs)); simpl;
    [exact IH | reflexivity].
Qed.

Lemma restricciones_bucle_length :
  forall cs rs fi ff evs,
    List.length (validar_restricciones_bucle cs rs fi ff evs [])
    = List.length
        (filter (fun c => negb (fst (restriccion_validar c rs fi ff evs))) cs).
Proof.
  intros cs rs fi ff evs. rewrite validar_restricciones_bucle_spec. simpl.
  induction cs as [|c cs IH]; simpl; [reflexivity|].
  destruct (fst (restriccion_validar c rs fi ff evs)); simpl;
    [exact IH | f_equal; exact IH].
Qed.

Lemma mensajes_disponibilidad_vacia :
  forall evento evs,
    lista_vacia (mensajes_disponibilidad evento evs)
    = forallb (descansado 7 (Evento.fecha_inicio evento) evs)
        (Evento.recursos evento).
Proof.
  intros evento evs. unfold mensajes_disponibilidad.
  induction (Evento.recursos evento) as [|r rs IH]; simpl; [reflexivity|].
  rewrite lista_vacia_app, IH. f_equal. unfold descansado.
  destruct (es_arbitro r); simpl; [|reflexivity].
  rewrite <- validar_disponibilidad_arbitro_libre
    with (ff := Evento.fecha_fin evento).
  destruct (fst (validar_disponibilidad_arbitro r _ _ evs)); reflexivity.
Qed.

Lemma validar_evento_completo_predefinido :
  forall evento evs,
    fst (validar_evento_completo Validador_init evento evs)
    = forallb (estadio_libre 2 (Evento.fecha_inicio evento)
                 (Evento.fecha_fin evento)) evs
      && forallb (descansado 7 (Evento.fecha_inicio evento) evs)
           (Evento.recursos evento)
      && cuotas_exactas (Evento.recursos evento).
Proof.
  intros evento evs. rewrite validar_evento_completo_spec. cbn [fst].
  rewrite agregar_sin_duplicados_vacia, lista_vacia_app,
    mensajes_disponibilidad_vacia.
  unfold mensaje_estadio, mensajes_restricciones.
  rewrite validar_conflicto_estadio_libre.
  change DIAS_DESCANSO_ESTADIO with 2.
  cbn [restricciones Validador_init flat_map restriccion_validar].
  change DIAS_DESCANSO_ARBITROS with 7. change DIAS_DESCANSO_ESTADIO with 2.
  rewrite co_requisito_validar_cuotas, exclusion_mutua_validar_descansados,
    descanso_estadio_validar_libre.
  destruct (forallb (estadio_libre 2 _ _) evs),
    (forallb (descansado 7 _ evs) _), (cuotas_exactas _); reflexivity.
Qed.

(** X4. With the predefined restrictions, the full validation accepts a
    candidate exactly when three things hold: every existing event is
    free of overlap with the window of the candidate and at no short gap
    from it (2 days); no referee of the candidate is held by an existing
    event that starts less than 7 days from the start of the candidate; and
    the candidate has exactly 1 Principal, 2 Line and 1 Fourth referee. *)
Theorem X4_validacion_completa_predefinida :
  forall (evento : Evento.t) (evs : list Evento.t),
    fst (validar_evento_completo Validador_init evento evs) = true
    <-> (forall ev, In ev evs ->
           estadio_libre 2 (Evento.fecha_inicio evento)
             (Evento.fecha_fin evento) ev = true)
        /\ (forall r ev,
              In r (Evento.recursos evento) -> es_arbitro r = true ->
              In ev evs -> contiene_recurso ev (Recurso.id r) = true ->
              7 <= Z.abs (date (Evento.fecha_inicio evento)
                          - date (Evento.fecha_inicio ev)))
        /\ (cuenta_tipo PRINCIPAL (Evento.recursos evento) = 1
            /\ cuenta_tipo LINEA (Evento.recursos evento) = 2
            /\ cuenta_tipo CUARTO (Evento.recursos evento) = 1)%nat.
Proof.
  intros evento evs. rewrite validar_evento_completo_predefinido.
  rewrite !andb_true_iff, !forallb_forall. unfold cuotas_exactas.
  rewrite !andb_true_iff, !Nat.eqb_eq.
  split.
  - intros [[H1 H2] H3]. split; [exact H1|]. split; [|tauto].
    intros r ev Hr Ha Hev Hc. specialize (H2 r Hr). unfold descansado in H2.
    rewrite Ha in H2. simpl in H2. rewrite forallb_forall in H2.
    specialize (H2 ev Hev). apply negb_true_iff in H2.
    unfold en_conflicto in H2. rewrite Hc in H2. simpl in H2.
    apply Z.ltb_ge in H2. exact H2.
  - intros (H1 & H2 & H3). split; [split; [exact H1|] | tauto].
    intros r Hr. unfold descansado.
    destruct (es_arbitro r) eqn:Ha; [|reflexivity]. simpl.
    apply forallb_forall. intros ev Hev. apply negb_true_iff.
    unfold en_conflicto.
    destruct (contiene_recurso ev (Recurso.id r)) eqn:Hc; [|reflexivity].
    simpl. apply Z.ltb_ge. eauto.
Qed.

(** X5. [validar_todas] passes exactly when every registered restriction
    passes, and returns one message per restriction that fails.  The
    validator built by [crear_validador_estadio] accepts a candidate
    exactly when the full validation of [Validador] does. *)
Theorem X5_validar_todas :
  forall (self : ValidadorRestricciones) (rs : list Recurso.t)
         (fi ff : DateTime) (evs : list Evento.t),
    fst (validar_todas self rs fi ff evs)
    = forallb (fun c => fst (restriccion_validar c rs fi ff evs))
        (vr_restricciones self)
    /\ List.length (snd (validar_todas self rs fi ff evs))
       = List.length
           (filter (fun c => negb (fst (restriccion_validar c rs fi ff evs)))
                   (vr_restricciones self))
    /\ (forall id nombre equipos,
          fst (validar_todas crear_validador_estadio rs fi ff evs)
          = fst (validar_evento_completo Validador_init
                   (Evento.mk id nombre fi ff rs equipos) evs)).
Proof.
  intros self rs fi ff evs. unfold validar_todas. cbn [fst snd].
  split; [apply restricciones_bucle_vacia|].
  split; [apply restricciones_bucle_length|].
  intros id nombre equipos.
  rewrite restricciones_bucle_vacia, validar_evento_completo_predefinido.
  cbn [vr_restricciones crear_validador_estadio agregar_restriccion
       list_append app forallb restriccion_validar Evento.fecha_inicio
       Evento.fecha_fin Evento.recursos].
  rewrite co_requisito_validar_cuotas, exclusion_mutua_validar_descansados,
    descanso_estadio_validar_libre.
  destruct (forallb (estadio_libre 2 fi ff) evs),
    (forallb (descansado 7 fi evs) rs), (cuotas_exactas rs); reflexivity.
Qed.

(** ** Registered restrictions *)

Lemma remover_restriccion_spec :
  forall rs nombre,
    (fst (remover_restriccion rs nombre) = false
     /\ snd (remover_restriccion rs nombre) = rs
     /\ forall c, In c rs -> restriccion_nombre c <> nombre)
    \/ (fst (remover_restriccion rs nombre) = true
        /\ exists pre c post,
             rs = (pre ++ c :: post)%list
             /\ restriccion_nombre c = nombre
             /\ (forall x, In x pre -> restriccion_nombre x <> nombre)
             /\ snd (remover_restriccion rs nombre) = (pre ++ post)%list).
Proof.
  intros rs nombre. induction rs as [|c rs IH]; simpl.
  - left. split; [reflexivity|]. split; [reflexivity|]. intros c [].
  - destruct (String.eqb_spec (restriccion_nombre c) nombre) as [E|E]; simpl.
    + right. split; [reflexivity|]. exists [], c, rs.
      split; [reflexivity|]. split; [exact E|]. split; [intros x []|reflexivity].
    + destruct (remover_restriccion rs nombre) as [b rs'] eqn:Er.
      simpl in *. destruct IH as [(Hb & Hs & Hn) | (Hb & pre & x & post & H1 & H2 & H3 & H4)].
      * left. subst. split; [reflexivity|]. split; [reflexivity|].
        intros y [<-|Hy]; auto.
      * right. subst b. split; [reflexivity|].
        exists (c :: pre), x, post. subst rs rs'. simpl.
        split; [reflexivity|]. split; [exact H2|].
        split; [|reflexivity]. intros y [<-|Hy]; auto.
Qed.

(** X6. [remover_restriccion] takes out the first registered restriction
    of the given name and nothing else; when no restriction has the name
    it returns [False] and the list is unchanged.  Removing by its name a
    restriction just added gives the list back when the name was not
    registered before. *)
Theorem X6_remover_restriccion :
  forall (rs : list Restriccion) (nombre : string),
    (fst (remover_restriccion rs nombre) = true
     <-> exists c, In c rs /\ restriccion_nombre c = nombre)
    /\ (fst (remover_restriccion rs nombre) = false ->
        snd (remover_restriccion rs nombre) = rs)
    /\ (fst (remover_restriccion rs nombre) = true ->
        exists pre c post,
          rs = (pre ++ c :: post)%list
          /\ restriccion_nombre c = nombre
          /\ (forall x, In x pre -> restriccion_nombre x <> nombre)
          /\ snd (remover_restriccion rs nombre) = (pre ++ post)%list)
    /\ (forall c,
          (forall x, In x rs -> restriccion_nombre x <> restriccion_nombre c) ->
          remover_restriccion (agregar_restriccion rs c) (restriccion_nombre c)
          = (true, rs)).
Proof.
  intros rs nombre.
  destruct (remover_restriccion_spec rs nombre)
    as [(Hb & Hs & Hn) | (Hb & pre & c & post & H1 & H2 & H3 & H4)].
  - rewrite Hb. split; [|split; [|split]].
    + split; [discriminate|]. intros (c & Hc & E). destruct (Hn c Hc E).
    + intros _. exact Hs.
    + discriminate.
    + intros c Hc. clear -Hc. unfold agregar_restriccion, list_append.
      induction rs as [|x rs IH]; simpl.
      * rewrite String.eqb_refl. reflexivity.
      * destruct (String.eqb_spec (restriccion_nombre x) (restriccion_nombre c))
          as [E|E]; [destruct (Hc x (or_introl eq_refl) E)|].
        rewrite IH; [reflexivity|]. intros y Hy. apply Hc. right. exact Hy.
  - rewrite Hb. split; [|split; [|split]].
    + split; [|reflexivity]. intros _. exists c. split; [|exact H2].
      rewrite H1. apply in_or_app. right. left. reflexivity.
    + discriminate.
    + intros _. exists pre, c, post. auto.
    + intros c' Hc. clear -Hc. unfold agregar_restriccion, list_append.
      induction rs as [|x rs IH]; simpl.
      * rewrite String.eqb_refl. reflexivity.
      * destruct (String.eqb_spec (restriccion_nombre x) (restriccion_nombre c'))
          as [E|E]; [destruct (Hc x (or_introl eq_refl) E)|].
        rewrite IH; [reflexivity|]. intros y Hy. apply Hc. right. exact Hy.
Qed.

(** ** The resources of an event *)

Lemma remover_de_lista_spec :
  forall rs rid,
    fst (remover_de_lista rs rid)
    = existsb (fun r => String.eqb (Recurso.id r) rid) rs
    /\ (forall rid',
          rid' <> rid ->
          existsb (fun r => String.eqb (Recurso.id r) rid')
                  (snd (remover_de_lista rs rid))
          = existsb (fun r => String.eqb (Recurso.id r) rid') rs)
    /\ (NoDup (map Recurso.id rs) ->
        existsb (fun r => String.eqb (Recurso.id r) rid)
                (snd (remover_de_lista rs rid)) = false
        /\ NoDup (map Recurso.id (snd (remover_de_lista rs rid)))).
Proof.
  intros rs rid. induction rs as [|r rs IH]; simpl.
  - split; [reflexivity|]. split; [reflexivity|]. intros _.
    split; [reflexivity | constructor].
  - destruct IH as (IH1 & IH2 & IH3).
    destruct (String.eqb_spec (Recurso.id r) rid) as [E|E]; simpl.
    + split; [reflexivity|]. split.
      * intros rid' Hne.
        destruct (String.eqb_spec (Recurso.id r) rid'); [congruence|reflexivity].
      * intros Hnd. inversion Hnd as [|? ? Hni Hnd']; subst. split; [|exact Hnd'].
        destruct (existsb _ rs) eqn:Ex; [|reflexivity].
        apply existsb_exists in Ex as (x & Hx & Hxe).
        apply String.eqb_eq in Hxe. exfalso. apply Hni. rewrite <- Hxe.
        apply in_map. exact Hx.
    + destruct (remover_de_lista rs rid) as [b rs'] eqn:Er. simpl in *.
      split; [exact IH1|]. split.
      * intros rid' Hne. rewrite IH2 by exact Hne. reflexivity.
      * intros Hnd. inversion Hnd as [|? ? Hni Hnd']; subst.
        destruct (IH3 Hnd') as [Hf Hnd2].
        destruct (String.eqb_spec (Recurso.id r) rid); [congruence|].
        split; [exact Hf|]. constructor; [|exact Hnd2].
        intros Hin. apply Hni. apply in_map_iff in Hin as (x & Hxe & Hx).
        assert (Hex : existsb (fun y => String.eqb (Recurso.id y) (Recurso.id r))
                        rs' = true).
        { apply existsb_exists. exists x. split; [exact Hx|].
          apply String.eqb_eq. exact Hxe. }
        rewrite IH2 in Hex by congruence.
        apply existsb_exists in Hex as (y & Hy & Hye).
        apply String.eqb_eq in Hye. rewrite <- Hye. apply in_map. exact Hy.
Qed.

Lemma remover_de_lista_ultimo :
  forall rs r,
    existsb (fun x => String.eqb (Recurso.id x) (Recurso.id r)) rs = false ->
    remover_de_lista (rs ++ [r]) (Recurso.id r) = (true, rs).
Proof.
  intros rs r. induction rs as [|x rs IH]; simpl.
  - intros _. rewrite String.eqb_refl. reflexivity.
  - destruct (String.eqb (Recurso.id x) (Recurso.id r)); simpl; [discriminate|].
    intros H. rewrite IH by exact H. reflexivity.
Qed.

Lemma remover_de_lista_primero :
  forall rs rid,
    existsb (fun r => String.eqb (Recurso.id r) rid) rs = true ->
    exists pre x post,
      rs = (pre ++ x :: post)%list
      /\ Recurso.id x = rid
      /\ (forall y, In y pre -> Recurso.id y <> rid)
      /\ snd (remover_de_lista rs rid) = (pre ++ post)%list.
Proof.
  intros rs rid. induction rs as [|r rs IH]; simpl; [discriminate|].
  destruct (String.eqb_spec (Recurso.id r) rid) as [E|E]; simpl.
  - intros _. exists [], r, rs. simpl.
    split; [reflexivity|]. split; [exact E|].
    split; [intros y [] | reflexivity].
  - intros H. destruct (IH H) as (pre & x & post & H1 & H2 & H3 & H4).
    exists (r :: pre), x, post.
    destruct (remover_de_lista rs rid) as [b rs'] eqn:Er. simpl in *.
    split; [rewrite H1; reflexivity|]. split; [exact H2|].
    split; [|rewrite H4; reflexivity].
    intros y [<-|Hy]; [exact E | apply H3; exact Hy].
Qed.

Lemma remover_de_lista_ausente :
  forall rs rid,
    existsb (fun r => String.eqb (Recurso.id r) rid) rs = false ->
    remover_de_lista rs rid = (false, rs).
Proof.
  intros rs rid. induction rs as [|r rs IH]; simpl; [reflexivity|].
  destruct (String.eqb (Recurso.id r) rid); simpl; [discriminate|].
  intros H. rewrite IH by exact H. reflexivity.
Qed.

(** X7. [Evento.agregar_recurso] appends a resource exactly when the event
    holds none of that identifier: the event that holds the identifier is
    left as it is, and the one that does not gets the resource at the end
    of its list, nothing else changing; either way the event then holds the
    identifier, and a list without repeated identifiers stays so.
    [Evento.remover_recurso] reports whether the identifier was held: an
    event that does not hold it is left as it is, and from one that holds
    it the first resource of that identifier is taken out, nothing else
    changing; the other identifiers are kept, and a list without repeated
    identifiers is left free of the removed one.  Removing a resource just
    added to an event that did not hold it gives the event back. *)
Theorem X7_recursos_de_un_evento :
  forall (ev : Evento.t) (r : Recurso.t) (rid : string),
    fst (evento_agregar_recurso ev r) = negb (contiene_recurso ev (Recurso.id r))
    /\ (contiene_recurso ev (Recurso.id r) = true ->
        snd (evento_agregar_recurso ev r) = ev)
    /\ (contiene_recurso ev (Recurso.id r) = false ->
        snd (evento_agregar_recurso ev r)
        = Evento.mk (Evento.id ev) (Evento.nombre ev) (Evento.fecha_inicio ev)
            (Evento.fecha_fin ev) (Evento.recursos ev ++ [r])%list
            (Evento.equipos ev))
    /\ (contiene_recurso ev rid = false ->
        snd (evento_remover_recurso ev rid) = ev)
    /\ (contiene_recurso ev rid = true ->
        exists pre x post,
          Evento.recursos ev = (pre ++ x :: post)%list
          /\ Recurso.id x = rid
          /\ (forall y, In y pre -> Recurso.id y <> rid)
          /\ snd (evento_remover_recurso ev rid)
             = Evento.mk (Evento.id ev) (Evento.nombre ev)
                 (Evento.fecha_inicio ev) (Evento.fecha_fin ev)
                 (pre ++ post)%list (Evento.equipos ev))
    /\ contiene_recurso (snd (evento_agregar_recurso ev r)) (Recurso.id r) = true
    /\ (NoDup (map Recurso.id (Evento.recursos ev)) ->
        NoDup (map Recurso.id
                 (Evento.recursos (snd (evento_agregar_recurso ev r)))))
    /\ fst (evento_remover_recurso ev rid) = contiene_recurso ev rid
    /\ (forall rid',
          rid' <> rid ->
          contiene_recurso (snd (evento_remover_recurso ev rid)) rid'
          = contiene_recurso ev rid')
    /\ (NoDup (map Recurso.id (Evento.recursos ev)) ->
        contiene_recurso (snd (evento_remover_recurso ev rid)) rid = false)
    /\ (contiene_recurso ev (Recurso.id r) = false ->
        snd (evento_remover_recurso (snd (evento_agregar_recurso ev r))
               (Recurso.id r)) = ev).
Proof.
  intros ev r rid.
  destruct (remover_de_lista_spec (Evento.recursos ev) rid) as (R1 & R2 & R3).
  pose proof (remover_de_lista_primero (Evento.recursos ev) rid) as R4.
  pose proof (remover_de_lista_ausente (Evento.recursos ev) rid) as R5.
  unfold evento_agregar_recurso, evento_remover_recurso.
  split; [destruct (contiene_recurso ev (Recurso.id r)); reflexivity|].
  split; [intros Hc; rewrite Hc; reflexivity|].
  split; [intros Hc; rewrite Hc; reflexivity|].
  split.
  { intros Hc. rewrite (R5 Hc). destruct ev; reflexivity. }
  split.
  { intros Hc. destruct (R4 Hc) as (pre & x & post & H1 & H2 & H3 & H4).
    exists pre, x, post. split; [exact H1|]. split; [exact H2|].
    split; [exact H3|].
    destruct (remover_de_lista (Evento.recursos ev) rid) as [b rs'].
    simpl in H4. rewrite H4. reflexivity. }
  split.
  { destruct (contiene_recurso ev (Recurso.id r)) eqn:Hc; simpl; [exact Hc|].
    unfold contiene_recurso, list_append. simpl.
    rewrite existsb_app. simpl. rewrite String.eqb_refl.
    rewrite orb_true_r. reflexivity. }
  split.
  { intros Hnd. destruct (contiene_recurso ev (Recurso.id r)) eqn:Hc; simpl;
      [exact Hnd|].
    unfold list_append. rewrite map_app. simpl.
    clear -Hnd Hc. unfold contiene_recurso in Hc.
    induction (Evento.recursos ev) as [|x rs IH]; simpl.
    - constructor; [intros [] | constructor].
    - simpl in Hc. apply orb_false_iff in Hc as [Hx Hc].
      inversion Hnd as [|? ? Hni Hnd']; subst. constructor; [|auto].
      intros Hin. apply in_app_or in Hin as [Hin|[Hin|[]]]; [contradiction|].
      apply String.eqb_neq in Hx. congruence. }
  destruct (remover_de_lista (Evento.recursos ev) rid) as [b rs'] eqn:Er.
  simpl in *.
  split; [exact R1|]. split; [exact R2|]. split; [intros Hnd; apply R3, Hnd|].
  intros Hc. rewrite Hc. simpl. unfold list_append.
  rewrite remover_de_lista_ultimo by exact Hc.
  destruct ev; reflexivity.
Qed.

(** ** The duration shown for an event *)

Lemma dt_resta_mas_horas :
  forall f h,
    td_seconds (dt_resta (mas_horas f h) f) = (h mod 24) * 3600.
Proof.
  intros [o m] h. unfold dt_resta, mas_horas. cbn [ordinal micros td_seconds].
  change MICROS_POR_DIA with (24 * 3600000000).
  change MICROS_POR_HORA with 3600000000.
  set (t := m + h * 3600000000).
  replace ((o + t / (24 * 3600000000) - o) * (24 * 3600000000)
           + (t mod (24 * 3600000000) - m))
    with (h * 3600000000).
  2:{ pose proof (Z.div_mod t (24 * 3600000000) ltac:(lia)). subst t. lia. }
  rewrite Z.mul_mod_distr_r by lia.
  replace ((h mod 24) * 3600000000) with ((h mod 24) * 3600 * 1000000) by lia.
  apply Z.div_mul. lia.
Qed.

Lemma dt_resta_mas_dias :
  forall a b k,
    td_seconds (dt_resta (mas_dias a k) b) = td_seconds (dt_resta a b).
Proof.
  intros [oa ma] [ob mb] k. unfold dt_resta, mas_dias.
  cbn [ordinal micros td_seconds]. f_equal.
  replace ((oa + k - ob) * MICROS_POR_DIA + (ma - mb))
    with ((oa - ob) * MICROS_POR_DIA + (ma - mb) + k * MICROS_POR_DIA) by lia.
  apply Z.mod_add. unfold MICROS_POR_DIA, MICROS_POR_HORA. lia.
Qed.

(** X8. The duration shown for an event comes from the seconds field of
    the difference of its two timestamps, which leaves whole days out: an
    event that ends [h] hours after it starts shows [h mod 24] hours (for
    a match of 2 hours, "2 hora(s)"; for one of 24 hours, "0 minuto(s)"),
    and moving the end by whole days does not change the text. *)
Theorem X8_duracion_sin_dias :
  forall (ev : Evento.t) (h k : Z),
    (Evento.fecha_fin ev = mas_horas (Evento.fecha_inicio ev) h ->
     calcular_duracion ev
     = if 0 <? h mod 24 then str_Z (h mod 24) ++ " hora(s)"
       else "0 minuto(s)")
    /\ calcular_duracion (con_fecha_fin ev (mas_dias (Evento.fecha_fin ev) k))
       = calcular_duracion ev.
Proof.
  intros ev h k. split.
  - intros Hf. unfold calcular_duracion. rewrite Hf, dt_resta_mas_horas.
    rewrite Z.div_mul by lia. rewrite Z.mod_mul by lia.
    change (0 / 60) with 0. change (0 <? 0) with false.
    rewrite andb_false_r.
    destruct (0 <? h mod 24); reflexivity.
  - unfold calcular_duracion, con_fecha_fin.
    cbn [Evento.fecha_fin Evento.fecha_inicio].
    rewrite dt_resta_mas_dias. reflexivity.
Qed.

(** ** The registries of the planner *)

Lemma dict_set_nueva :
  forall (V : Type) k (v : V) (d : Dict V),
    dict_contains k d = false -> dict_set k v d = (d ++ [(k, v)])%list.
Proof.
  intros V k v d. unfold dict_contains.
  induction d as [|[k0 v0] d IH]; simpl; [reflexivity|].
  destruct (String.eqb k0 k); simpl; [discriminate|].
  intros H. rewrite IH by exact H. reflexivity.
Qed.

Lemma dict_del_set_nueva :
  forall (V : Type) k (v : V) (d : Dict V),
    dict_contains k d = false -> dict_del k (dict_set k v d) = d.
Proof.
  intros V k v d. unfold dict_contains.
  induction d as [|[k0 v0] d IH]; simpl.
  - rewrite String.eqb_refl. reflexivity.
  - destruct (String.eqb k0 k) eqn:E; simpl; [discriminate|].
    intros H. rewrite E, IH by exact H. reflexivity.
Qed.

Lemma dict_get_del_other :
  forall (V : Type) k k' (d : Dict V),
    k' <> k -> dict_get k' (dict_del k d) = dict_get k' d.
Proof.
  intros V k k' d Hne. induction d as [|[k0 v0] d IH]; simpl; [reflexivity|].
  destruct (String.eqb_spec k0 k) as [->|Hk]; simpl.
  - destruct (String.eqb_spec k k'); [congruence | reflexivity].
  - rewrite IH. reflexivity.
Qed.

Lemma dict_get_del_same :
  forall (V : Type) k (d : Dict V),
    claves_unicas d -> dict_get k (dict_del k d) = None.
Proof.
  intros V k d Hnd. destruct (dict_get k (dict_del k d)) as [v|] eqn:E;
    [|reflexivity].
  apply dict_get_in in E. exfalso.
  eapply in_del_otra_clave; eauto.
Qed.

Lemma dict_set_get_same :
  forall (V : Type) k (v : V) (d : Dict V),
    dict_get k d = Some v -> dict_set k v d = d.
Proof.
  intros V k v d. induction d as [|[k0 v0] d IH]; simpl; [discriminate|].
  destruct (String.eqb k0 k); simpl.
  - intros H. inversion H. reflexivity.
  - intros H. rewrite IH by exact H. reflexivity.
Qed.

Lemma claves_dict_set :
  forall (V : Type) k (v : V) (d : Dict V),
    dict_contains k d = true -> map fst (dict_set k v d) = map fst d.
Proof.
  intros V k v d. unfold dict_contains.
  induction d as [|[k0 v0] d IH]; simpl; [discriminate|].
  destruct (String.eqb k0 k); simpl; [reflexivity|].
  intros H. rewrite IH by exact H. reflexivity.
Qed.

(** X9. [agregar_recurso] registers a resource whose identifier is new, at
    the end of the registry: it is then found under its identifier, and
    every other lookup is as before.  For an identifier already registered
    it returns [False] and the planner is unchanged, so the first
    registration stays.  The identifiers of the registry remain unique. *)
Theorem X9_agregar_recurso :
  forall (self : PlanificadorEventos) (r : Recurso.t),
    (dict_contains (Recurso.id r) (recursos self) = false ->
     fst (agregar_recurso self r) = true
     /\ obtener_recurso (snd (agregar_recurso self r)) (Recurso.id r) = Some r
     /\ (forall k, k <> Recurso.id r ->
           obtener_recurso (snd (agregar_recurso self r)) k
           = obtener_recurso self k)
     /\ obtener_todos_recursos (snd (agregar_recurso self r))
        = (obtener_todos_recursos self ++ [r])%list
     /\ eventos (snd (agregar_recurso self r)) = eventos self)
    /\ (dict_contains (Recurso.id r) (recursos self) = true ->
        agregar_recurso self r = (false, self))
    /\ (claves_unicas (recursos self) ->
        claves_unicas (recursos (snd (agregar_recurso self r)))).
Proof.
  intros self r. unfold agregar_recurso, obtener_recurso, obtener_todos_recursos.
  destruct (dict_contains (Recurso.id r) (recursos self)) eqn:Hc; simpl.
  - split; [discriminate|]. split; [reflexivity|]. auto.
  - split; [|split; [discriminate|apply claves_unicas_set]].
    intros _. split; [reflexivity|].
    split; [apply dict_get_set_same|].
    split; [intros k Hk; apply dict_get_set_other; exact Hk|].
    split; [|reflexivity].
    rewrite dict_set_nueva by exact Hc. unfold dict_values.
    rewrite map_app. reflexivity.
Qed.

(** X10. [eliminar_evento] fails on an unknown identifier and leaves the
    planner as it is.  On a known one it removes that entry alone: the
    identifier is no longer found (the keys being unique) and every other
    lookup is as before.  Deleting an event that was just created under a
    new identifier gives the planner back. *)
Theorem X10_eliminar_evento :
  forall (self : PlanificadorEventos) (k : string),
    (obtener_evento self k = None ->
     eliminar_evento self k = ((false, "Evento no encontrado"), self))
    /\ (forall ev,
          obtener_evento self k = Some ev ->
          fst (eliminar_evento self k)
          = (true, "Evento '" ++ Evento.nombre ev ++ "' eliminado exitosamente")
          /\ recursos (snd (eliminar_evento self k)) = recursos self
          /\ (forall k', k' <> k ->
                obtener_evento (snd (eliminar_evento self k)) k'
                = obtener_evento self k')
          /\ (claves_unicas (eventos self) ->
              obtener_evento (snd (eliminar_evento self k)) k = None))
    /\ (forall ev,
          Evento.id ev = k ->
          dict_contains k (eventos self) = false ->
          fst (fst (planificar_evento self ev)) = true ->
          snd (eliminar_evento (snd (planificar_evento self ev)) k) = self).
Proof.
  intros self k. unfold obtener_evento.
  split; [|split].
  - intros H. unfold eliminar_evento. rewrite H. reflexivity.
  - intros ev H. unfold eliminar_evento. rewrite H. simpl.
    split; [reflexivity|]. split; [reflexivity|].
    split; [intros k' Hk; apply dict_get_del_other; exact Hk|].
    apply dict_get_del_same.
  - intros ev <- Hc. rewrite eliminar_evento_estado.
    unfold planificar_evento.
    destruct (validar_evento_completo _ _ _) as [[|] errores]; simpl;
      [|discriminate].
    intros _. rewrite dict_del_set_nueva by exact Hc.
    destruct self; reflexivity.
Qed.

(** X11. Deleting an event frees its referees: after [eliminar_evento], a
    referee is available for a start date as soon as every other stored
    event that holds it starts at least 7 days from that date; and a
    referee that was available stays available. *)
Theorem X11_eliminar_evento_libera :
  forall (self : PlanificadorEventos) (k : string) (a : Recurso.t)
         (fi ff : DateTime),
    (claves_unicas (eventos self) ->
     (forall k' ev,
         In (k', ev) (eventos self) -> k' <> k ->
         contiene_recurso ev (Recurso.id a) = true ->
         7 <= Z.abs (date fi - date (Evento.fecha_inicio ev))) ->
     fst (verificar_disponibilidad_recurso (snd (eliminar_evento self k))
            a fi ff) = true)
    /\ (fst (verificar_disponibilidad_recurso self a fi ff) = true ->
        fst (verificar_disponibilidad_recurso (snd (eliminar_evento self k))
               a fi ff) = true).
Proof.
  intros self k a fi ff. rewrite eliminar_evento_estado.
  unfold verificar_disponibilidad_recurso, obtener_eventos. cbn [eventos].
  destruct (es_arbitro a); [|split; reflexivity].
  rewrite !validar_disponibilidad_arbitro_libre, !forallb_forall.
  split.
  - intros Hnd Hotros ev Hin. apply negb_true_iff. unfold en_conflicto.
    destruct (contiene_recurso ev (Recurso.id a)) eqn:Hc; [|reflexivity].
    simpl. apply Z.ltb_ge.
    unfold dict_values in Hin. apply in_map_iff in Hin as ([k' e] & E & Hin).
    simpl in E. subst e.
    apply (Hotros k' ev); [eapply in_del; eassumption | | exact Hc].
    eapply in_del_otra_clave; eassumption.
  - intros H ev Hin. apply H. eapply in_values_del. eassumption.
Qed.

(** ** Modify *)

Lemma validar_evento_completo_campos :
  forall self e e' evs,
    Evento.fecha_inicio e = Evento.fecha_inicio e' ->
    Evento.fecha_fin e = Evento.fecha_fin e' ->
    Evento.recursos e = Evento.recursos e' ->
    validar_evento_completo self e evs = validar_evento_completo self e' evs.
Proof.
  intros self e e' evs H1 H2 H3. unfold validar_evento_completo.
  rewrite H1, H2, H3. reflexivity.
Qed.

(** X12. [modificar_evento] fails on an unknown identifier.  For a stored
    event it validates the event with the changes applied (the fields not
    given kept from the original) against the other stored events, those
    of another identifier: when that fails, the reasons are returned and
    the planner is unchanged; when it passes, the changed event takes the
    place of the original under the same key, with the same identifier,
    name and teams, and nothing else changes.  A modification that changes
    nothing and passes leaves the planner as it is. *)
Theorem X12_modificar_evento :
  forall (self : PlanificadorEventos) (k : string)
         (nfi nff : option DateTime) (nrs : option (list Recurso.t))
         (id_temp : string),
    (obtener_evento self k = None ->
     modificar_evento self k nfi nff nrs id_temp
     = ((false, "Evento no encontrado"), self))
    /\ (forall original,
          obtener_evento self k = Some original ->
          let nuevo := evento_modificado original nfi nff nrs in
          let r := validar_evento_completo (validador self) nuevo
                     (otros_eventos self k) in
          let despues := snd (modificar_evento self k nfi nff nrs id_temp) in
          (fst r = false ->
           modificar_evento self k nfi nff nrs id_temp
           = ((false, join salto_de_linea (snd r)), self))
          /\ (fst r = true ->
              fst (modificar_evento self k nfi nff nrs id_temp)
              = (true, "Evento modificado exitosamente")
              /\ eventos despues = dict_set k nuevo (eventos self)
              /\ obtener_evento despues k = Some nuevo
              /\ (forall k', k' <> k ->
                    obtener_evento despues k' = obtener_evento self k')
              /\ map fst (eventos despues) = map fst (eventos self)
              /\ recursos despues = recursos self)
          /\ (nfi = None -> nff = None -> nrs = None -> fst r = true ->
              despues = self)).
Proof.
  intros self k nfi nff nrs id_temp.
  split.
  - unfold obtener_evento. intros H. unfold modificar_evento. rewrite H.
    reflexivity.
  - intros original H nuevo r despues. subst r despues.
    unfold obtener_evento in *.
    unfold modificar_evento. rewrite H.
    fold (otros_eventos self k).
    set (temp := match Evento.equipos original with
                 | Some (loc, vis) => _
                 | None => _
                 end).
    assert (Et : validar_evento_completo (validador self) temp
                   (otros_eventos self k)
                 = validar_evento_completo (validador self) nuevo
                     (otros_eventos self k)).
    { apply validar_evento_completo_campos; subst temp nuevo;
        destruct (Evento.equipos original) as [[loc vis]|]; reflexivity. }
    rewrite Et.
    fold (evento_modificado original nfi nff nrs). fold nuevo.
    destruct (validar_evento_completo (validador self) nuevo
                (otros_eventos self k)) as [[|] errores]; cbn [fst snd negb].
    + split; [discriminate|]. split.
      * intros _. cbn [fst snd eventos recursos].
        split; [reflexivity|]. split; [reflexivity|].
        split; [apply dict_get_set_same|].
        split; [intros k' Hk; apply dict_get_set_other; exact Hk|].
        split; [|reflexivity].
        apply claves_dict_set. apply dict_contains_get. eauto.
      * intros -> -> -> _. cbn [snd].
        assert (En : nuevo = original) by (subst nuevo; destruct original; reflexivity).
        rewrite En, dict_set_get_same by exact H. destruct self; reflexivity.
    + split; [reflexivity|]. split; [discriminate|].
      intros _ _ _ Hf. discriminate Hf.
Qed.

(** ** Available referees, suggestion and booking *)

Lemma es_de_tipo_arbitro :
  forall t a, es_de_tipo t a = true -> es_arbitro a = true.
Proof.
  intros t a. unfold es_de_tipo, es_arbitro.
  destruct (Recurso.arbitro a); [reflexivity | discriminate].
Qed.

Lemma en_arbitros_disponibles :
  forall self t fi ff excluir a,
    In a (obtener_arbitros_disponibles self t fi ff excluir)
    <-> In a (obtener_todos_recursos self)
        /\ es_de_tipo t a = true
        /\ ~ In (Recurso.id a) excluir
        /\ fst (validar_disponibilidad_arbitro a fi ff (obtener_eventos self))
           = true.
Proof.
  intros self t fi ff excluir a.
  unfold obtener_arbitros_disponibles, obtener_todos_recursos.
  rewrite arbitros_disponibles_bucle_spec. cbn [app].
  unfold obtener_recursos_por_tipo. rewrite !filter_In.
  fold (es_de_tipo t a). rewrite andb_true_iff, negb_true_iff.
  assert (Hex : existsb (String.eqb (Recurso.id a)) excluir = false
                <-> ~ In (Recurso.id a) excluir).
  { rewrite <- not_true_iff_false, existsb_exists. split.
    - intros H Hin. apply H. exists (Recurso.id a). split; [exact Hin|].
      apply String.eqb_refl.
    - intros H (x & Hx & E). apply String.eqb_eq in E. subst x. auto. }
  rewrite Hex. unfold verificar_disponibilidad_recurso.
  split.
  - intros [[Hin Ht] [Hn Hd]]. rewrite (es_de_tipo_arbitro t a Ht) in Hd. auto.
  - intros (Hin & Ht & Hn & Hd). rewrite (es_de_tipo_arbitro t a Ht). auto.
Qed.

Lemma arbitros_disponibles_sin_excluir :
  forall self t fi ff,
    obtener_arbitros_disponibles self t fi ff []
    = filter (fun a => fst (verificar_disponibilidad_recurso self a fi ff))
             (obtener_recursos_por_tipo self t).
Proof.
  intros self t fi ff. unfold obtener_arbitros_disponibles.
  rewrite arbitros_disponibles_bucle_spec. reflexivity.
Qed.

(** X13. [obtener_arbitros_disponibles] returns, in the order of the
    registry, exactly the registered referees of the category whose
    identifier is not excluded and that are available for the start date;
    in particular no excluded identifier is ever offered, and every
    referee offered with an exclusion list is also offered without it. *)
Theorem X13_arbitros_disponibles :
  forall (self : PlanificadorEventos) (t : TipoArbitro) (fi ff : DateTime)
         (excluir : list string),
    obtener_arbitros_disponibles self t fi ff excluir
    = filter
        (fun a =>
           negb (existsb (String.eqb (Recurso.id a)) excluir)
           && fst (verificar_disponibilidad_recurso self a fi ff))
        (obtener_recursos_por_tipo self t)
    /\ (forall a,
          In a (obtener_arbitros_disponibles self t fi ff excluir)
          <-> In a (obtener_todos_recursos self)
              /\ es_de_tipo t a = true
              /\ ~ In (Recurso.id a) excluir
              /\ (forall ev,
                    In ev (obtener_eventos self) ->
                    contiene_recurso ev (Recurso.id a) = true ->
                    7 <= Z.abs (date fi - date (Evento.fecha_inicio ev))))
    /\ (forall a,
          In a (obtener_arbitros_disponibles self t fi ff excluir) ->
          In a (obtener_arbitros_disponibles self t fi ff [])).
Proof.
  intros self t fi ff excluir. split; [|split].
  - unfold obtener_arbitros_disponibles.
    rewrite arbitros_disponibles_bucle_spec. reflexivity.
  - intros a. rewrite en_arbitros_disponibles.
    rewrite validar_disponibilidad_arbitro_libre, forallb_forall.
    assert (Hd : (forall ev, In ev (obtener_eventos self) ->
                     negb (en_conflicto 7 fi a ev) = true)
                 <-> (forall ev, In ev (obtener_eventos self) ->
                        contiene_recurso ev (Recurso.id a) = true ->
                        7 <= Z.abs (date fi - date (Evento.fecha_inicio ev)))).
    { split.
      - intros H ev Hin Hc. specialize (H ev Hin). apply negb_true_iff in H.
        unfold en_conflicto in H. rewrite Hc in H. simpl in H.
        apply Z.ltb_ge in H. exact H.
      - intros H ev Hin. apply negb_true_iff. unfold en_conflicto.
        destruct (contiene_recurso ev (Recurso.id a)) eqn:Hc; [|reflexivity].
        simpl. apply Z.ltb_ge. auto. }
    rewrite Hd. reflexivity.
  - intros a. rewrite !en_arbitros_disponibles.
    intros (H1 & H2 & _ & H4). split; [exact H1|]. split; [exact H2|].
    split; [intros []|exact H4].
Qed.

Lemma sugerir_arbitros_some :
  forall self fi ff s,
    sugerir_arbitros self fi ff = Some s ->
    exists p l1 l2 c,
      equipo_sugerido s = [p; l1; l2; c]
      /\ In p (obtener_arbitros_disponibles self PRINCIPAL fi ff [])
      /\ In l1 (obtener_arbitros_disponibles self LINEA fi ff [])
      /\ In l2 (obtener_arbitros_disponibles self LINEA fi ff [])
      /\ In c (obtener_arbitros_disponibles self CUARTO fi ff []).
Proof.
  intros self fi ff s. unfold sugerir_arbitros, hay_equipo_arbitral_completo,
    obtener_arbitros_disponibles_todos_tipos, equipo_sugerido.
  cbn [arbitro_principal arbitro_de_linea cuarto_arbitro].
  destruct (obtener_arbitros_disponibles self PRINCIPAL fi ff []) as [|p ps];
    [simpl; discriminate|].
  destruct (obtener_arbitros_disponibles self LINEA fi ff [])
    as [|l1 [|l2 ls]]; [simpl; discriminate | simpl; discriminate|].
  destruct (obtener_arbitros_disponibles self CUARTO fi ff []) as [|c cs];
    [simpl; discriminate|].
  simpl. intros H. inversion H; subst; clear H. simpl.
  exists p, l1, l2, c. repeat split; simpl; auto.
Qed.

Lemma cuotas_exactas_equipo :
  forall p l1 l2 c,
    es_de_tipo PRINCIPAL p = true -> es_de_tipo LINEA l1 = true ->
    es_de_tipo LINEA l2 = true -> es_de_tipo CUARTO c = true ->
    cuotas_exactas [p; l1; l2; c] = true.
Proof.
  intros p l1 l2 c. unfold cuotas_exactas, cuenta_tipo, es_de_tipo. simpl.
  destruct (Recurso.arbitro p) as [[[] ? ?]|]; simpl; try discriminate.
  destruct (Recurso.arbitro l1) as [[[] ? ?]|]; simpl; try discriminate.
  destruct (Recurso.arbitro l2) as [[[] ? ?]|]; simpl; try discriminate.
  destruct (Recurso.arbitro c) as [[[] ? ?]|]; simpl; try discriminate.
  reflexivity.
Qed.

Lemma descansado_disponible :
  forall self t fi ff a,
    In a (obtener_arbitros_disponibles self t fi ff []) ->
    descansado 7 fi (obtener_eventos self) a = true.
Proof.
  intros self t fi ff a H. apply en_arbitros_disponibles in H
    as (_ & _ & _ & H).
  rewrite validar_disponibilidad_arbitro_libre in H.
  unfold descansado. rewrite H. apply orb_true_r.
Qed.

Lemma planificar_equipo_sugerido :
  forall self fi ff s id loc vis,
    validador self = Validador_init ->
    verificar_disponibilidad_estadio self fi ff = true ->
    sugerir_arbitros self fi ff = Some s ->
    fst (planificar_evento self (Partido id loc vis fi ff (equipo_sugerido s)))
    = (true, "Evento planificado exitosamente").
Proof.
  intros self fi ff s id loc vis Hv Hest Hs.
  destruct (sugerir_arbitros_some _ _ _ _ Hs)
    as (p & l1 & l2 & c & Eq & Hp & Hl1 & Hl2 & Hc).
  unfold planificar_evento.
  pose proof (validar_evento_completo_predefinido
                (Partido id loc vis fi ff (equipo_sugerido s))
                (obtener_eventos self)) as Hval.
  rewrite Hv.
  destruct (validar_evento_completo Validador_init _ _) as [ok errores].
  cbn [fst] in Hval. cbn [Partido Evento.fecha_inicio Evento.fecha_fin
                          Evento.recursos] in Hval.
  assert (Hok : ok = true).
  { rewrite Hval, Eq. rewrite !andb_true_iff. split; [split|].
    - rewrite <- validar_conflicto_estadio_libre.
      unfold verificar_disponibilidad_estadio in Hest.
      destruct (validar_conflicto_estadio fi ff (obtener_eventos self)).
      exact Hest.
    - simpl. rewrite (descansado_disponible _ _ _ _ _ Hp),
        (descansado_disponible _ _ _ _ _ Hl1),
        (descansado_disponible _ _ _ _ _ Hl2),
        (descansado_disponible _ _ _ _ _ Hc). reflexivity.
    - apply cuotas_exactas_equipo.
      + apply en_arbitros_disponibles in Hp. tauto.
      + apply en_arbitros_disponibles in Hl1. tauto.
      + apply en_arbitros_disponibles in Hl2. tauto.
      + apply en_arbitros_disponibles in Hc. tauto. }
  rewrite Hok. reflexivity.
Qed.

Lemma sugerir_arbitros_primeros :
  forall self fi ff s,
    sugerir_arbitros self fi ff = Some s ->
    hd_error (obtener_arbitros_disponibles self PRINCIPAL fi ff [])
    = Some (sug_principal s)
    /\ sug_linea s
       = firstn 2 (obtener_arbitros_disponibles self LINEA fi ff [])
    /\ List.length (sug_linea s) = 2%nat
    /\ hd_error (obtener_arbitros_disponibles self CUARTO fi ff [])
       = Some (sug_cuarto s).
Proof.
  intros self fi ff s. unfold sugerir_arbitros, hay_equipo_arbitral_completo,
    obtener_arbitros_disponibles_todos_tipos.
  cbn [arbitro_principal arbitro_de_linea cuarto_arbitro].
  destruct (obtener_arbitros_disponibles self PRINCIPAL fi ff []) as [|p ps];
    [simpl; discriminate|].
  destruct (obtener_arbitros_disponibles self LINEA fi ff [])
    as [|l1 [|l2 ls]]; [simpl; discriminate | simpl; discriminate|].
  destruct (obtener_arbitros_disponibles self CUARTO fi ff []) as [|c cs];
    [simpl; discriminate|].
  simpl. intros H. inversion H; subst; clear H. simpl. auto.
Qed.

(** X14. [sugerir_arbitros] gives no team exactly when some category
    lacks its quota of available referees.  The team it gives is the first
    available Principal, the first two available Line referees and the
    first available Fourth referee, each list of available referees being
    in the order of the registry: it passes the co-requisite check, and
    with the predefined restrictions and a free stadium a match with that
    team in that window is accepted by [planificar_evento]. *)
Theorem X14_sugerencia_planificable :
  forall (self : PlanificadorEventos) (fi ff : DateTime),
    (sugerir_arbitros self fi ff = None
     <-> hay_equipo_arbitral_completo
           (obtener_arbitros_disponibles_todos_tipos self fi ff) = false)
    /\ (forall s,
          sugerir_arbitros self fi ff = Some s ->
          (hd_error (obtener_arbitros_disponibles self PRINCIPAL fi ff [])
           = Some (sug_principal s)
           /\ sug_linea s
              = firstn 2 (obtener_arbitros_disponibles self LINEA fi ff [])
           /\ List.length (sug_linea s) = 2%nat
           /\ hd_error (obtener_arbitros_disponibles self CUARTO fi ff [])
              = Some (sug_cuarto s))
          /\ (exists p l1 l2 c,
              equipo_sugerido s = [p; l1; l2; c]
              /\ In p (obtener_arbitros_disponibles self PRINCIPAL fi ff [])
              /\ In l1 (obtener_arbitros_disponibles self LINEA fi ff [])
              /\ In l2 (obtener_arbitros_disponibles self LINEA fi ff [])
              /\ In c (obtener_arbitros_disponibles self CUARTO fi ff []))
          /\ (forall evs,
                co_requisito_validar (equipo_sugerido s) fi ff evs = (true, ""))
          /\ (validador self = Validador_init ->
              verificar_disponibilidad_estadio self fi ff = true ->
              forall id loc vis,
                fst (planificar_evento self
                       (Partido id loc vis fi ff (equipo_sugerido s)))
                = (true, "Evento planificado exitosamente"))).
Proof.
  intros self fi ff. split.
  - unfold sugerir_arbitros, hay_equipo_arbitral_completo,
      obtener_arbitros_disponibles_todos_tipos.
    cbn [arbitro_principal arbitro_de_linea cuarto_arbitro].
    destruct (obtener_arbitros_disponibles self PRINCIPAL fi ff []) as [|p ps];
      [simpl; tauto|].
    destruct (obtener_arbitros_disponibles self CUARTO fi ff []) as [|c cs];
      [simpl; rewrite andb_false_r; tauto|].
    destruct (obtener_arbitros_disponibles self LINEA fi ff [])
      as [|l1 [|l2 ls]]; simpl; try tauto.
    split; discriminate.
  - intros s Hs. split; [exact (sugerir_arbitros_primeros _ _ _ _ Hs)|].
    split; [exact (sugerir_arbitros_some _ _ _ _ Hs)|]. split.
    + intros evs.
      destruct (sugerir_arbitros_some _ _ _ _ Hs)
        as (p & l1 & l2 & c & Eq & Hp & Hl1 & Hl2 & Hc).
      assert (Hq : cuotas_exactas (equipo_sugerido s) = true).
      { rewrite Eq. apply cuotas_exactas_equipo.
        - apply en_arbitros_disponibles in Hp. tauto.
        - apply en_arbitros_disponibles in Hl1. tauto.
        - apply en_arbitros_disponibles in Hl2. tauto.
        - apply en_arbitros_disponibles in Hc. tauto. }
      rewrite <- (co_requisito_validar_cuotas _ fi ff evs) in Hq.
      unfold co_requisito_validar in *.
      destruct (co_requisito_errores (equipo_sugerido s));
        [reflexivity | discriminate Hq].
    + intros Hv Hest id loc vis.
      apply planificar_equipo_sugerido; assumption.
Qed.

(** X15. The slot found by the horizon search can be booked: with the
    predefined restrictions, when [buscar_proximo_horario] returns a
    kickoff, [sugerir_arbitros] gives a team for the window of that kickoff
    and [planificar_evento] accepts the match with that team (the planner
    being the same in the three calls). *)
Theorem X15_horario_encontrado_planificable :
  forall (self : PlanificadorEventos) (reloj : Reloj) (fecha_desde : DateTime)
         (dur max_dias : Z) (c : DateTime) (d : ArbitrosDisponibles),
    validador self = Validador_init ->
    buscar_proximo_horario self reloj fecha_desde dur max_dias
    = Termina (Some (c, d)) ->
    exists s,
      sugerir_arbitros self c (mas_horas c dur) = Some s
      /\ forall id loc vis,
           fst (planificar_evento self
                  (Partido id loc vis c (mas_horas c dur) (equipo_sugerido s)))
           = (true, "Evento planificado exitosamente").
Proof.
  intros self reloj fecha_desde dur max_dias c d Hv Hb.
  rewrite buscar_proximo_horario_spec in Hb. inversion Hb as [Hp]. clear Hb.
  apply primero_aceptable_some in Hp as (i & _ & Ha & _ & _).
  unfold aceptable in Ha. apply andb_true_iff in Ha as [Ha Hequipo].
  apply andb_true_iff in Ha as [_ Hest].
  destruct (sugerir_arbitros self c (mas_horas c dur)) as [s|] eqn:Hs.
  - exists s. split; [reflexivity|]. intros id loc vis.
    apply planificar_equipo_sugerido; assumption.
  - exfalso. revert Hs Hequipo.
    unfold sugerir_arbitros, hay_equipo_arbitral_completo,
      obtener_arbitros_disponibles_todos_tipos.
    cbn [arbitro_principal arbitro_de_linea cuarto_arbitro].
    destruct (obtener_arbitros_disponibles self PRINCIPAL c _ []) as [|p ps];
      [simpl; discriminate|].
    destruct (obtener_arbitros_disponibles self CUARTO c _ []) as [|q qs];
      [simpl; rewrite andb_false_r; discriminate|].
    intros Hs Hequipo. rewrite Hequipo in Hs. discriminate Hs.
Qed.

(** ** Sorted views of the calendar *)

Lemma in_insertar_por_fecha_desc :
  forall e l x, In x (insertar_por_fecha_desc e l) <-> x = e \/ In x l.
Proof.
  intros e l x. induction l as [|y l IH]; simpl.
  - intuition congruence.
  - destruct (dt_ltb (Evento.fecha_inicio y) (Evento.fecha_inicio e)); simpl.
    + intuition congruence.
    + rewrite IH. intuition congruence.
Qed.

Lemma in_sorted_por_fecha_desc :
  forall l x, In x (sorted_por_fecha_desc l) <-> In x l.
Proof.
  intros l x. unfold sorted_por_fecha_desc.
  assert (H : forall acc,
             In x (fold_left (fun acc e => insertar_por_fecha_desc e acc) l acc)
             <-> In x acc \/ In x l).
  { induction l as [|e l IH]; intros acc; simpl.
    - tauto.
    - rewrite IH, in_insertar_por_fecha_desc. intuition congruence. }
  rewrite H. simpl. tauto.
Qed.

Lemma insertar_por_fecha_desc_descendente :
  forall e l, descendente l -> descendente (insertar_por_fecha_desc e l).
Proof.
  intros e l Hl. unfold descendente in *.
  induction Hl as [|x l Hl IH Hx]; simpl.
  - constructor; constructor.
  - destruct (dt_ltb (Evento.fecha_inicio x) (Evento.fecha_inicio e)) eqn:E.
    + constructor; [constructor; assumption|].
      assert (Hex : antes_o_igual x e) by (unfold antes_o_igual; dt_arith).
      constructor; [exact Hex|].
      rewrite Forall_forall in *. intros y Hy.
      unfold antes_o_igual in *. eapply dt_le_trans; [|exact Hex]. auto.
    + constructor; [exact IH|].
      rewrite Forall_forall in *. intros y Hy.
      apply in_insertar_por_fecha_desc in Hy as [->|Hy]; [|auto].
      unfold antes_o_igual. dt_arith.
Qed.

Lemma sorted_por_fecha_desc_descendente :
  forall l, descendente (sorted_por_fecha_desc l).
Proof.
  intros l. unfold sorted_por_fecha_desc.
  assert (H : forall acc, descendente acc ->
                descendente
                  (fold_left (fun acc e => insertar_por_fecha_desc e acc) l acc)).
  { induction l as [|e l IH]; intros acc Hacc; simpl; [exact Hacc|].
    apply IH. apply insertar_por_fecha_desc_descendente. exact Hacc. }
  apply H. constructor.
Qed.

Lemma sorted_por_fecha_desc_permutacion :
  forall l, Permutation (sorted_por_fecha_desc l) l.
Proof.
  intros l. unfold sorted_por_fecha_desc.
  assert (Hins : forall e acc,
             Permutation (insertar_por_fecha_desc e acc) (e :: acc)).
  { intros e acc. induction acc as [|y acc IH]; simpl; [reflexivity|].
    destruct (dt_ltb (Evento.fecha_inicio y) (Evento.fecha_inicio e));
      [reflexivity|].
    rewrite IH. apply perm_swap. }
  assert (H : forall acc,
             Permutation
               (fold_left (fun acc e => insertar_por_fecha_desc e acc) l acc)
               (acc ++ l)).
  { induction l as [|e l IH]; intros acc; simpl.
    - rewrite app_nil_r. reflexivity.
    - rewrite IH, Hins. simpl. apply Permutation_middle. }
  apply (H []).
Qed.

Lemma particion_permutacion :
  forall (A : Type) (p q : A -> bool) (l : list A),
    (forall x, q x = negb (p x)) ->
    Permutation (filter p l ++ filter q l) l.
Proof.
  intros A p q l Hq. induction l as [|x l IH]; simpl; [reflexivity|].
  rewrite Hq. destruct (p x); simpl.
  - constructor. exact IH.
  - rewrite <- Permutation_middle. constructor. exact IH.
Qed.

Lemma filter_ordenada :
  forall (R : Evento.t -> Evento.t -> Prop) p l,
    StronglySorted R l -> StronglySorted R (filter p l).
Proof.
  intros R p l Hl. induction Hl as [|x l Hl IH Hx]; simpl; [constructor|].
  destruct (p x); [|exact IH]. constructor; [exact IH|].
  rewrite Forall_forall in *. intros y Hy. apply filter_In in Hy as [Hy _].
  auto.
Qed.

(** X16. [obtener_eventos_futuros] returns exactly the stored events that
    start strictly after the clock reading, in ascending order of start;
    [obtener_eventos_pasados] exactly those that start at or before it, in
    descending order.  Together the two lists are a rearrangement of all
    the stored events: each event is in one of them and in one only. *)
Theorem X16_eventos_futuros_y_pasados :
  forall (self : PlanificadorEventos) (ahora : DateTime),
    (forall ev,
        In ev (obtener_eventos_futuros self ahora)
        <-> In ev (obtener_eventos self)
            /\ dt_lt ahora (Evento.fecha_inicio ev))
    /\ (forall ev,
          In ev (obtener_eventos_pasados self ahora)
          <-> In ev (obtener_eventos self)
              /\ dt_le (Evento.fecha_inicio ev) ahora)
    /\ ascendente (obtener_eventos_futuros self ahora)
    /\ descendente (obtener_eventos_pasados self ahora)
    /\ Permutation
         (obtener_eventos_futuros self ahora
          ++ obtener_eventos_pasados self ahora)
         (obtener_eventos self)
    /\ (forall ev,
          In ev (obtener_eventos_futuros self ahora) ->
          ~ In ev (obtener_eventos_pasados self ahora)).
Proof.
  intros self ahora.
  assert (Hf : forall ev,
             In ev (obtener_eventos_futuros self ahora)
             <-> In ev (obtener_eventos self)
                 /\ dt_lt ahora (Evento.fecha_inicio ev)).
  { intros ev. unfold obtener_eventos_futuros, obtener_eventos.
    rewrite in_sorted_por_fecha, filter_In. reflexivity. }
  assert (Hp : forall ev,
             In ev (obtener_eventos_pasados self ahora)
             <-> In ev (obtener_eventos self)
                 /\ dt_le (Evento.fecha_inicio ev) ahora).
  { intros ev. unfold obtener_eventos_pasados, obtener_eventos.
    rewrite in_sorted_por_fecha_desc, filter_In. reflexivity. }
  split; [exact Hf|]. split; [exact Hp|].
  split; [apply sorted_por_fecha_ascendente|].
  split; [apply sorted_por_fecha_desc_descendente|].
  split.
  - unfold obtener_eventos_futuros, obtener_eventos_pasados, obtener_eventos.
    rewrite sorted_por_fecha_permutacion, sorted_por_fecha_desc_permutacion.
    apply particion_permutacion. intros x. unfold dt_gtb.
    apply dt_leb_negb_ltb.
  - intros ev H1 H2. apply Hf in H1 as [_ H1]. apply Hp in H2 as [_ H2].
    dt_arith.
Qed.

Lemma primero_ordenada_minimo :
  forall l e,
    ascendente l -> primero_o_none l = Some e ->
    In e l /\ forall x, In x l -> antes_o_igual e x.
Proof.
  intros l e Hl H. destruct l as [|y l]; simpl in H; [discriminate|].
  inversion H; subst. split; [left; reflexivity|].
  inversion Hl as [|? ? _ Hall]; subst. rewrite Forall_forall in Hall.
  intros x [<-|Hx]; [apply dt_le_refl | auto].
Qed.

(** X17. [obtener_agenda_recurso] reports an unknown identifier with the
    text [Recurso no encontrado].  For a registered resource, its next
    event is the earliest of the stored events that hold the resource and
    start strictly after the clock reading [ahora], and the future and past
    events of the agenda add up to its total.  When the agenda has no next
    event, a call of [eliminar_recurso] whose clock readings, one for each
    event of the resource, are all at or after [ahora] removes the resource;
    when such a call with readings all at or before [ahora] removes the
    resource, the agenda has no next event; so that with a clock standing
    still at [ahora] there is no next event exactly when [eliminar_recurso]
    removes the resource. *)
Theorem X17_agenda_recurso :
  forall (self : PlanificadorEventos) (rid : string) (ahora : DateTime),
    (obtener_recurso self rid = None ->
     obtener_agenda_recurso self rid ahora = inr "Recurso no encontrado")
    /\ (forall r,
          obtener_recurso self rid = Some r ->
          exists ag,
            obtener_agenda_recurso self rid ahora = inl ag
            /\ ag_recurso ag = r
            /\ ag_total_eventos ag
               = (List.length (ag_eventos_futuros ag)
                  + List.length (ag_eventos_pasados ag))%nat
            /\ (forall e,
                  ag_proximo_evento ag = Some e ->
                  In e (obtener_eventos self)
                  /\ contiene_recurso e rid = true
                  /\ dt_lt ahora (Evento.fecha_inicio e)
                  /\ (forall e',
                        In e' (obtener_eventos self) ->
                        contiene_recurso e' rid = true ->
                        dt_lt ahora (Evento.fecha_inicio e') ->
                        dt_le (Evento.fecha_inicio e) (Evento.fecha_inicio e')))
            /\ (forall reloj : Reloj,
                  (forall i, (i < ag_total_eventos ag)%nat ->
                             dt_le ahora (reloj i)) ->
                  ag_proximo_evento ag = None ->
                  fst (fst (eliminar_recurso self rid reloj)) = true)
            /\ (forall reloj : Reloj,
                  (forall i, (i < ag_total_eventos ag)%nat ->
                             dt_le (reloj i) ahora) ->
                  fst (fst (eliminar_recurso self rid reloj)) = true ->
                  ag_proximo_evento ag = None)
            /\ (ag_proximo_evento ag = None
                <-> fst (fst (eliminar_recurso self rid (fun _ => ahora)))
                    = true)).
Proof.
  intros self rid ahora. unfold obtener_agenda_recurso. split.
  - intros H. rewrite H. reflexivity.
  - intros r H. rewrite H. eexists. split; [reflexivity|].
    cbn [ag_recurso ag_total_eventos ag_eventos_futuros ag_eventos_pasados
         ag_proximo_evento].
    set (evs := obtener_eventos_recurso self rid).
    set (fut := filter (fun e => dt_gtb (Evento.fecha_inicio e) ahora) evs).
    assert (Hin : forall e, In e fut
                    <-> In e (obtener_eventos self)
                        /\ contiene_recurso e rid = true
                        /\ dt_lt ahora (Evento.fecha_inicio e)).
    { intros e. subst fut evs. unfold obtener_eventos_recurso, obtener_eventos.
      rewrite filter_In, in_sorted_por_fecha, filter_In.
      unfold dt_gtb, dt_lt. tauto. }
    assert (Hasc : ascendente fut).
    { subst fut evs. apply filter_ordenada. unfold obtener_eventos_recurso.
      apply sorted_por_fecha_ascendente. }
    split; [reflexivity|]. split.
    { rewrite <- length_app. apply Permutation_length. symmetry.
      apply particion_permutacion. intros x. unfold dt_gtb.
      apply dt_leb_negb_ltb. }
    split.
    { intros e He. destruct (primero_ordenada_minimo fut e Hasc He) as [H1 H2].
      apply Hin in H1 as (Ha & Hb & Hc).
      split; [exact Ha|]. split; [exact Hb|]. split; [exact Hc|].
      intros e' Ha' Hb' Hc'. apply (H2 e'). apply Hin. auto. }
    assert (Hc : dict_contains rid (recursos self) = true).
    { apply dict_contains_get. exists r. exact H. }
    assert (Hdespues : forall reloj : Reloj,
              (forall i, (i < List.length evs)%nat -> dt_le ahora (reloj i)) ->
              primero_o_none fut = None ->
              fst (fst (eliminar_recurso self rid reloj)) = true).
    { intros reloj Hr Hn.
      rewrite eliminar_recurso_exito; [reflexivity | exact Hc |].
      fold evs. intros (i & ev & Hi & Hlt).
      assert (Hb : (i < List.length evs)%nat)
        by (apply nth_error_Some; congruence).
      specialize (Hr i Hb).
      assert (Hf : In ev fut).
      { subst fut. apply filter_In. split; [eapply nth_error_In; exact Hi|].
        dt_arith. }
      destruct fut; [destruct Hf | discriminate Hn]. }
    assert (Hantes : forall reloj : Reloj,
              (forall i, (i < List.length evs)%nat -> dt_le (reloj i) ahora) ->
              fst (fst (eliminar_recurso self rid reloj)) = true ->
              primero_o_none fut = None).
    { intros reloj Hr Ht.
      destruct fut as [|e fut'] eqn:Ef; [reflexivity|]. exfalso.
      assert (He : In e (filter (fun e => dt_gtb (Evento.fecha_inicio e) ahora)
                           evs))
        by (fold fut; rewrite Ef; left; reflexivity).
      apply filter_In in He as [He Hlt].
      apply In_nth_error in He as [i Hi].
      assert (Hb : (i < List.length evs)%nat)
        by (apply nth_error_Some; congruence).
      specialize (Hr i Hb).
      assert (Hf : fst (fst (eliminar_recurso self rid reloj)) = false).
      { apply eliminar_recurso_guardia; [exact Hc|]. fold evs.
        exists i, e. split; [exact Hi|]. dt_arith. }
      congruence. }
    split; [exact Hdespues|]. split; [exact Hantes|].
    split.
    + intros Hn. apply Hdespues; [intros i _; apply dt_le_refl | exact Hn].
    + intros Ht. apply (Hantes (fun _ => ahora));
        [intros i _; apply dt_le_refl | exact Ht].
Qed.

(** X18. In [obtener_estadisticas] the future and past events add up to
    the total, and the referees of the three categories are the resources
    of the registry that are referees.  The next match it reports is the
    first stored event, in the order of registration, that starts strictly
    after the clock reading, and there is one exactly when the number of
    future events is not zero. *)
Theorem X18_estadisticas :
  forall (self : PlanificadorEventos) (ahora : DateTime),
    let est := obtener_estadisticas self ahora in
    est_total_eventos est
    = (est_eventos_futuros est + est_eventos_pasados est)%nat
    /\ (apt_principales (est_arbitros_por_tipo est)
        + apt_linea (est_arbitros_por_tipo est)
        + apt_cuartos (est_arbitros_por_tipo est))%nat
       = List.length (filter es_arbitro (obtener_todos_recursos self))
    /\ (est_proximo_partido est = None <-> est_eventos_futuros est = 0%nat)
    /\ (forall e,
          est_proximo_partido est = Some e ->
          exists pre post,
            obtener_eventos self = (pre ++ e :: post)%list
            /\ dt_lt ahora (Evento.fecha_inicio e)
            /\ forall x, In x pre -> dt_le (Evento.fecha_inicio x) ahora).
Proof.
  intros self ahora est. subst est. unfold obtener_estadisticas.
  cbn [est_total_eventos est_eventos_futuros est_eventos_pasados
       est_arbitros_por_tipo est_proximo_partido apt_principales apt_linea
       apt_cuartos].
  split.
  { rewrite <- length_app. apply Permutation_length. symmetry.
    apply particion_permutacion. intros x. unfold dt_gtb.
    apply dt_leb_negb_ltb. }
  split.
  { unfold obtener_recursos_por_tipo, obtener_todos_recursos.
    induction (dict_values (recursos self)) as [|r rs IH]; simpl; [reflexivity|].
    unfold es_arbitro at 1.
    destruct (Recurso.arbitro r) as [[[] ? ?]|]; simpl; lia. }
  split.
  { destruct (filter _ (obtener_eventos self)); simpl;
      split; auto; discriminate. }
  intros e. induction (obtener_eventos self) as [|x l IH]; simpl;
    [discriminate|].
  destruct (dt_gtb (Evento.fecha_inicio x) ahora) eqn:E; simpl.
  - intros H. inversion H; subst. exists [], l. split; [reflexivity|].
    split; [exact E | intros y []].
  - intros H. destruct (IH H) as (pre & post & -> & Hlt & Hpre).
    exists (x :: pre), post. split; [reflexivity|]. split; [exact Hlt|].
    intros y [<-|Hy]; [|auto]. unfold dt_gtb in E. dt_arith.
Qed.

(** X19. [obtener_eventos_en_rango] returns exactly the stored events
    whose interval overlaps the window, in ascending order of start.  It
    is empty whenever the stadium is available for that window. *)
Theorem X19_eventos_en_rango :
  forall (self : PlanificadorEventos) (fi ff : DateTime),
    (forall ev,
        In ev (obtener_eventos_en_rango self fi ff)
        <-> In ev (obtener_eventos self)
            /\ dt_lt (Evento.fecha_inicio ev) ff
            /\ dt_lt fi (Evento.fecha_fin ev))
    /\ ascendente (obtener_eventos_en_rango self fi ff)
    /\ (verificar_disponibilidad_estadio self fi ff = true ->
        obtener_eventos_en_rango self fi ff = []).
Proof.
  intros self fi ff.
  assert (Hin : forall ev,
             In ev (obtener_eventos_en_rango self fi ff)
             <-> In ev (obtener_eventos self)
                 /\ se_superpone_con ev fi ff = true).
  { intros ev. unfold obtener_eventos_en_rango, obtener_eventos.
    rewrite in_sorted_por_fecha, filter_In. reflexivity. }
  split; [|split].
  - intros ev. rewrite Hin, se_superpone_con_iff. reflexivity.
  - apply sorted_por_fecha_ascendente.
  - intros Hest. destruct (obtener_eventos_en_rango self fi ff) as [|e l] eqn:E;
      [reflexivity|]. exfalso.
    assert (He : In e (e :: l)) by (left; reflexivity).
    apply Hin in He as [He Hov].
    unfold verificar_disponibilidad_estadio in Hest.
    pose proof (validar_conflicto_estadio_libre fi ff (obtener_eventos self))
      as Hl.
    destruct (validar_conflicto_estadio fi ff (obtener_eventos self)) as [v m].
    cbn [fst] in Hl. subst v. symmetry in Hl. rewrite forallb_forall in Hl.
    specialize (Hl e He). unfold estadio_libre in Hl. rewrite Hov in Hl.
    discriminate Hl.
Qed.

(** ** Resources as dictionaries *)

Lemma tipo_de_datos_to_dict :
  forall id nombre desc a,
    tipo_de_datos (to_dict (Recurso.mk id nombre desc (Some a))) = tipo a.
Proof. intros id nombre desc [[] nac exp]; reflexivity. Qed.

(** X20. Reading back the dictionary written for a resource gives the
    resource again: as it was for a plain resource, and for a referee with
    the same identifier, name, category, nationality and experience, its
    description being written anew from category and nationality (so a
    referee built by the constructor comes back as it was).  A dictionary
    without the key [nombre] raises the [KeyError] of that key, and a
    category that is missing or is none of the three texts is read as
    Principal. *)
Theorem X20_recurso_ida_y_vuelta :
  forall (r : Recurso.t),
    (es_arbitro r = false -> recurso_desde_dict (to_dict r) = Leido r)
    /\ (forall a,
          Recurso.arbitro r = Some a ->
          recurso_desde_dict (to_dict r)
          = Leido (Arbitro (Recurso.id r) (Recurso.nombre r) (tipo a)
                     (nacionalidad a) (experiencia_anios a)))
    /\ (forall id nombre t nac exp,
          recurso_desde_dict (to_dict (Arbitro id nombre t nac exp))
          = Leido (Arbitro id nombre t nac exp))
    /\ (forall data,
          dict_get "nombre" data = None ->
          Recurso_from_dict data = KeyError "nombre"
          /\ Arbitro_from_dict data = KeyError "nombre")
    /\ (forall data,
          (forall s, dict_get "tipo_arbitro" data = Some (VStr s) ->
                     s <> tipo_value LINEA /\ s <> tipo_value CUARTO) ->
          tipo_de_datos data = PRINCIPAL).
Proof.
  intros [id nombre desc arb]. split; [|split; [|split; [|split]]].
  - unfold es_arbitro. simpl. destruct arb; [discriminate|]. intros _.
    reflexivity.
  - intros a Ha. simpl in Ha. subst arb. destruct a as [[] nac exp]; reflexivity.
  - intros id' nombre' [] nac exp; reflexivity.
  - intros data H. unfold Recurso_from_dict, Arbitro_from_dict, leer_texto.
    rewrite H. split; reflexivity.
  - intros data H. unfold tipo_de_datos.
    destruct (dict_get "tipo_arbitro" data) as [[s|z]|]; try reflexivity.
    destruct (H s eq_refl) as [H1 H2].
    destruct (String.eqb_spec s (tipo_value PRINCIPAL)); [reflexivity|].
    destruct (String.eqb_spec s (tipo_value LINEA)); [contradiction|].
    destruct (String.eqb_spec s (tipo_value CUARTO)); [contradiction|].
    reflexivity.
Qed.

(** ** Weeks and operating hours *)

Lemma weekday_rango : forall f, 0 <= weekday f < 7.
Proof. intros f. unfold weekday. apply Z.mod_pos_bound. lia. Qed.

(** X21. The week of a timestamp runs from 00:00:00 of its Monday to
    23:59:59 of its Sunday, six days later.  A timestamp lies in the range
    of its own week, except in the last second of the Sunday after
    23:59:59 exactly, because the end of the range has no microseconds. *)
Theorem X21_rango_semana :
  forall (fecha : DateTime),
    hora_valida fecha ->
    let inicio := fst (obtener_rango_semana fecha) in
    let fin := snd (obtener_rango_semana fecha) in
    weekday inicio = 0 /\ micros inicio = 0
    /\ weekday fin = 6 /\ micros fin = 86399000000
    /\ date fin - date inicio = 6
    /\ es_fin_de_semana fin = true
    /\ date inicio <= date fecha <= date fin
    /\ (fecha_en_rango fecha inicio fin = true
        <-> ~ (weekday fecha = 6 /\ 86399000000 < micros fecha)).
Proof.
  intros [o m] Hv inicio fin. subst inicio fin.
  unfold hora_valida, MICROS_POR_DIA, MICROS_POR_HORA in Hv. simpl in Hv.
  unfold obtener_rango_semana, fecha_en_rango, es_fin_de_semana, weekday,
    replace_hms, mas_dias, date.
  cbn [fst snd ordinal micros].
  pose proof (Z.div_mod (o + 6) 7 ltac:(lia)) as Hdm.
  pose proof (Z.mod_pos_bound (o + 6) 7 ltac:(lia)) as Hb.
  set (w := (o + 6) mod 7) in *.
  assert (E0 : (o + - w + 6) mod 7 = 0).
  { replace (o + - w + 6) with (((o + 6) / 7) * 7) by lia.
    apply Z.mod_mul. lia. }
  assert (E6 : (o + - w + 6 + 6) mod 7 = 6).
  { replace (o + - w + 6 + 6) with (6 + ((o + 6) / 7) * 7) by lia.
    rewrite Z.mod_add by lia. reflexivity. }
  split; [exact E0|]. split; [reflexivity|].
  split; [exact E6|]. split; [reflexivity|].
  split; [lia|].
  split; [rewrite E6; reflexivity|].
  split; [lia|].
  rewrite andb_true_iff. unfold dt_leb. cbn [ordinal micros].
  rewrite !orb_true_iff, !andb_true_iff, !Z.ltb_lt, !Z.eqb_eq, !Z.leb_le.
  lia.
Qed.

Lemma hour_rango :
  forall f, hora_valida f ->
    0 <= hour f < 24
    /\ hour f * MICROS_POR_HORA <= micros f < (hour f + 1) * MICROS_POR_HORA.
Proof.
  intros [o m]. unfold hora_valida, hour, MICROS_POR_DIA, MICROS_POR_HORA.
  simpl. intros Hv.
  pose proof (Z.div_mod m 3600000000 ltac:(lia)) as Hdm.
  pose proof (Z.mod_pos_bound m 3600000000 ltac:(lia)) as Hb.
  lia.
Qed.

Lemma hour_en_punto :
  forall o h, hour (mkDateTime o (h * MICROS_POR_HORA)) = h.
Proof.
  intros o h. unfold hour. simpl. apply Z.div_mul.
  unfold MICROS_POR_HORA. lia.
Qed.

(** X22. The next hour for a match computed by
    [obtener_proxima_hora_partido] is on the hour, between 10:00 and 22:00,
    and strictly later than the base: the next full hour of the same day
    when the base is between 10:00 and 21:59, 10:00 of the same day before
    that, and 10:00 of the next day from 22:00 on. *)
Theorem X22_proxima_hora_partido :
  forall (fecha_base : DateTime),
    hora_valida fecha_base ->
    let proxima := obtener_proxima_hora_partido fecha_base in
    dt_lt fecha_base proxima
    /\ micros proxima = hour proxima * MICROS_POR_HORA
    /\ 10 <= hour proxima <= 22
    /\ (hour fecha_base < 10 ->
        proxima = mkDateTime (ordinal fecha_base) (10 * MICROS_POR_HORA))
    /\ (10 <= hour fecha_base < 22 ->
        proxima = mkDateTime (ordinal fecha_base)
                    ((hour fecha_base + 1) * MICROS_POR_HORA))
    /\ (22 <= hour fecha_base ->
        proxima = mkDateTime (ordinal fecha_base + 1) (10 * MICROS_POR_HORA)).
Proof.
  intros fecha_base Hv proxima. subst proxima.
  destruct (hour_rango fecha_base Hv) as [Hh Hm].
  assert (Ecaso :
    obtener_proxima_hora_partido fecha_base
    = if hour fecha_base <? 10
      then mkDateTime (ordinal fecha_base) (10 * MICROS_POR_HORA)
      else if hour fecha_base <? 22
      then mkDateTime (ordinal fecha_base)
             ((hour fecha_base + 1) * MICROS_POR_HORA)
      else mkDateTime (ordinal fecha_base + 1) (10 * MICROS_POR_HORA)).
  { unfold obtener_proxima_hora_partido, HORA_MINIMA_PARTIDO,
      HORA_MAXIMA_PARTIDO.
    destruct (Z.ltb_spec (hour fecha_base) 10) as [H10|H10].
    - replace (10 <=? hour fecha_base) with false
        by (symmetry; apply Z.leb_gt; lia).
      replace (22 <=? hour fecha_base) with false
        by (symmetry; apply Z.leb_gt; lia).
      reflexivity.
    - replace (10 <=? hour fecha_base) with true
        by (symmetry; apply Z.leb_le; lia).
      destruct (Z.ltb_spec (hour fecha_base) 22) as [H22|H22]; cbn [andb].
      + assert (Ep : mas_horas (replace_en_punto fecha_base) 1
                     = mkDateTime (ordinal fecha_base)
                         ((hour fecha_base + 1) * MICROS_POR_HORA)).
        { unfold mas_horas, replace_en_punto. cbn [ordinal micros].
          replace (hour fecha_base * MICROS_POR_HORA + 1 * MICROS_POR_HORA)
            with ((hour fecha_base + 1) * MICROS_POR_HORA) by lia.
          unfold MICROS_POR_DIA, MICROS_POR_HORA.
          rewrite Z.div_small, Z.mod_small by lia. f_equal. lia. }
        rewrite Ep, hour_en_punto.
        replace (hour fecha_base + 1 <=? 22) with true
          by (symmetry; apply Z.leb_le; lia).
        reflexivity.
      + replace (22 <=? hour fecha_base) with true
          by (symmetry; apply Z.leb_le; lia).
        unfold replace_hms, mas_dias. cbn [ordinal micros].
        f_equal. }
  rewrite Ecaso.
  destruct (Z.ltb_spec (hour fecha_base) 10) as [H10|H10];
    [|destruct (Z.ltb_spec (hour fecha_base) 22) as [H22|H22]];
    rewrite hour_en_punto; cbn [micros];
    (split; [unfold MICROS_POR_HORA in *; dt_arith; cbn [ordinal micros]; lia|]);
    (split; [reflexivity|]); (split; [lia|]);
    (split; [intros; solve [reflexivity | lia]|]);
    split; intros; solve [reflexivity | lia].
Qed.

(** ** The further properties at the sample data *)

Lemma hora_valida_a_las_15 : hora_valida (a_las dia_25_dic 15).
Proof. unfold hora_valida. vm_compute. split; [intro H; discriminate H | reflexivity]. Qed.

Lemma X2_disponibilidad_arbitro_ejemplo :
  validar_disponibilidad_arbitro oliver (a_las (dia_25_dic + 3) 15)
    (a_las (dia_25_dic + 3) 17) [partido_enero; partido_ida]
  = (false, msg_no_disponible oliver partido_ida 3).
Proof.
  destruct (X2_disponibilidad_arbitro oliver (a_las (dia_25_dic + 3) 15)
              (a_las (dia_25_dic + 3) 17) [partido_enero; partido_ida])
    as (_ & _ & H).
  exact (H [partido_enero] partido_ida [] eq_refl eq_refl eq_refl).
Defined.

Lemma X4_validacion_completa_predefinida_ejemplo :
  estadio_libre 2 (a_las (dia_25_dic + 30) 15) (a_las (dia_25_dic + 30) 17)
    partido_ida = true
  /\ cuenta_tipo LINEA (Evento.recursos partido_enero) = 2%nat.
Proof.
  destruct (proj1 (X4_validacion_completa_predefinida partido_enero
                     [partido_ida]) eq_refl) as (H1 & _ & _ & H2 & _).
  split; [apply H1; left; reflexivity | exact H2].
Defined.

Lemma X6_remover_restriccion_ejemplo :
  remover_restriccion (restricciones Validador_init) "Descanso del Estadio"
  = (true, [RestriccionCoRequisito; RestriccionExclusionMutua 7]).
Proof.
  destruct (X6_remover_restriccion
              [RestriccionCoRequisito; RestriccionExclusionMutua 7]
              "Descanso del Estadio") as (_ & _ & _ & H).
  apply (H (RestriccionDescansoEstadio 2)).
  intros x [<-|[<-|[]]] E; discriminate E.
Defined.

Lemma X7_recursos_de_un_evento_ejemplo :
  snd (evento_remover_recurso (snd (evento_agregar_recurso partido_27 oliver))
         "p1") = partido_27.
Proof.
  destruct (X7_recursos_de_un_evento partido_27 oliver "p1")
    as (_ & _ & _ & _ & _ & _ & _ & _ & _ & _ & H).
  exact (H eq_refl).
Defined.

Lemma X8_duracion_sin_dias_ejemplo :
  calcular_duracion partido_ida = "2 hora(s)".
Proof.
  exact (proj1 (X8_duracion_sin_dias partido_ida 2 0) eq_refl).
Defined.

Lemma X9_agregar_recurso_ejemplo :
  obtener_recurso (snd (agregar_recurso plantel balon)) "x1" = Some balon
  /\ agregar_recurso plantel oliver = (false, plantel).
Proof.
  destruct (X9_agregar_recurso plantel balon) as (Hnuevo & _).
  destruct (X9_agregar_recurso plantel oliver) as (_ & Hrepetido & _).
  split.
  - exact (proj1 (proj2 (Hnuevo eq_refl))).
  - exact (Hrepetido eq_refl).
Defined.

Lemma X10_eliminar_evento_ejemplo :
  eliminar_evento plantel_con_partido "e7"
  = ((false, "Evento no encontrado"), plantel_con_partido)
  /\ snd (eliminar_evento (snd (planificar_evento plantel partido_enero)) "e5")
     = plantel.
Proof.
  destruct (X10_eliminar_evento plantel_con_partido "e7") as (Hno & _).
  destruct (X10_eliminar_evento plantel "e5") as (_ & _ & Hvuelta).
  split.
  - exact (Hno eq_refl).
  - exact (Hvuelta partido_enero eq_refl eq_refl eq_refl).
Defined.

Lemma X11_eliminar_evento_libera_ejemplo :
  fst (verificar_disponibilidad_recurso plantel_con_partido oliver
         (a_las (dia_25_dic + 1) 15) (a_las (dia_25_dic + 1) 17)) = false
  /\ fst (verificar_disponibilidad_recurso
            (snd (eliminar_evento plantel_con_partido "e1")) oliver
            (a_las (dia_25_dic + 1) 15) (a_las (dia_25_dic + 1) 17)) = true.
Proof.
  split; [reflexivity|].
  apply (proj1 (X11_eliminar_evento_libera plantel_con_partido "e1" oliver
                  (a_las (dia_25_dic + 1) 15) (a_las (dia_25_dic + 1) 17))).
  - constructor; [intros [] | constructor].
  - intros k' ev [H|[]] Hk. inversion H. congruence.
Defined.

Lemma X12_modificar_evento_ejemplo :
  obtener_evento
    (snd (modificar_evento plantel_con_partido "e1"
            (Some (a_las (dia_25_dic + 1) 21))
            (Some (a_las (dia_25_dic + 1) 23)) None "tmp")) "e1"
  = Some (evento_modificado partido_noche
            (Some (a_las (dia_25_dic + 1) 21))
            (Some (a_las (dia_25_dic + 1) 23)) None).
Proof.
  destruct (X12_modificar_evento plantel_con_partido "e1"
              (Some (a_las (dia_25_dic + 1) 21))
              (Some (a_las (dia_25_dic + 1) 23)) None "tmp") as (_ & H).
  destruct (H partido_noche eq_refl) as (_ & Hok & _).
  exact (proj1 (proj2 (proj2 (Hok eq_refl)))).
Defined.

Lemma X13_arbitros_disponibles_ejemplo :
  In nunn (obtener_arbitros_disponibles plantel LINEA
             (a_las dia_25_dic 15) (a_las dia_25_dic 17) []).
Proof.
  destruct (X13_arbitros_disponibles plantel LINEA (a_las dia_25_dic 15)
              (a_las dia_25_dic 17) ["l1"]) as (_ & _ & H).
  apply H. left. reflexivity.
Defined.

Lemma X14_sugerencia_planificable_ejemplo :
  fst (planificar_evento plantel
         (Partido "e8" "Manchester City" "Brighton"
            (a_las dia_25_dic 15) (a_las dia_25_dic 17)
            (equipo_sugerido (mkSugerencia oliver [beswick; nunn] madley))))
  = (true, "Evento planificado exitosamente").
Proof.
  destruct (X14_sugerencia_planificable plantel (a_las dia_25_dic 15)
              (a_las dia_25_dic 17)) as (_ & H).
  destruct (H (mkSugerencia oliver [beswick; nunn] madley) eq_refl)
    as (_ & _ & _ & Hplan).
  exact (Hplan eq_refl eq_refl "e8" "Manchester City" "Brighton").
Defined.

Lemma X15_horario_encontrado_planificable_ejemplo :
  exists s,
    sugerir_arbitros plantel (a_las dia_25_dic 12)
      (mas_horas (a_las dia_25_dic 12) 2) = Some s
    /\ forall id loc vis,
         fst (planificar_evento plantel
                (Partido id loc vis (a_las dia_25_dic 12)
                   (mas_horas (a_las dia_25_dic 12) 2) (equipo_sugerido s)))
         = (true, "Evento planificado exitosamente").
Proof.
  apply (X15_horario_encontrado_planificable plantel reloj_mediodia
           (a_las dia_25_dic 0) 2 60 (a_las dia_25_dic 12)
           (mkDisponibles [oliver] [beswick; nunn] [madley]) eq_refl).
  vm_compute. reflexivity.
Defined.

Lemma X17_agenda_recurso_ejemplo :
  exists ag,
    obtener_agenda_recurso plantel_con_partido "p1" (a_las dia_25_dic 12)
    = inl ag
    /\ ag_recurso ag = oliver.
Proof.
  destruct (X17_agenda_recurso plantel_con_partido "p1" (a_las dia_25_dic 12))
    as (_ & H).
  destruct (H oliver eq_refl) as (ag & E & Hr & _).
  exists ag. split; [exact E | exact Hr].
Defined.

Lemma X18_estadisticas_ejemplo :
  exists pre post,
    obtener_eventos plantel_con_partido = (pre ++ partido_noche :: post)%list
    /\ dt_lt (a_las dia_25_dic 12) (Evento.fecha_inicio partido_noche)
    /\ forall x, In x pre -> dt_le (Evento.fecha_inicio x) (a_las dia_25_dic 12).
Proof.
  destruct (X18_estadisticas plantel_con_partido (a_las dia_25_dic 12))
    as (_ & _ & _ & H).
  exact (H partido_noche eq_refl).
Defined.

Lemma X19_eventos_en_rango_ejemplo :
  obtener_eventos_en_rango plantel_con_partido
    (a_las (dia_25_dic + 5) 15) (a_las (dia_25_dic + 5) 17) = [].
Proof.
  destruct (X19_eventos_en_rango plantel_con_partido
              (a_las (dia_25_dic + 5) 15) (a_las (dia_25_dic + 5) 17))
    as (_ & _ & H).
  exact (H eq_refl).
Defined.

Lemma X20_recurso_ida_y_vuelta_ejemplo :
  recurso_desde_dict (to_dict balon) = Leido balon
  /\ recurso_desde_dict (to_dict oliver) = Leido oliver.
Proof.
  destruct (X20_recurso_ida_y_vuelta balon) as (Hplano & _).
  destruct (X20_recurso_ida_y_vuelta oliver) as (_ & Harb & _).
  split.
  - exact (Hplano eq_refl).
  - exact (Harb _ eq_refl).
Defined.

Lemma X21_rango_semana_ejemplo :
  weekday (fst (obtener_rango_semana (a_las dia_25_dic 15))) = 0
  /\ fecha_en_rango (a_las dia_25_dic 15)
       (fst (obtener_rango_semana (a_las dia_25_dic 15)))
       (snd (obtener_rango_semana (a_las dia_25_dic 15))) = true.
Proof.
  destruct (X21_rango_semana (a_las dia_25_dic 15) hora_valida_a_las_15)
    as (H0 & _ & _ & _ & _ & _ & _ & Hr).
  split; [exact H0|]. apply Hr. intros [Hw _]. vm_compute in Hw.
  discriminate Hw.
Defined.

Lemma X22_proxima_hora_partido_ejemplo :
  dt_lt (a_las dia_25_dic 15)
        (obtener_proxima_hora_partido (a_las dia_25_dic 15))
  /\ 10 <= hour (obtener_proxima_hora_partido (a_las dia_25_dic 15)) <= 22.
Proof.
  destruct (X22_proxima_hora_partido (a_las dia_25_dic 15)
              hora_valida_a_las_15) as (H1 & _ & H3 & _).
  split; [exact H1 | exact H3].
Defined.

Lemma X16_eventos_futuros_y_pasados_ejemplo :
  In partido_noche (obtener_eventos_futuros plantel_con_partido
                      (a_las dia_25_dic 12))
  /\ ~ In partido_noche (obtener_eventos_pasados plantel_con_partido
                           (a_las dia_25_dic 12)).
Proof.
  destruct (X16_eventos_futuros_y_pasados plantel_con_partido
              (a_las dia_25_dic 12)) as (Hf & _ & _ & _ & _ & Hno).
  assert (H : In partido_noche (obtener_eventos_futuros plantel_con_partido
                                  (a_las dia_25_dic 12))).
  { apply Hf. split; [left; reflexivity | reflexivity]. }
  split; [exact H | exact (Hno _ H)].
Defined.
